(** * KLM Pegasus backend: authentication and session lifecycle

    A shallow embedding of [backend/src/middleware/auth.ts], of the auth
    router that ships in the same bundle as [errorHandler.ts], and of the
    central [errorHandler], followed by the properties of the
    authentication subsystem that the specification states about them.

    Conventions of the embedding.
    - Time is the millisecond count of [Date.now()], an integer. A request
      is served at one clock reading: every [Date.now()], [new Date()] and
      clock read inside jsonwebtoken during that request gives it. Where two
      refresh calls are in flight together, each half of a call has its own
      reading.
    - Row identifiers (Prisma [cuid()] strings) are naturals; the tables are
      finite maps keyed by the primary key.
    - A JWT string is represented by what it parses to (see [Jwt]).
    - Write-only logging ([logSecurityEvent], [logBusinessEvent],
      [logger.error]) has no effect on what a handler answers or stores and
      is left out. *)

From Stdlib Require Import ZArith Lia.
From stdpp Require Import gmap strings list.

Open Scope string_scope.

(** ** Data model (prisma migration 20250816152006) *)

Inductive Role := USER | ADMIN | SUPER_ADMIN.
Inductive Plan := BASIC | PREMIUM | ENTERPRISE.
Inductive Status := ACTIVE | INACTIVE | SUSPENDED | CANCELLED.

#[global] Instance Role_eq_dec : EqDecision Role.
Proof. solve_decision. Defined.
#[global] Instance Plan_eq_dec : EqDecision Plan.
Proof. solve_decision. Defined.
#[global] Instance Status_eq_dec : EqDecision Status.
Proof. solve_decision. Defined.

(** [req.user], which is also the [select] projection of a user row and
    the claim set that [generateTokens] signs. *)
Module AuthUser.
Record t := mk {
  id : nat;
  email : string;
  role : Role;
  subscriptionPlan : Plan;
  subscriptionStatus : Status;
}.
#[global] Instance eq_dec : EqDecision t.
Proof. solve_decision. Defined.
End AuthUser.

(** A row of [users]; the primary key is the key of the table. Columns no
    handler of the subsystem reads or writes are left out. *)
Module User.
Record t := mk {
  email : string;
  passwordHash : string;
  firstName : string;
  lastName : string;
  companyName : option string;
  industry : option string;
  role : Role;
  subscriptionPlan : Plan;
  subscriptionStatus : Status;
  lastLogin : option Z;
  createdAt : Z;
}.

Definition set_lastLogin (d : Z) (u : t) : t :=
  mk (email u) (passwordHash u) (firstName u) (lastName u) (companyName u)
     (industry u) (role u) (subscriptionPlan u) (subscriptionStatus u)
     (Some d) (createdAt u).

Definition set_passwordHash (h : string) (u : t) : t :=
  mk (email u) h (firstName u) (lastName u) (companyName u)
     (industry u) (role u) (subscriptionPlan u) (subscriptionStatus u)
     (lastLogin u) (createdAt u).

(** [select: { id, email, role, subscriptionPlan, subscriptionStatus }] *)
Definition select (id : nat) (u : t) : AuthUser.t :=
  AuthUser.mk id (email u) (role u) (subscriptionPlan u) (subscriptionStatus u).
End User.

(** ** Errors and the central error handler (errorHandler.ts) *)

(** The properties [errorHandler] inspects on an error that is none of the
    classes it tests with [instanceof]. Two of them are objects that the
    handler enumerates: [keyPattern] holds the keys of [error.keyPattern],
    and [errors] says of each value of [error.errors] whether its members
    can be read ([false] for a value that is [null] or [undefined]); either
    is [None] when the error has no such member (it is [undefined] or
    [null]). *)
Module ErrorProps.
Record t := mk {
  name : string;
  constructorName : string;
  message : string;
  code : option Z;
  keyPattern : option (list string);
  errors : option (list bool);
  path : string;
  value : string;
  type : string;
}.
End ErrorProps.

(** [class AppError extends Error] *)
Module AppError.
Record t := mk {
  message : string;
  statusCode : Z;
  isOperational : bool;
  code : option string;
}.
End AppError.

Inductive js_error :=
  | App (a : AppError.t)
  | PrismaClientKnownRequestError (code : string) (target : option (list string))
  | ZodError
  | JsonWebTokenError (message : string)
  | TokenExpiredError (message : string)
  | OtherError (props : ErrorProps.t).

(** [new AppError(message, statusCode, isOperational, code)] *)
Definition new_AppError (message : string) (statusCode : Z) (isOperational : bool)
    (code : string) : js_error :=
  App (AppError.mk message statusCode isOperational (Some code)).

(** What dereferencing [null] throws. *)
Definition TypeError (message : string) : js_error :=
  OtherError (ErrorProps.mk "TypeError" "TypeError" message None None None "" "" "").

(** [error.name] *)
Definition error_name (e : js_error) : string :=
  match e with
  | App _ => "Error"
  | PrismaClientKnownRequestError _ _ => "PrismaClientKnownRequestError"
  | ZodError => "ZodError"
  | JsonWebTokenError _ => "JsonWebTokenError"
  | TokenExpiredError _ => "TokenExpiredError"
  | OtherError p => ErrorProps.name p
  end.

(** [error.constructor.name] *)
Definition error_constructor_name (e : js_error) : string :=
  match e with
  | App _ => "AppError"
  | PrismaClientKnownRequestError _ _ => "PrismaClientKnownRequestError"
  | ZodError => "ZodError"
  | JsonWebTokenError _ => "JsonWebTokenError"
  | TokenExpiredError _ => "TokenExpiredError"
  | OtherError p => ErrorProps.constructorName p
  end.

Definition error_message (e : js_error) : string :=
  match e with
  | App a => AppError.message a
  | PrismaClientKnownRequestError _ _ => "Prisma request failed"
  | ZodError => "Zod validation failed"
  | JsonWebTokenError m => m
  | TokenExpiredError m => m
  | OtherError p => ErrorProps.message p
  end.

(** [error instanceof jwt.JsonWebTokenError]: in jsonwebtoken
    [TokenExpiredError] is a subclass of [JsonWebTokenError]. *)
Definition instanceof_JsonWebTokenError (e : js_error) : bool :=
  match e with
  | JsonWebTokenError _ | TokenExpiredError _ => true
  | _ => false
  end.

(** [error instanceof jwt.TokenExpiredError] *)
Definition instanceof_TokenExpiredError (e : js_error) : bool :=
  match e with
  | TokenExpiredError _ => true
  | _ => false
  end.

Inductive NodeEnv := development | production | test.

#[global] Instance NodeEnv_eq_dec : EqDecision NodeEnv.
Proof. solve_decision. Defined.

(** The slice of [config] the subsystem reads. The two lifetimes are the
    [expiresIn] spans in seconds (the strings of the environment, '1h' and
    '7d' by default, after jsonwebtoken has parsed them). *)
Module Config.
Record t := mk {
  env : NodeEnv;
  secret : string;
  refreshSecret : string;
  expiresIn : Z;
  refreshExpiresIn : Z;
  bcryptRounds : Z;
}.
End Config.

(** ** jsonwebtoken

    The library is not part of the repository. A token string is
    represented by its parse: [Signed secret p] is the HS256 token for the
    payload [p] under [secret]; [Malformed raw] is any other string. *)

Module JWTPayload.
Record t := mk {
  claims : AuthUser.t;
  iat : Z;
  exp : Z;
}.
Definition userId (p : t) : nat := AuthUser.id (claims p).
#[global] Instance eq_dec : EqDecision t.
Proof. solve_decision. Defined.
End JWTPayload.

Inductive Token :=
  | Signed (secret : string) (payload : JWTPayload.t)
  | Malformed (raw : string).

#[global] Instance Token_eq_dec : EqDecision Token.
Proof. solve_decision. Defined.

(** JavaScript truthiness of a token string: only the empty string is falsy. *)
Definition truthy (tok : Token) : bool :=
  match tok with
  | Malformed "" => false
  | _ => true
  end.

Module Jwt.
(** [jwt.sign(claims, secret, { expiresIn })] at clock [now]: [iat] is the
    clock in whole seconds, [exp] is [iat + expiresIn]; nothing else
    distinguishes two tokens. *)
Definition sign (claims : AuthUser.t) (secret : string) (expiresIn now : Z) : Token :=
  let timestamp := (now / 1000)%Z in
  Signed secret (JWTPayload.mk claims timestamp (timestamp + expiresIn)%Z).

(** [jwt.verify(token, secret)] at clock [now]. *)
Definition verify (tok : Token) (secret : string) (now : Z) : js_error + JWTPayload.t :=
  match tok with
  | Malformed "" => inl (JsonWebTokenError "jwt must be provided")
  | Malformed _ => inl (JsonWebTokenError "jwt malformed")
  | Signed s p =>
      if bool_decide (s = secret) then
        if bool_decide (JWTPayload.exp p <= now / 1000)%Z
        then inl (TokenExpiredError "jwt expired")
        else inr p
      else inl (JsonWebTokenError "invalid signature")
  end.
End Jwt.

(** A row of [user_sessions]. *)
Module UserSession.
Record t := mk {
  userId : nat;
  token : Token;
  refreshToken : option Token;
  expiresAt : Z;
  createdAt : Z;
  ipAddress : option string;
  userAgent : option string;
  isActive : bool;
}.

Definition set_isActive (b : bool) (s : t) : t :=
  mk (userId s) (token s) (refreshToken s) (expiresAt s) (createdAt s)
     (ipAddress s) (userAgent s) b.

(** [data: { token, refreshToken, expiresAt }] of an update. *)
Definition set_tokens (a r : Token) (e : Z) (s : t) : t :=
  mk (userId s) a (Some r) e (createdAt s) (ipAddress s) (userAgent s)
     (isActive s).
End UserSession.

(** The database: the two tables the subsystem touches. *)
Record store := mkStore {
  users : gmap nat User.t;
  userSessions : gmap nat UserSession.t;
}.

Definition set_users (f : gmap nat User.t → gmap nat User.t) (st : store) : store :=
  mkStore (f (users st)) (userSessions st).

Definition set_userSessions (f : gmap nat UserSession.t → gmap nat UserSession.t)
    (st : store) : store :=
  mkStore (users st) (f (userSessions st)).

(** ** HTTP requests and responses *)

(** The [Authorization] header: [Bearer tok] is the string ["Bearer "]
    followed by the token string; [NotBearer raw] is any string that does not
    start with ["Bearer "]. [authHeader.substring(7)] of the former is [tok]. *)
Inductive header :=
  | Bearer (tok : Token)
  | NotBearer (raw : string).

(** Response bodies, by shape. The profile columns that [register], [login]
    and [/me] return besides the identity are left out, and so are the
    [timestamp], [path], [method], [stack] and [details] members of the error
    handler's body. [HtmlErrorPage] is the page Express's built-in final
    handler sends. *)
Inductive json :=
  | JError (error message : string)
  | JRateLimited (error message : string) (retryAfter : Z)
  | JMessage (message : string)
  | JTokens (message : string) (accessToken refreshToken : Token)
  | JSession (message : string) (user : AuthUser.t) (accessToken refreshToken : Token)
  | JUser (user : AuthUser.t)
  | JErrorResponse (error message : string) (code : option string)
  | HtmlErrorPage.

Record response := Response { status : Z; body : json }.

(** What a middleware does with a request: call [next()], with [req.user]
    as the middleware leaves it, or answer. *)
Inductive outcome :=
  | Next (user : option AuthUser.t)
  | Send (r : response).

(** Per-request surroundings: the clock reading of the request, the peer
    ([req.ip], the [User-Agent] header) and the salt bcrypt draws. *)
Module Env.
Record t := mk {
  now : Z;
  ip : option string;
  userAgent : option string;
  salt : string;
}.
End Env.

Module RegisterBody.
Record t := mk {
  email : string;
  password : string;
  firstName : string;
  lastName : string;
  companyName : option string;
  industry : option string;
}.
End RegisterBody.

Module LoginBody.
Record t := mk { email : string; password : string }.
End LoginBody.

Module ChangePasswordBody.
Record t := mk { currentPassword : string; newPassword : string }.
End ChangePasswordBody.

(** Libraries outside the repository whose results the handlers only pass
    on: bcryptjs (the salt is an argument) and the express-validator chains
    of the router, each giving the sanitised body and [errors.isEmpty()]. *)
Class Externals := {
  bcrypt_hash : string → Z → string → string;
  bcrypt_compare : string → string → bool;
  registerValidation : RegisterBody.t → RegisterBody.t * bool;
  loginValidation : LoginBody.t → LoginBody.t * bool;
  changePasswordValidation : ChangePasswordBody.t → ChangePasswordBody.t * bool;
}.

(** ** Handlers as computations over the database

    A handler reads and writes the database and either returns or throws;
    what it wrote before a throw stays written (no transaction is used). *)

Definition M (A : Type) : Type := store → store * (js_error + A).

Definition ret {A} (a : A) : M A := λ st, (st, inr a).

Definition throw {A} (e : js_error) : M A := λ st, (st, inl e).

Definition bind {A B} (m : M A) (k : A → M B) : M B :=
  λ st, match m st with
        | (st', inr a) => k a st'
        | (st', inl e) => (st', inl e)
        end.

(** [try { m } catch (error) { h error }] *)
Definition try_catch {A} (m : M A) (h : js_error → M A) : M A :=
  λ st, match m st with
        | (st', inl e) => h e st'
        | r => r
        end.

(** A [try] whose [catch] always answers. *)
Definition catch_all {A} (m : M A) (h : js_error → A) : store → store * A :=
  λ st, match m st with
        | (st', inl e) => (st', h e)
        | (st', inr a) => (st', a)
        end.

(** Result of a synchronous call that may throw. *)
Definition lift {A} (r : js_error + A) : M A := λ st, (st, r).

Notation "'let*' x := m 'in' k" := (bind m (λ x, k))
  (at level 10, x pattern, m at level 100, k at level 200).
Notation "m ;; k" := (bind m (λ _, k))
  (at level 100, k at level 200, right associativity).

(** ** The Prisma client, on the two tables *)

Module prisma.

Definition P2002 (field : string) : js_error :=
  PrismaClientKnownRequestError "P2002" (Some [field]).
Definition P2025 : js_error :=
  PrismaClientKnownRequestError "P2025" None.

(** First row of a table, in the table's own order, that satisfies [p]. *)
Definition first_row {A} (p : nat → A → bool) (m : gmap nat A) : option (nat * A) :=
  List.find (λ kv, p kv.1 kv.2) (map_to_list m).

Module user.
(** [findUnique({ where: { id } })] *)
Definition findUnique (id : nat) : M (option User.t) :=
  λ st, (st, inr (users st !! id)).

(** [findUnique({ where: { email } })] *)
Definition findUnique_email (email : string) : M (option (nat * User.t)) :=
  λ st, (st, inr (first_row (λ _ u, bool_decide (User.email u = email)) (users st))).

(** [create({ data })]; [email] carries a unique index. *)
Definition create (data : User.t) : M (nat * User.t) :=
  λ st,
    if bool_decide (map_Exists (λ _ u, User.email u = User.email data) (users st))
    then (st, inl (P2002 "email"))
    else let id := fresh (dom (users st)) in
         (set_users (insert id data) st, inr (id, data)).

(** [update({ where: { id }, data })] *)
Definition update (id : nat) (data : User.t → User.t) : M unit :=
  λ st, match users st !! id with
        | None => (st, inl P2025)
        | Some u => (set_users (insert id (data u)) st, inr tt)
        end.
End user.

Module userSession.
(** [create({ data })]; [token] carries a unique index, [is_active]
    defaults to true. *)
Definition create (data : UserSession.t) : M (nat * UserSession.t) :=
  λ st,
    if bool_decide (map_Exists (λ _ s, UserSession.token s = UserSession.token data)
                      (userSessions st))
    then (st, inl (P2002 "token"))
    else let id := fresh (dom (userSessions st)) in
         (set_userSessions (insert id data) st, inr (id, data)).

(** [findFirst({ where })] *)
Definition findFirst (where_ : UserSession.t → bool) : M (option (nat * UserSession.t)) :=
  λ st, (st, inr (first_row (λ _ s, where_ s) (userSessions st))).

(** [update({ where: { id }, data: { token, refreshToken, expiresAt } })] *)
Definition update (id : nat) (a r : Token) (e : Z) : M unit :=
  λ st, match userSessions st !! id with
        | None => (st, inl P2025)
        | Some s =>
            if bool_decide (map_Exists (λ j s', j ≠ id ∧ UserSession.token s' = a)
                              (userSessions st))
            then (st, inl (P2002 "token"))
            else (set_userSessions (insert id (UserSession.set_tokens a r e s)) st,
                  inr tt)
        end.

(** [updateMany({ where, data: { isActive: false } })] *)
Definition updateMany_deactivate (where_ : UserSession.t → bool) : M unit :=
  λ st,
    (set_userSessions
       (fmap (λ s, if where_ s then UserSession.set_isActive false s else s)) st,
     inr tt).
End userSession.

End prisma.

(** ** errorHandler.ts *)

Definition handlePrismaError (code : string) (target : option (list string)) : AppError.t :=
  match code with
  | "P2002" =>
      let fieldName := match target with
                       | Some (f :: _) => f
                       | Some [] => "undefined"
                       | None => "field"
                       end in
      AppError.mk ("A record with this " +:+ fieldName +:+ " already exists")
        409 true (Some "DUPLICATE_ENTRY")
  | "P2025" =>
      AppError.mk "The requested resource was not found" 404 true (Some "NOT_FOUND")
  | "P2003" =>
      AppError.mk "Cannot delete or update a parent row: a foreign key constraint fails"
        400 true (Some "FOREIGN_KEY_CONSTRAINT")
  | "P2014" =>
      AppError.mk "The change you are trying to make would violate the required relation"
        400 true (Some "REQUIRED_RELATION_VIOLATION")
  | "P2000" =>
      AppError.mk "The provided value is too long for the field" 400 true
        (Some "VALUE_TOO_LONG")
  | "P2001" =>
      AppError.mk "The record searched for in the where condition does not exist"
        404 true (Some "RECORD_NOT_FOUND")
  | "P2015" =>
      AppError.mk "A related record could not be found" 400 true
        (Some "RELATED_RECORD_NOT_FOUND")
  | "P2016" =>
      AppError.mk "Query interpretation error" 400 true
        (Some "QUERY_INTERPRETATION_ERROR")
  | "P2017" =>
      AppError.mk "The records for relation are not connected" 400 true
        (Some "RECORDS_NOT_CONNECTED")
  | _ => AppError.mk "Database operation failed" 500 false (Some "DATABASE_ERROR")
  end.

Definition handleZodError : AppError.t :=
  AppError.mk "Validation failed" 400 true (Some "VALIDATION_ERROR").

(** [handleMongoError] throws where it enumerates a member the error does
    not have: [Object.keys(error.keyPattern)], [Object.values(error.errors)]
    and the [err.path] of a value that is [null] or [undefined] each raise a
    [TypeError]. *)
Definition handleMongoError (e : js_error) : js_error + AppError.t :=
  let props := match e with
               | OtherError p => p
               | _ => ErrorProps.mk (error_name e) (error_constructor_name e)
                        (error_message e) None None None "" "" ""
               end in
  if bool_decide (ErrorProps.code props = Some 11000%Z) then
    match ErrorProps.keyPattern props with
    | None => inl (TypeError "Cannot convert undefined or null to object")
    | Some keys =>
        let field := match keys with
                     | f :: _ => f
                     | [] => "undefined"
                     end in
        inr (AppError.mk ("A record with this " +:+ field +:+ " already exists") 409 true
               (Some "DUPLICATE_ENTRY"))
    end
  else if bool_decide (ErrorProps.name props = "ValidationError") then
    match ErrorProps.errors props with
    | None => inl (TypeError "Cannot convert undefined or null to object")
    | Some values =>
        if forallb (λ readable : bool, readable) values
        then inr (AppError.mk "Validation failed" 400 true (Some "VALIDATION_ERROR"))
        else inl (TypeError "Cannot read properties of null")
    end
  else if bool_decide (ErrorProps.name props = "CastError") then
    inr (AppError.mk
           ("Invalid " +:+ ErrorProps.path props +:+ ": " +:+ ErrorProps.value props)
           400 true (Some "INVALID_ID"))
  else inr (AppError.mk "Database operation failed" 500 false (Some "DATABASE_ERROR")).

Definition handleJWTError (e : js_error) : AppError.t :=
  if bool_decide (error_name e = "JsonWebTokenError") then
    AppError.mk "Invalid token" 401 true (Some "INVALID_TOKEN")
  else if bool_decide (error_name e = "TokenExpiredError") then
    AppError.mk "Token has expired" 401 true (Some "TOKEN_EXPIRED")
  else AppError.mk "Authentication failed" 401 true (Some "AUTH_ERROR").

Definition handleStripeError (e : js_error) : AppError.t :=
  let type := match e with OtherError p => ErrorProps.type p | _ => "" end in
  match type with
  | "StripeCardError" => AppError.mk (error_message e) 400 true (Some "CARD_ERROR")
  | "StripeRateLimitError" =>
      AppError.mk "Too many requests made to the API too quickly" 429 true
        (Some "RATE_LIMIT_ERROR")
  | "StripeInvalidRequestError" =>
      AppError.mk "Invalid parameters were supplied to Stripe API" 400 true
        (Some "INVALID_REQUEST")
  | "StripeAPIError" =>
      AppError.mk "An error occurred internally with Stripe API" 500 false
        (Some "STRIPE_API_ERROR")
  | "StripeConnectionError" =>
      AppError.mk "Some kind of error occurred during the HTTPS communication" 500 false
        (Some "STRIPE_CONNECTION_ERROR")
  | "StripeAuthenticationError" =>
      AppError.mk "You probably used an incorrect API key" 401 true
        (Some "STRIPE_AUTH_ERROR")
  | _ => AppError.mk "Payment processing failed" 500 false (Some "PAYMENT_ERROR")
  end.

Definition getErrorName (statusCode : Z) : string :=
  match statusCode with
  | 400 => "Bad Request"
  | 401 => "Unauthorized"
  | 403 => "Forbidden"
  | 404 => "Not Found"
  | 409 => "Conflict"
  | 422 => "Unprocessable Entity"
  | 429 => "Too Many Requests"
  | 500 => "Internal Server Error"
  | 502 => "Bad Gateway"
  | 503 => "Service Unavailable"
  | _ => "Error"
  end%Z.

(** The conversion at the head of [errorHandler]; [inl] is what it throws
    itself. *)
Definition toAppError (env : NodeEnv) (error : js_error) : js_error + AppError.t :=
  match error with
  | App a => inr a
  | PrismaClientKnownRequestError code target => inr (handlePrismaError code target)
  | ZodError => inr handleZodError
  | _ =>
      let name := error_name error in
      if bool_decide (name = "MongoError") || bool_decide (name = "ValidationError")
         || bool_decide (name = "CastError")
      then handleMongoError error
      else if bool_decide (name = "JsonWebTokenError")
              || bool_decide (name = "TokenExpiredError")
      then inr (handleJWTError error)
      else if String.prefix "Stripe" (error_constructor_name error)
      then inr (handleStripeError error)
      else inr (AppError.mk
                  (if bool_decide (env = production) then "Something went wrong"
                   else error_message error)
                  500 false (Some "INTERNAL_ERROR"))
  end.

(** [errorHandler]: the response it sends, or the error it throws before it
    has sent anything. *)
Definition errorHandler (env : NodeEnv) (error : js_error) : js_error + response :=
  match toAppError env error with
  | inl thrown => inl thrown
  | inr appError =>
      inr (Response (AppError.statusCode appError)
             (JErrorResponse (getErrorName (AppError.statusCode appError))
                (AppError.message appError) (AppError.code appError)))
  end.

(** [next(error)] in the application: Express runs [errorHandler], the only
    error middleware it registers (part_006, [app.use(errorHandler)]); what
    [errorHandler] throws, Express catches and hands to its built-in final
    handler, which answers an error that carries no status of its own with
    500 and an HTML page. *)
Definition next_error (env : NodeEnv) (error : js_error) : response :=
  match errorHandler env error with
  | inr r => r
  | inl _ => Response 500 HtmlErrorPage
  end.

(** ** auth.ts *)

(** [authHeader?.substring(7)] *)
Definition substring7 (authHeader : option header) : option Token :=
  match authHeader with
  | None => None
  | Some (Bearer tok) => Some tok
  | Some (NotBearer raw) => Some (Malformed (String.substring 7 (String.length raw - 7) raw))
  end.

Section Middleware.
Context (cfg : Config.t).

(** The [catch] block of [authMiddleware]. *)
Definition authMiddleware_catch (error : js_error) : outcome :=
  if instanceof_JsonWebTokenError error then
    Send (Response 401 (JError "Unauthorized" "Invalid access token"))
  else if instanceof_TokenExpiredError error then
    Send (Response 401 (JError "Unauthorized" "Access token has expired"))
  else
    Send (Response 500 (JError "Internal Server Error" "Authentication failed")).

(** The [try] block of [authMiddleware]. *)
Definition authMiddleware_try (authHeader : option header) (now : Z) : M outcome :=
  match authHeader with
  | Some (Bearer token) =>
      let* decoded := lift (Jwt.verify token (Config.secret cfg) now) in
      let* user := prisma.user.findUnique (JWTPayload.userId decoded) in
      match user with
      | None => ret (Send (Response 401 (JError "Unauthorized" "User not found")))
      | Some row =>
          let user := User.select (JWTPayload.userId decoded) row in
          if bool_decide (AuthUser.subscriptionStatus user ≠ ACTIVE) then
            ret (Send (Response 403 (JError "Forbidden" "Account is not active")))
          else
            prisma.user.update (AuthUser.id user) (User.set_lastLogin now) ;;
            ret (Next (Some user))
      end
  | _ => ret (Send (Response 401 (JError "Unauthorized" "Access token is required")))
  end.

Definition authMiddleware (authHeader : option header) (now : Z)
    : store → store * outcome :=
  catch_all (authMiddleware_try authHeader now) authMiddleware_catch.

Definition optionalAuthMiddleware_try (authHeader : option header) (now : Z)
    : M outcome :=
  match authHeader with
  | Some (Bearer token) =>
      let* decoded := lift (Jwt.verify token (Config.secret cfg) now) in
      let* user := prisma.user.findUnique (JWTPayload.userId decoded) in
      match user with
      | Some row =>
          let user := User.select (JWTPayload.userId decoded) row in
          if bool_decide (AuthUser.subscriptionStatus user = ACTIVE)
          then ret (Next (Some user))
          else ret (Next None)
      | None => ret (Next None)
      end
  | _ => ret (Next None)
  end.

Definition optionalAuthMiddleware (authHeader : option header) (now : Z)
    : store → store * outcome :=
  catch_all (optionalAuthMiddleware_try authHeader now) (λ _, Next None).
End Middleware.

(** *** userRateLimit *)

(** An entry of the [userRequests] map. *)
Module Limit.
Record t := mk { count : Z; resetTime : Z }.
End Limit.

(** [Number.MAX_SAFE_INTEGER]. The limiter computes with JavaScript numbers
    (doubles); the model computes with integers, and the two agree as long
    as the ceiling, the window and the clock readings are integers and no
    operand or result leaves the range in which doubles are exact. Clock
    readings are [Date.now()] values: integers, at most 8.64e15 in
    magnitude. *)
Definition MAX_SAFE_INTEGER : Z := (2 ^ 53 - 1)%Z.

(** [Math.ceil(ms / 1000)] *)
Definition ceil_seconds (ms : Z) : Z := (- ((- ms) / 1000))%Z.

(** The middleware returned by [userRateLimit(maxRequests, windowMs)], as a
    transition on the [userRequests] map its closure owns. *)
Definition userRateLimit (maxRequests windowMs : Z) (user : option AuthUser.t)
    (now : Z) (userRequests : gmap nat Limit.t) : gmap nat Limit.t * outcome :=
  match user with
  | None => (userRequests, Next user)
  | Some u =>
      let userId := AuthUser.id u in
      match userRequests !! userId with
      | Some userLimit =>
          if bool_decide (now > Limit.resetTime userLimit)%Z then
            (<[userId := Limit.mk 1 (now + windowMs)]> userRequests, Next user)
          else if bool_decide (Limit.count userLimit >= maxRequests)%Z then
            (userRequests,
             Send (Response 429
                     (JRateLimited "Too Many Requests"
                        "Rate limit exceeded for your account"
                        (ceil_seconds (Limit.resetTime userLimit - now)))))
          else
            (<[userId := Limit.mk (Limit.count userLimit + 1) (Limit.resetTime userLimit)]>
               userRequests,
             Next user)
      | None =>
          (<[userId := Limit.mk 1 (now + windowMs)]> userRequests, Next user)
      end
  end.

(** ** The auth router *)

(** [7 * 24 * 60 * 60 * 1000] *)
Definition SEVEN_DAYS : Z := (7 * 24 * 60 * 60 * 1000)%Z.

(** The [where] clause of the refresh handler's session lookup:
    [{ refreshToken, isActive: true, expiresAt: { gt: new Date() } }]. *)
Definition refreshable (refreshToken : Token) (now : Z) (s : UserSession.t) : bool :=
  bool_decide (UserSession.refreshToken s = Some refreshToken)
  && UserSession.isActive s
  && bool_decide (UserSession.expiresAt s > now)%Z.

Section Router.
Context `{Externals} (cfg : Config.t).

Definition generateTokens (user : AuthUser.t) (now : Z) : Token * Token :=
  let accessToken := Jwt.sign user (Config.secret cfg) (Config.expiresIn cfg) now in
  let refreshToken :=
    Jwt.sign user (Config.refreshSecret cfg) (Config.refreshExpiresIn cfg) now in
  (accessToken, refreshToken).

Definition validationFailed : js_error :=
  new_AppError "Validation failed" 400 true "VALIDATION_ERROR".

(** The session row that [register], [login] write. *)
Definition newSession (env : Env.t) (userId : nat) (accessToken refreshToken : Token)
    : UserSession.t :=
  UserSession.mk userId accessToken (Some refreshToken)
    (Env.now env + SEVEN_DAYS)%Z (Env.now env) (Env.ip env) (Env.userAgent env) true.

Definition register_handler (env : Env.t) (body : RegisterBody.t) : M response :=
  let '(body, ok) := registerValidation body in
  if negb ok then throw validationFailed else
  let* existingUser := prisma.user.findUnique_email (RegisterBody.email body) in
  match existingUser with
  | Some _ =>
      throw (new_AppError "User with this email already exists" 409 true "USER_EXISTS")
  | None =>
      let passwordHash :=
        bcrypt_hash (RegisterBody.password body) (Config.bcryptRounds cfg) (Env.salt env) in
      let* created := prisma.user.create
        (User.mk (RegisterBody.email body) passwordHash (RegisterBody.firstName body)
           (RegisterBody.lastName body) (RegisterBody.companyName body)
           (RegisterBody.industry body) USER BASIC ACTIVE None (Env.now env)) in
      let user := User.select created.1 created.2 in
      let '(accessToken, refreshToken) := generateTokens user (Env.now env) in
      prisma.userSession.create (newSession env (AuthUser.id user) accessToken refreshToken) ;;
      ret (Response 201 (JSession "User registered successfully" user
                           accessToken refreshToken))
  end.

Definition login_handler (env : Env.t) (body : LoginBody.t) : M response :=
  let '(body, ok) := loginValidation body in
  if negb ok then throw validationFailed else
  let* found := prisma.user.findUnique_email (LoginBody.email body) in
  match found with
  | None => throw (new_AppError "Invalid email or password" 401 true "INVALID_CREDENTIALS")
  | Some (id, row) =>
      if negb (bcrypt_compare (LoginBody.password body) (User.passwordHash row)) then
        throw (new_AppError "Invalid email or password" 401 true "INVALID_CREDENTIALS")
      else if bool_decide (User.subscriptionStatus row ≠ ACTIVE) then
        throw (new_AppError "Account is not active" 403 true "ACCOUNT_INACTIVE")
      else
        let user := User.select id row in
        let '(accessToken, refreshToken) := generateTokens user (Env.now env) in
        prisma.userSession.create (newSession env id accessToken refreshToken) ;;
        prisma.user.update id (User.set_lastLogin (Env.now env)) ;;
        ret (Response 200 (JSession "Login successful" user accessToken refreshToken))
  end.

Definition invalidRefreshToken : js_error :=
  new_AppError "Invalid refresh token" 401 true "INVALID_REFRESH_TOKEN".

(** The [catch] block of the refresh handler. *)
Definition refresh_catch {A} (error : js_error) : M A :=
  if instanceof_JsonWebTokenError error then throw invalidRefreshToken
  else throw error.

(** What [findFirst] with [include: { user }] resolves to. *)
Definition found_session : Type := nat * UserSession.t * option AuthUser.t.

(** The refresh handler's [try] block up to the result of its first
    [await]: the token check and the session lookup. *)
Definition refresh_find (refreshToken : Token) (now : Z) : M found_session :=
  let* decoded := lift (Jwt.verify refreshToken (Config.refreshSecret cfg) now) in
  let* session := prisma.userSession.findFirst (refreshable refreshToken now) in
  match session with
  | None => throw invalidRefreshToken
  | Some (id, s) =>
      let* user := prisma.user.findUnique (UserSession.userId s) in
      ret (id, s, User.select (UserSession.userId s) <$> user)
  end.

(** The rest of the [try] block: it works on the session that was read. *)
Definition refresh_write (session : found_session) (now : Z) : M response :=
  let '(id, _, user) := session in
  match user with
  | None => throw (TypeError "Cannot read properties of null")
  | Some user =>
      if bool_decide (AuthUser.subscriptionStatus user ≠ ACTIVE) then
        throw (new_AppError "Account is not active" 403 true "ACCOUNT_INACTIVE")
      else
        let '(accessToken, newRefreshToken) := generateTokens user now in
        prisma.userSession.update id accessToken newRefreshToken (now + SEVEN_DAYS)%Z ;;
        ret (Response 200 (JTokens "Tokens refreshed successfully"
                             accessToken newRefreshToken))
  end.

Definition refresh_handler (refreshToken : option Token) (now : Z) : M response :=
  match refreshToken with
  | Some tok =>
      if truthy tok then
        try_catch
          (let* session := refresh_find tok now in refresh_write session now)
          refresh_catch
      else throw (new_AppError "Refresh token is required" 400 true "MISSING_REFRESH_TOKEN")
  | None => throw (new_AppError "Refresh token is required" 400 true "MISSING_REFRESH_TOKEN")
  end.

Definition logout_handler (authHeader : option header) (user : AuthUser.t) : M response :=
  (match substring7 authHeader with
   | Some token =>
       if truthy token then
         prisma.userSession.updateMany_deactivate
           (λ s, bool_decide (UserSession.token s = token)
                 && bool_decide (UserSession.userId s = AuthUser.id user))
       else ret tt
   | None => ret tt
   end) ;;
  ret (Response 200 (JMessage "Logout successful")).

Definition logoutAll_handler (user : AuthUser.t) : M response :=
  prisma.userSession.updateMany_deactivate
    (λ s, bool_decide (UserSession.userId s = AuthUser.id user) && UserSession.isActive s) ;;
  ret (Response 200 (JMessage "Logged out from all devices successfully")).

Definition changePassword_handler (env : Env.t) (authHeader : option header)
    (reqUser : AuthUser.t) (body : ChangePasswordBody.t) : M response :=
  let '(body, ok) := changePasswordValidation body in
  if negb ok then throw validationFailed else
  let* user := prisma.user.findUnique (AuthUser.id reqUser) in
  match user with
  | None => throw (new_AppError "User not found" 404 true "USER_NOT_FOUND")
  | Some row =>
      if negb (bcrypt_compare (ChangePasswordBody.currentPassword body)
                 (User.passwordHash row)) then
        throw (new_AppError "Current password is incorrect" 400 true
                 "INVALID_CURRENT_PASSWORD")
      else
        let newPasswordHash :=
          bcrypt_hash (ChangePasswordBody.newPassword body) (Config.bcryptRounds cfg)
            (Env.salt env) in
        prisma.user.update (AuthUser.id reqUser) (User.set_passwordHash newPasswordHash) ;;
        let currentToken := substring7 authHeader in
        prisma.userSession.updateMany_deactivate
          (λ s, bool_decide (UserSession.userId s = AuthUser.id reqUser)
                && UserSession.isActive s
                && match currentToken with
                   | Some t => bool_decide (UserSession.token s ≠ t)
                   | None => true
                   end) ;;
        ret (Response 200 (JMessage "Password changed successfully"))
  end.

Definition me_handler (reqUser : AuthUser.t) : M response :=
  let* user := prisma.user.findUnique (AuthUser.id reqUser) in
  match user with
  | None => throw (new_AppError "User not found" 404 true "USER_NOT_FOUND")
  | Some row => ret (Response 200 (JUser (User.select (AuthUser.id reqUser) row)))
  end.

(** [asyncHandler(fn)]: a rejection of [fn] goes to [next]. *)
Definition asyncHandler (fn : M response) : store → store * response :=
  catch_all fn (next_error (Config.env cfg)).

(** [router.post(path, authMiddleware, ..., asyncHandler(fn))] *)
Definition authenticated (authHeader : option header) (now : Z)
    (fn : AuthUser.t → M response) : store → store * response :=
  λ st, match authMiddleware cfg authHeader now st with
        | (st', Send r) => (st', r)
        | (st', Next (Some user)) => asyncHandler (fn user) st'
        | (st', Next None) =>
            asyncHandler (throw (TypeError "Cannot read properties of undefined")) st'
        end.

Inductive request :=
  | POST_register (body : RegisterBody.t)
  | POST_login (body : LoginBody.t)
  | POST_refresh (refreshToken : option Token)
  | POST_logout (authHeader : option header)
  | POST_logout_all (authHeader : option header)
  | POST_change_password (authHeader : option header) (body : ChangePasswordBody.t)
  | GET_me (authHeader : option header).

(** One request served from start to end. *)
Definition handle (env : Env.t) (req : request) : store → store * response :=
  match req with
  | POST_register body => asyncHandler (register_handler env body)
  | POST_login body => asyncHandler (login_handler env body)
  | POST_refresh tok => asyncHandler (refresh_handler tok (Env.now env))
  | POST_logout h => authenticated h (Env.now env) (logout_handler h)
  | POST_logout_all h => authenticated h (Env.now env) (λ u, logoutAll_handler u)
  | POST_change_password h body =>
      authenticated h (Env.now env) (λ u, changePassword_handler env h u body)
  | GET_me h => authenticated h (Env.now env) me_handler
  end.

(** A sequence of requests served one after the other. *)
Fixpoint serve (trace : list (Env.t * request)) (st : store) : store :=
  match trace with
  | [] => st
  | (env, req) :: rest => serve rest (handle env req st).1
  end.
End Router.

(** Consecutive requests through one limiter, with the clock reading of each. *)
Fixpoint rate_limited (maxRequests windowMs : Z) (user : option AuthUser.t)
    (times : list Z) (userRequests : gmap nat Limit.t)
    : gmap nat Limit.t * list outcome :=
  match times with
  | [] => (userRequests, [])
  | now :: rest =>
      let '(userRequests', o) := userRateLimit maxRequests windowMs user now userRequests in
      let '(final, os) := rate_limited maxRequests windowMs user rest userRequests' in
      (final, o :: os)
  end.

(** ** Two refresh calls in flight

    A call to the refresh handler runs up to its first [await] (the session
    lookup), gives control back, and later runs its second half (the
    session update). With two calls in flight, a schedule says whose turn
    each step is and what the clock reads at that step. *)

Section Concurrent.
Context (cfg : Config.t).

Inductive task :=
  | Started (refreshToken : Token)
  | Awaiting (session : found_session)
  | Finished (r : response).

Definition step_task (now : Z) (t : task) : store → store * task :=
  λ st,
    match t with
    | Started tok =>
        match try_catch (refresh_find cfg tok now) refresh_catch st with
        | (st', inr session) => (st', Awaiting session)
        | (st', inl e) => (st', Finished (next_error (Config.env cfg) e))
        end
    | Awaiting session =>
        match try_catch (refresh_write cfg session now) refresh_catch st with
        | (st', inr r) => (st', Finished r)
        | (st', inl e) => (st', Finished (next_error (Config.env cfg) e))
        end
    | Finished r => (st, Finished r)
    end.


End Concurrent.

(** ** Consistency of the session table

    What the database and the router together maintain: [token] is unique
    (the index [user_sessions_token_key]) and every row holds an access and
    a refresh token that one call of [generateTokens] produced. *)

Definition minted (cfg : Config.t) (s : UserSession.t) : bool :=
  match UserSession.token s, UserSession.refreshToken s with
  | Signed k p, Some (Signed k' p') =>
      bool_decide (k = Config.secret cfg)
      && bool_decide (k' = Config.refreshSecret cfg)
      && bool_decide (JWTPayload.claims p = JWTPayload.claims p')
      && bool_decide (JWTPayload.iat p = JWTPayload.iat p')
      && bool_decide (JWTPayload.exp p = JWTPayload.iat p + Config.expiresIn cfg)%Z
      && bool_decide (JWTPayload.exp p' = JWTPayload.iat p' + Config.refreshExpiresIn cfg)%Z
  | _, _ => false
  end.

Definition token_unique (m : gmap nat UserSession.t) : Prop :=
  map_Forall (λ i s,
    map_Forall (λ j s', UserSession.token s = UserSession.token s' → i = j) m) m.

Definition store_ok (cfg : Config.t) (st : store) : Prop :=
  map_Forall (λ _ s, minted cfg s = true) (userSessions st)
  ∧ token_unique (userSessions st).

#[global] Instance store_ok_dec cfg st : Decision (store_ok cfg st).
Proof. unfold store_ok, token_unique. apply _. Defined.

(** [is_active = false] for the session [id]. *)
Definition inactive (id : nat) (st : store) : Prop :=
  ∃ s, userSessions st !! id = Some s ∧ UserSession.isActive s = false.

(** An error that none of the tests of [errorHandler] recognises. *)
Definition unclassified (e : js_error) : Prop :=
  ∃ props,
    e = OtherError props
    ∧ (ErrorProps.name props ∉
         ["MongoError"; "ValidationError"; "CastError"; "JsonWebTokenError";
          "TokenExpiredError"])
    ∧ String.prefix "Stripe" (ErrorProps.constructorName props) = false.

(** The row [s] of key [id] is in the table after a request and was not
    there, as it is, before: the request wrote it. *)
Definition written (st st' : store) (id : nat) (s : UserSession.t) : Prop :=
  userSessions st' !! id = Some s ∧ userSessions st !! id ≠ Some s.

(** What a request that issues tokens ([register], [login], [refresh]) can
    do to the session table: nothing, insert the row of a new login, or
    replace the tokens and the expiry of one row. *)
Inductive issue_step (cfg : Config.t) (env : Env.t)
    : gmap nat UserSession.t → gmap nat UserSession.t → Prop :=
  | issue_none m :
      issue_step cfg env m m
  | issue_create m id user :
      m !! id = None →
      (∀ j s, m !! j = Some s →
              UserSession.token s ≠ (generateTokens cfg user (Env.now env)).1) →
      issue_step cfg env m
        (<[id := newSession env (AuthUser.id user)
                   (generateTokens cfg user (Env.now env)).1
                   (generateTokens cfg user (Env.now env)).2]> m)
  | issue_rotate m id s user :
      m !! id = Some s →
      (∀ j s', m !! j = Some s' → j ≠ id →
               UserSession.token s' ≠ (generateTokens cfg user (Env.now env)).1) →
      issue_step cfg env m
        (<[id := UserSession.set_tokens
                   (generateTokens cfg user (Env.now env)).1
                   (generateTokens cfg user (Env.now env)).2
                   (Env.now env + SEVEN_DAYS)%Z s]> m).

(** What any request can do to the session table: issue, or clear
    [is_active] on the rows a [where] clause selects. *)
Inductive session_step (cfg : Config.t) (env : Env.t)
    : gmap nat UserSession.t → gmap nat UserSession.t → Prop :=
  | step_issue m m' :
      issue_step cfg env m m' → session_step cfg env m m'
  | step_deactivate m where_ :
      session_step cfg env m
        ((λ s, if where_ s : bool then UserSession.set_isActive false s else s) <$> m).

(** ** auth.ts: authorisation guards and API keys *)

(** The string a [Role] / [Plan] column value is in JavaScript. *)
Definition role_name (r : Role) : string :=
  match r with
  | USER => "USER"
  | ADMIN => "ADMIN"
  | SUPER_ADMIN => "SUPER_ADMIN"
  end.

Definition plan_name (p : Plan) : string :=
  match p with
  | BASIC => "BASIC"
  | PREMIUM => "PREMIUM"
  | ENTERPRISE => "ENTERPRISE"
  end.

(** The middleware [requireRole(roles)] returns. *)
Definition requireRole (roles : list string) (user : option AuthUser.t) : outcome :=
  match user with
  | None => Send (Response 401 (JError "Unauthorized" "Authentication required"))
  | Some u =>
      if bool_decide (role_name (AuthUser.role u) ∈ roles) then Next user
      else Send (Response 403 (JError "Forbidden" "Insufficient permissions"))
  end.

(** What the middleware of [requirePlan] does: [next()], or an answer whose
    body may carry [requiredPlans] and [currentPlan]. *)
Inductive plan_outcome :=
  | PlanNext (user : option AuthUser.t)
  | PlanSend (status : Z) (error message : string)
             (requiredPlans : option (list string)) (currentPlan : option string).

(** The middleware [requirePlan(plans)] returns. *)
Definition requirePlan (plans : list string) (user : option AuthUser.t) : plan_outcome :=
  match user with
  | None => PlanSend 401 "Unauthorized" "Authentication required" None None
  | Some u =>
      if bool_decide (plan_name (AuthUser.subscriptionPlan u) ∈ plans) then PlanNext user
      else PlanSend 403 "Forbidden" "Upgrade your subscription to access this feature"
             (Some plans) (Some (plan_name (AuthUser.subscriptionPlan u)))
  end.

Definition requireAdmin := requireRole ["ADMIN"; "SUPER_ADMIN"].
Definition requireSuperAdmin := requireRole ["SUPER_ADMIN"].
Definition requirePremium := requirePlan ["PREMIUM"; "ENTERPRISE"].
Definition requireEnterprise := requirePlan ["ENTERPRISE"].

(** [app.use(path, authMiddleware, router)] where the router's route starts
    with a role guard: the guard sees the [req.user] that [authMiddleware]
    attached. *)
Definition role_guarded (cfg : Config.t) (roles : list string)
    (authHeader : option header) (now : Z) : store → store * outcome :=
  λ st, match authMiddleware cfg authHeader now st with
        | (st', Next user) => (st', requireRole roles user)
        | (st', Send r) => (st', Send r)
        end.

(** The same with a plan guard. *)
Definition plan_guarded (cfg : Config.t) (plans : list string)
    (authHeader : option header) (now : Z) : store → store * plan_outcome :=
  λ st, match authMiddleware cfg authHeader now st with
        | (st', Next user) => (st', requirePlan plans user)
        | (st', Send (Response status (JError error message))) =>
            (st', PlanSend status error message None None)
        | (st', Send (Response status _)) => (st', PlanSend status "" "" None None)
        end.

(** A row of [api_keys]. *)
Module ApiKey.
Record t := mk {
  userId : nat;
  name : string;
  key : string;
  lastUsed : option Z;
  createdAt : Z;
  expiresAt : option Z;
  isActive : bool;
}.

Definition set_lastUsed (d : Z) (k : t) : t :=
  mk (userId k) (name k) (key k) (Some d) (createdAt k) (expiresAt k) (isActive k).
End ApiKey.

(** [apiKeyAuth], on the [api_keys] table and the [users] table it reads
    through [include: { user }]; [apiKey] is the [x-api-key] header. A key
    row whose owner is missing (the foreign key forbids it) makes the
    handler dereference [null], which its [catch] answers with 500. *)
Definition apiKeyAuth (apiKey : option string) (now : Z)
    (us : gmap nat User.t) (apiKeys : gmap nat ApiKey.t)
    : gmap nat ApiKey.t * outcome :=
  match apiKey with
  | None | Some "" =>
      (apiKeys, Send (Response 401 (JError "Unauthorized" "API key is required")))
  | Some apiKey =>
      match prisma.first_row (λ _ k, bool_decide (ApiKey.key k = apiKey)) apiKeys with
      | None =>
          (apiKeys, Send (Response 401 (JError "Unauthorized" "Invalid API key")))
      | Some (id, keyRecord) =>
          if negb (ApiKey.isActive keyRecord) then
            (apiKeys, Send (Response 401 (JError "Unauthorized" "Invalid API key")))
          else if match ApiKey.expiresAt keyRecord with
                  | Some e => bool_decide (e < now)%Z
                  | None => false
                  end then
            (apiKeys, Send (Response 401 (JError "Unauthorized" "API key has expired")))
          else
            match us !! ApiKey.userId keyRecord with
            | None =>
                (apiKeys,
                 Send (Response 500 (JError "Internal Server Error" "Authentication failed")))
            | Some row =>
                let user := User.select (ApiKey.userId keyRecord) row in
                if bool_decide (AuthUser.subscriptionStatus user ≠ ACTIVE) then
                  (apiKeys, Send (Response 403 (JError "Forbidden" "Account is not active")))
                else
                  (<[id := ApiKey.set_lastUsed now keyRecord]> apiKeys, Next (Some user))
            end
      end
  end.

(** The unique index [api_keys_key_key]. *)
Definition key_unique (apiKeys : gmap nat ApiKey.t) : Prop :=
  map_Forall (λ i k,
    map_Forall (λ j k', ApiKey.key k = ApiKey.key k' → i = j) apiKeys) apiKeys.

(** The unique index [users_email_key]. *)
Definition email_unique (us : gmap nat User.t) : Prop :=
  map_Forall (λ i u,
    map_Forall (λ j u', User.email u = User.email u' → i = j) us) us.

(** The columns of an account that say who it is and what it may do. *)
Definition same_account (u u' : User.t) : Prop :=
  User.email u' = User.email u
  ∧ User.role u' = User.role u
  ∧ User.subscriptionPlan u' = User.subscriptionPlan u
  ∧ User.subscriptionStatus u' = User.subscriptionStatus u
  ∧ User.createdAt u' = User.createdAt u.

(** How the users table may differ after some requests: every account
    that was there is still there with the same identity columns, an account
    that was not there is a plain one (USER, BASIC, ACTIVE), and [email]
    stays unique if it was. *)
Definition users_evolve (m m' : gmap nat User.t) : Prop :=
  (∀ id u, m !! id = Some u → ∃ u', m' !! id = Some u' ∧ same_account u u')
  ∧ (∀ id u', m' !! id = Some u' → m !! id = None →
              User.role u' = USER ∧ User.subscriptionPlan u' = BASIC
              ∧ User.subscriptionStatus u' = ACTIVE)
  ∧ (email_unique m → email_unique m').

(** A computation that only moves the users table that way. *)
Definition keeps_accounts {A} (c : M A) : Prop :=
  ∀ st, users_evolve (users st) (users (c st).1).

(** The [userRequests] map after requests of any identities, anonymous ones
    included, went through one limiter. *)
Fixpoint rate_limited_by (maxRequests windowMs : Z)
    (requests : list (option AuthUser.t * Z)) (userRequests : gmap nat Limit.t)
    : gmap nat Limit.t :=
  match requests with
  | [] => userRequests
  | (user, now) :: rest =>
      rate_limited_by maxRequests windowMs rest
        (userRateLimit maxRequests windowMs user now userRequests).1
  end.

(** The 429 answer of the limiter. *)
Definition tooManyRequests (retryAfter : Z) : outcome :=
  Send (Response 429 (JRateLimited "Too Many Requests"
                        "Rate limit exceeded for your account" retryAfter)).

(** The errors on which [errorHandler] itself throws: those it takes for a
    database error ([name] one of MongoError, ValidationError, CastError)
    and that lack the member it enumerates: [keyPattern] under code 11000,
    or else, under the name ValidationError, [errors] or a readable value
    in it. *)
Definition lacks_member (e : js_error) : bool :=
  match e with
  | OtherError p =>
      (bool_decide (ErrorProps.name p = "MongoError")
       || bool_decide (ErrorProps.name p = "ValidationError")
       || bool_decide (ErrorProps.name p = "CastError"))
      && (if bool_decide (ErrorProps.code p = Some 11000%Z)
          then bool_decide (ErrorProps.keyPattern p = None)
          else bool_decide (ErrorProps.name p = "ValidationError")
               && match ErrorProps.errors p with
                  | None => true
                  | Some values => existsb negb values
                  end)
  | _ => false
  end.

(** What every conversion of [errorHandler] satisfies: a status among
    400, 401, 404, 409, 429 and 500, [isOperational] false exactly at 500,
    and a machine-readable code. *)
Definition well_classified (a : AppError.t) : bool :=
  existsb (Z.eqb (AppError.statusCode a)) [400; 401; 404; 409; 429; 500]%Z
  && Bool.eqb (negb (AppError.isOperational a)) (AppError.statusCode a =? 500)%Z
  && match AppError.code a with Some _ => true | None => false end.


(** ** config.ts

    [process.env] is a map from names to strings. Two things zod and
    JavaScript do with a string are taken as given: [Number(s)] and whether
    [s] is a URL. *)

Class Zod := {
  number : Type;
  Number : string → number;
  is_url : string → bool;
}.

Inductive LogLevel := error_level | warn_level | info_level | debug_level.

(** [z.string().min(n, ...)]: the variable must be set and at least [n] long. *)
Definition string_min (n : nat) (v : option string) : option string :=
  match v with
  | Some s => if bool_decide (n ≤ String.length s)%nat then Some s else None
  | None => None
  end.

(** [z.string().url().default(d)]: the default goes through the check too. *)
Definition url_default `{Zod} (d : string) (v : option string) : option string :=
  let s := default d v in if is_url s then Some s else None.

(** [z.string().url().optional()] *)
Definition url_optional `{Zod} (v : option string) : option (option string) :=
  match v with
  | None => Some None
  | Some s => if is_url s then Some (Some s) else None
  end.

(** [z.enum(['development', 'production', 'test']).default('development')] *)
Definition node_env (v : option string) : option NodeEnv :=
  match v with
  | None => Some development
  | Some "development" => Some development
  | Some "production" => Some production
  | Some "test" => Some test
  | Some _ => None
  end.

(** [z.enum(['error', 'warn', 'info', 'debug']).default('info')] *)
Definition log_level (v : option string) : option LogLevel :=
  match v with
  | None => Some info_level
  | Some "error" => Some error_level
  | Some "warn" => Some warn_level
  | Some "info" => Some info_level
  | Some "debug" => Some debug_level
  | Some _ => None
  end.

(** What [envSchema.parse(process.env)] returns. *)
Module ParsedEnv.
Record t `{Zod} := mk {
  NODE_ENV : NodeEnv;
  PORT : number;
  DATABASE_URL : string;
  MONGODB_URI : option string;
  REDIS_URL : option string;
  JWT_SECRET : string;
  JWT_REFRESH_SECRET : string;
  JWT_EXPIRES_IN : string;
  JWT_REFRESH_EXPIRES_IN : string;
  BCRYPT_ROUNDS : number;
  FRONTEND_URL : string;
  AI_SERVICE_URL : string;
  OPENAI_API_KEY : option string;
  OPENAI_API_BASE : option string;
  PINECONE_API_KEY : option string;
  PINECONE_ENVIRONMENT : option string;
  PINECONE_INDEX : option string;
  AWS_ACCESS_KEY_ID : option string;
  AWS_SECRET_ACCESS_KEY : option string;
  AWS_REGION : string;
  AWS_S3_BUCKET : option string;
  AWS_CLOUDFRONT_DOMAIN : option string;
  STRIPE_PUBLISHABLE_KEY : option string;
  STRIPE_SECRET_KEY : option string;
  STRIPE_WEBHOOK_SECRET : option string;
  SENTRY_DSN : option string;
  LOG_LEVEL : LogLevel;
  SMTP_HOST : option string;
  SMTP_PORT : option number;
  SMTP_USER : option string;
  SMTP_PASS : option string;
  RATE_LIMIT_WINDOW_MS : number;
  RATE_LIMIT_MAX_REQUESTS : number;
  MAX_FILE_SIZE : number;
  ALLOWED_FILE_TYPES : string;
}.
End ParsedEnv.

(** [envSchema.parse(process.env)]; [None] stands for the [ZodError] it
    throws. *)
Definition envSchema_parse `{Zod} (env : gmap string string) : option ParsedEnv.t :=
  nodeEnv ← node_env (env !! "NODE_ENV");
  databaseUrl ← string_min 1 (env !! "DATABASE_URL");
  jwtSecret ← string_min 32 (env !! "JWT_SECRET");
  jwtRefreshSecret ← string_min 32 (env !! "JWT_REFRESH_SECRET");
  frontendUrl ← url_default "http://localhost:3000" (env !! "FRONTEND_URL");
  aiServiceUrl ← url_default "http://localhost:8000" (env !! "AI_SERVICE_URL");
  openaiApiBase ← url_optional (env !! "OPENAI_API_BASE");
  logLevel ← log_level (env !! "LOG_LEVEL");
  Some (ParsedEnv.mk _
    nodeEnv
    (Number (default "4000" (env !! "PORT")))
    databaseUrl
    (env !! "MONGODB_URI")
    (env !! "REDIS_URL")
    jwtSecret
    jwtRefreshSecret
    (default "1h" (env !! "JWT_EXPIRES_IN"))
    (default "7d" (env !! "JWT_REFRESH_EXPIRES_IN"))
    (Number (default "12" (env !! "BCRYPT_ROUNDS")))
    frontendUrl
    aiServiceUrl
    (env !! "OPENAI_API_KEY")
    openaiApiBase
    (env !! "PINECONE_API_KEY")
    (env !! "PINECONE_ENVIRONMENT")
    (env !! "PINECONE_INDEX")
    (env !! "AWS_ACCESS_KEY_ID")
    (env !! "AWS_SECRET_ACCESS_KEY")
    (default "eu-west-1" (env !! "AWS_REGION"))
    (env !! "AWS_S3_BUCKET")
    (env !! "AWS_CLOUDFRONT_DOMAIN")
    (env !! "STRIPE_PUBLISHABLE_KEY")
    (env !! "STRIPE_SECRET_KEY")
    (env !! "STRIPE_WEBHOOK_SECRET")
    (env !! "SENTRY_DSN")
    logLevel
    (env !! "SMTP_HOST")
    (Number <$> env !! "SMTP_PORT")
    (env !! "SMTP_USER")
    (env !! "SMTP_PASS")
    (Number (default "900000" (env !! "RATE_LIMIT_WINDOW_MS")))
    (Number (default "1000" (env !! "RATE_LIMIT_MAX_REQUESTS")))
    (Number (default "10485760" (env !! "MAX_FILE_SIZE")))
    (default "image/jpeg,image/png,image/webp,image/gif" (env !! "ALLOWED_FILE_TYPES"))).

(** [!!value] for an optional string: set and not empty. *)
Definition enabled (v : option string) : bool :=
  match v with
  | Some "" | None => false
  | Some _ => true
  end.

(** [config.features] *)
Module Features.
Record t := mk {
  aiEnabled : bool;
  stripeEnabled : bool;
  awsEnabled : bool;
  emailEnabled : bool;
  monitoringEnabled : bool;
}.
End Features.

Definition features `{Zod} (env : ParsedEnv.t) : Features.t :=
  Features.mk
    (enabled (ParsedEnv.OPENAI_API_KEY env))
    (enabled (ParsedEnv.STRIPE_SECRET_KEY env))
    (enabled (ParsedEnv.AWS_ACCESS_KEY_ID env) && enabled (ParsedEnv.AWS_SECRET_ACCESS_KEY env))
    (enabled (ParsedEnv.SMTP_HOST env) && enabled (ParsedEnv.SMTP_USER env))
    (enabled (ParsedEnv.SENTRY_DSN env)).

(** [requiredForProduction.filter(value => !value)] *)
Definition missingForProduction `{Zod} (env : ParsedEnv.t) : list string :=
  List.filter (λ value, negb (enabled (Some value)))
    [ParsedEnv.JWT_SECRET env; ParsedEnv.JWT_REFRESH_SECRET env; ParsedEnv.DATABASE_URL env].

(** How loading the module [config.ts] ends: [envSchema.parse] throws, the
    production check throws, or [config] is exported (here as the parsed
    environment it regroups, with its feature flags). *)
Inductive config_result `{Zod} :=
  | ZodFailure
  | MissingRequired (missing : list string)
  | Loaded (env : ParsedEnv.t) (flags : Features.t).

Definition load_config `{Zod} (env : gmap string string) : config_result :=
  match envSchema_parse env with
  | None => ZodFailure
  | Some parsed =>
      if bool_decide (ParsedEnv.NODE_ENV parsed = production)
         && bool_decide (0 < length (missingForProduction parsed))
      then MissingRequired (missingForProduction parsed)
      else Loaded parsed (features parsed)
  end.


(** ** Stand-ins for the examples *)

(** A transparent stand-in for bcrypt and a validator that accepts. *)
Definition plain_externals : Externals := {|
  bcrypt_hash := λ password _ salt, salt +:+ password;
  bcrypt_compare := λ password hash,
    bool_decide (String.substring (String.length hash - String.length password)
                   (String.length password) hash = password);
  registerValidation := λ b, (b, true);
  loginValidation := λ b, (b, true);
  changePasswordValidation := λ b, (b, true);
|}.

Definition cfg0 : Config.t :=
  Config.mk production "access-secret-0123456789abcdef0123456789"
    "refresh-secret-0123456789abcdef012345678" 3600 604800 12.

Definition env_at (now : Z) : Env.t := Env.mk now None None "salt".

Definition alice : User.t :=
  User.mk "a@x.com" "saltAa1!aaaa" "Alice" "Example" None None USER BASIC ACTIVE None 0.

Definition store0 : store := mkStore {[ 1 := alice ]} ∅.

Definition bob : User.t :=
  User.mk "b@x.com" "saltBb2?bbbb" "Bob" "Example" None None ADMIN PREMIUM SUSPENDED None 0.

Definition store1 : store := mkStore {[ 1 := alice; 2 := bob ]} ∅.

(** Access tokens issued at second 1000, hence valid until second 4600. *)
Definition alice_access : Token :=
  Jwt.sign (User.select 1 alice) (Config.secret cfg0) (Config.expiresIn cfg0) 1000000.

Definition bob_access : Token :=
  Jwt.sign (User.select 2 bob) (Config.secret cfg0) (Config.expiresIn cfg0) 1000000.

(** A token for Alice's account whose claims say ADMIN / ENTERPRISE. *)
Definition alice_stale_access : Token :=
  Jwt.sign (AuthUser.mk 1 "a@x.com" ADMIN ENTERPRISE ACTIVE) (Config.secret cfg0)
    (Config.expiresIn cfg0) 1000000.

(** Tokens of a login of Alice at 1000100 ms. *)
Definition alice_login_access : Token :=
  Jwt.sign (User.select 1 alice) (Config.secret cfg0) (Config.expiresIn cfg0) 1000100.

Definition alice_login_refresh : Token :=
  Jwt.sign (User.select 1 alice) (Config.refreshSecret cfg0)
    (Config.refreshExpiresIn cfg0) 1000100.

(** The database after that login. *)
Definition store_logged_in : store :=
  mkStore {[ 1 := User.set_lastLogin 1000100 alice ]}
    {[ 0%nat := newSession (env_at 1000100) 1 alice_login_access alice_login_refresh ]}.

(** Tokens of a rotation of that session at 2000000 ms. *)
Definition alice_rotated_access : Token :=
  Jwt.sign (User.select 1 alice) (Config.secret cfg0) (Config.expiresIn cfg0) 2000000.

Definition alice_rotated_refresh : Token :=
  Jwt.sign (User.select 1 alice) (Config.refreshSecret cfg0)
    (Config.refreshExpiresIn cfg0) 2000000.


(** Alice logged in twice, at 1000100 ms and at 2000000 ms. *)
Definition store_two_logins : store :=
  mkStore {[ 1 := User.set_lastLogin 2000000 alice ]}
    {[ 0%nat := newSession (env_at 1000100) 1 alice_login_access alice_login_refresh;
       1%nat := newSession (env_at 2000000) 1 alice_rotated_access alice_rotated_refresh ]}.

(** She changes her password from the second login at 3000000 ms. *)
Definition change_password_request : request :=
  POST_change_password (Some (Bearer alice_rotated_access))
    (ChangePasswordBody.mk "Aa1!aaaa" "Bb2?bbbb").

Definition store_password_changed : store :=
  (handle (H := plain_externals) cfg0 (env_at 3000000) change_password_request
     store_two_logins).1.

(** Bob logged in at 1000100 ms, before his account was suspended. *)
Definition bob_login_refresh : Token :=
  Jwt.sign (AuthUser.mk 2 "b@x.com" ADMIN PREMIUM ACTIVE) (Config.refreshSecret cfg0)
    (Config.refreshExpiresIn cfg0) 1000100.

Definition bob_session : UserSession.t :=
  newSession (env_at 1000100) 2
    (Jwt.sign (AuthUser.mk 2 "b@x.com" ADMIN PREMIUM ACTIVE) (Config.secret cfg0)
       (Config.expiresIn cfg0) 1000100)
    bob_login_refresh.

Definition store_bob_suspended : store :=
  mkStore {[ 1 := alice; 2 := bob ]} {[ 0%nat := bob_session ]}.

Definition carol_registration : RegisterBody.t :=
  RegisterBody.mk "c@x.com" "Cc3!cccc" "Carol" "Example" None None.

(** The identity Carol's registration at 1000100 ms creates in [store0]. *)
Definition carol : AuthUser.t := AuthUser.mk 2 "c@x.com" USER BASIC ACTIVE.

(** Alice was demoted after [alice_stale_access] was issued; Dave is an
    ENTERPRISE super admin. *)
Definition dave : User.t :=
  User.mk "d@x.com" "saltDd4$dddd" "Dave" "Example" None None SUPER_ADMIN ENTERPRISE
    ACTIVE None 0.

Definition dave_identity : AuthUser.t := User.select 4 dave.

Definition alice_key : ApiKey.t :=
  ApiKey.mk 1 "ci" "key-alice-0001" None 0 (Some 5000000%Z) true.

Definition revoked_key : ApiKey.t :=
  ApiKey.mk 1 "old" "key-alice-0000" None 0 None false.

Definition api_keys0 : gmap nat ApiKey.t := {[ 0%nat := alice_key; 1%nat := revoked_key ]}.

(** Alice was promoted to ADMIN / PREMIUM after her login at 1000100 ms. *)
Definition alice_promoted : User.t :=
  User.mk "a@x.com" "saltAa1!aaaa" "Alice" "Example" None None ADMIN PREMIUM ACTIVE
    (Some 1000100%Z) 0.

Definition store_alice_promoted : store :=
  mkStore {[ 1 := alice_promoted ]}
    {[ 0%nat := newSession (env_at 1000100) 1 alice_login_access alice_login_refresh ]}.

(** The database after Carol's registration at 1000100 ms. *)
Definition store_carol_registered : store :=
  (handle (H := plain_externals) cfg0 (env_at 1000100) (POST_register carol_registration)
     store0).1.

(** A stand-in for zod's URL check and for [Number], and an environment
    that sets the three required variables. *)
Definition plain_zod : Zod := {|
  number := string;
  Number := λ s, s;
  is_url := λ s, String.prefix "http://" s || String.prefix "https://" s;
|}.

Definition process_env0 : gmap string string :=
  {[ "NODE_ENV" := "production";
     "DATABASE_URL" := "postgresql://db/klm";
     "JWT_SECRET" := "access-secret-0123456789abcdef0123456789";
     "JWT_REFRESH_SECRET" := "refresh-secret-0123456789abcdef012345678" ]}.

(** A [ValidationError] as a library other than mongoose throws it: the
    name, and no [errors] member. *)
Definition validation_error_without_errors : js_error :=
  OtherError (ErrorProps.mk "ValidationError" "ValidationError" "email is required"
                None None None "" "" "").

(** * Properties *)

(** ** Table lookups *)

Lemma first_row_Some {A} (p : nat → A → bool) (m : gmap nat A) i x :
  prisma.first_row p m = Some (i, x) → m !! i = Some x ∧ p i x = true.
Proof.
  unfold prisma.first_row. intros Hf.
  apply List.find_some in Hf as [Hin Hp]. split; [|exact Hp].
  apply elem_of_map_to_list, list_elem_of_In, Hin.
Qed.

Lemma first_row_None {A} (p : nat → A → bool) (m : gmap nat A) :
  prisma.first_row p m = None ↔ ∀ i x, m !! i = Some x → p i x = false.
Proof.
  unfold prisma.first_row. split.
  - intros Hf i x Hix.
    apply (List.find_none _ _ Hf (i, x)).
    apply list_elem_of_In, elem_of_map_to_list, Hix.
  - intros Hall. destruct (List.find _ _) as [[i x]|] eqn:Hf; [|done].
    apply List.find_some in Hf as [Hin Hp].
    apply list_elem_of_In, elem_of_map_to_list in Hin.
    simpl in Hp. rewrite (Hall _ _ Hin) in Hp. discriminate.
Qed.

Lemma fresh_lookup {A} (m : gmap nat A) : m !! fresh (dom m) = None.
Proof. apply not_elem_of_dom, is_fresh. Qed.

(** ** jsonwebtoken *)

Lemma verify_error_is_jwt tok secret now e :
  Jwt.verify tok secret now = inl e → instanceof_JsonWebTokenError e = true.
Proof.
  unfold Jwt.verify. intros Hv.
  destruct tok as [s p|raw].
  - repeat case_bool_decide; by simplify_eq.
  - destruct raw; by simplify_eq.
Qed.

Lemma verify_ok_signed tok secret now p :
  Jwt.verify tok secret now = inr p →
  tok = Signed secret p ∧ (now / 1000 < JWTPayload.exp p)%Z.
Proof.
  unfold Jwt.verify. intros Hv.
  destruct tok as [s q|raw].
  - repeat case_bool_decide; simplify_eq. split; [done|lia].
  - destruct raw; by simplify_eq.
Qed.

(** ** authMiddleware *)

Lemma authMiddleware_bad_token cfg st tok now e :
  Jwt.verify tok (Config.secret cfg) now = inl e →
  authMiddleware cfg (Some (Bearer tok)) now st
  = (st, Send (Response 401 (JError "Unauthorized" "Invalid access token"))).
Proof.
  intros Hv. unfold authMiddleware, catch_all, authMiddleware_try, bind, lift.
  rewrite Hv. unfold authMiddleware_catch.
  by rewrite (verify_error_is_jwt _ _ _ _ Hv).
Qed.

Lemma authMiddleware_unknown_user cfg st tok now p :
  Jwt.verify tok (Config.secret cfg) now = inr p →
  users st !! JWTPayload.userId p = None →
  authMiddleware cfg (Some (Bearer tok)) now st
  = (st, Send (Response 401 (JError "Unauthorized" "User not found"))).
Proof.
  intros Hv Hu. unfold authMiddleware, catch_all, authMiddleware_try, bind, lift.
  rewrite Hv. unfold prisma.user.findUnique. by rewrite Hu.
Qed.

Lemma authMiddleware_not_active cfg st tok now p row :
  Jwt.verify tok (Config.secret cfg) now = inr p →
  users st !! JWTPayload.userId p = Some row →
  User.subscriptionStatus row ≠ ACTIVE →
  authMiddleware cfg (Some (Bearer tok)) now st
  = (st, Send (Response 403 (JError "Forbidden" "Account is not active"))).
Proof.
  intros Hv Hu Hs. unfold authMiddleware, catch_all, authMiddleware_try, bind, lift.
  rewrite Hv. unfold prisma.user.findUnique. rewrite Hu. simpl.
  by rewrite bool_decide_eq_true_2.
Qed.

Lemma authMiddleware_active cfg st tok now p row :
  Jwt.verify tok (Config.secret cfg) now = inr p →
  users st !! JWTPayload.userId p = Some row →
  User.subscriptionStatus row = ACTIVE →
  authMiddleware cfg (Some (Bearer tok)) now st
  = (set_users (insert (JWTPayload.userId p) (User.set_lastLogin now row)) st,
     Next (Some (User.select (JWTPayload.userId p) row))).
Proof.
  intros Hv Hu Hs. unfold authMiddleware, catch_all, authMiddleware_try, bind, lift.
  rewrite Hv. unfold prisma.user.findUnique. rewrite Hu. simpl.
  rewrite bool_decide_eq_false_2 by (intros Hn; by apply Hn).
  unfold prisma.user.update. simpl. by rewrite Hu.
Qed.

(** The ways [authMiddleware] can end. *)
Lemma authMiddleware_cases cfg hdr now st :
  (∃ r, authMiddleware cfg hdr now st = (st, Send r)
        ∧ (status r = 401 ∨ status r = 403)%Z
        ∧ ∃ err msg, body r = JError err msg)
  ∨ (∃ tok p row,
        hdr = Some (Bearer tok)
        ∧ Jwt.verify tok (Config.secret cfg) now = inr p
        ∧ users st !! JWTPayload.userId p = Some row
        ∧ User.subscriptionStatus row = ACTIVE
        ∧ authMiddleware cfg hdr now st
          = (set_users (insert (JWTPayload.userId p) (User.set_lastLogin now row)) st,
             Next (Some (User.select (JWTPayload.userId p) row)))).
Proof.
  destruct hdr as [[tok|raw]|]; [|left; eexists; split; [reflexivity|]; simpl; eauto..].
  destruct (Jwt.verify tok (Config.secret cfg) now) as [e|p] eqn:Hv.
  { left. eexists. split; [by eapply authMiddleware_bad_token|]. simpl. eauto. }
  destruct (users st !! JWTPayload.userId p) as [row|] eqn:Hu.
  2:{ left. eexists. split; [by eapply authMiddleware_unknown_user|]. simpl. eauto. }
  destruct (decide (User.subscriptionStatus row = ACTIVE)) as [Hs|Hs].
  - right. exists tok, p, row. repeat split; try done.
    by apply authMiddleware_active.
  - left. eexists. split; [by eapply authMiddleware_not_active|]. simpl. eauto.
Qed.

(** C3 (as amended). A valid access token of an account whose status is not
    ACTIVE is refused with 403 "Account is not active" and nothing is
    written; a token that does not verify (malformed, wrongly signed or
    expired) is refused with 401 before any account is looked up, whatever
    the status of the account it names. *)
Theorem authMiddleware_inactive_account cfg st tok now :
  (∀ p row,
      Jwt.verify tok (Config.secret cfg) now = inr p →
      users st !! JWTPayload.userId p = Some row →
      User.subscriptionStatus row ≠ ACTIVE →
      authMiddleware cfg (Some (Bearer tok)) now st
      = (st, Send (Response 403 (JError "Forbidden" "Account is not active"))))
  ∧ (∀ e,
      Jwt.verify tok (Config.secret cfg) now = inl e →
      authMiddleware cfg (Some (Bearer tok)) now st
      = (st, Send (Response 401 (JError "Unauthorized" "Invalid access token")))).
Proof.
  split.
  - intros p row Hv Hu Hs. by eapply authMiddleware_not_active.
  - intros e Hv. by eapply authMiddleware_bad_token.
Qed.

Lemma authMiddleware_inactive_account_witness :
  authMiddleware cfg0 (Some (Bearer bob_access)) 2000000 store1
  = (store1, Send (Response 403 (JError "Forbidden" "Account is not active")))
  ∧ authMiddleware cfg0 (Some (Bearer (Malformed "abc"))) 2000000 store1
    = (store1, Send (Response 401 (JError "Unauthorized" "Invalid access token"))).
Proof.
  split.
  - apply (proj1 (authMiddleware_inactive_account cfg0 store1 bob_access 2000000)
             (JWTPayload.mk (User.select 2 bob) 1000 4600) bob);
      [reflexivity | reflexivity | discriminate].
  - apply (proj2 (authMiddleware_inactive_account cfg0 store1 (Malformed "abc") 2000000)
             (JsonWebTokenError "jwt malformed")).
    reflexivity.
Defined.

(** C3 fails as stated: Bob's account is SUSPENDED, and his own access
    token, once expired, is answered 401, not 403. *)
Lemma authMiddleware_inactive_account_expired_token :
  users store1 !! 2 = Some bob
  ∧ User.subscriptionStatus bob ≠ ACTIVE
  ∧ bob_access = Jwt.sign (User.select 2 bob) (Config.secret cfg0) (Config.expiresIn cfg0) 1000000
  ∧ authMiddleware cfg0 (Some (Bearer bob_access)) 5000000 store1
    = (store1, Send (Response 401 (JError "Unauthorized" "Invalid access token"))).
Proof.
  split; [reflexivity|]. split; [discriminate|]. split; [reflexivity|].
  vm_compute. reflexivity.
Qed.

(** C4. The identity [authMiddleware] attaches is read from the live user
    row: its id is the one the token names and its email, role, plan and
    status are the row's columns, never the token's claims. Two valid access
    tokens that name the same account give the same result, whatever role,
    plan and status they claim; whenever an identity is attached the account
    exists, is ACTIVE, and the identity carries the row's columns; and a
    valid token of an existing ACTIVE account is passed with exactly that
    identity. *)
Theorem authMiddleware_identity_from_live_record cfg st now tok1 tok2 p1 p2 :
  Jwt.verify tok1 (Config.secret cfg) now = inr p1 →
  Jwt.verify tok2 (Config.secret cfg) now = inr p2 →
  JWTPayload.userId p1 = JWTPayload.userId p2 →
  authMiddleware cfg (Some (Bearer tok1)) now st
  = authMiddleware cfg (Some (Bearer tok2)) now st
  ∧ (∀ st' user,
      authMiddleware cfg (Some (Bearer tok1)) now st = (st', Next (Some user)) →
      ∃ row, users st !! JWTPayload.userId p1 = Some row
             ∧ user = User.select (JWTPayload.userId p1) row
             ∧ AuthUser.id user = JWTPayload.userId p1
             ∧ AuthUser.email user = User.email row
             ∧ AuthUser.role user = User.role row
             ∧ AuthUser.subscriptionPlan user = User.subscriptionPlan row
             ∧ AuthUser.subscriptionStatus user = User.subscriptionStatus row
             ∧ User.subscriptionStatus row = ACTIVE)
  ∧ (∀ row,
      users st !! JWTPayload.userId p1 = Some row →
      User.subscriptionStatus row = ACTIVE →
      ∀ tok, tok = tok1 ∨ tok = tok2 →
        (authMiddleware cfg (Some (Bearer tok)) now st).2
        = Next (Some (AuthUser.mk (JWTPayload.userId p1) (User.email row) (User.role row)
                        (User.subscriptionPlan row) ACTIVE))).
Proof.
  intros Hv1 Hv2 Hid.
  destruct (users st !! JWTPayload.userId p1) as [row|] eqn:Hu.
  - destruct (decide (User.subscriptionStatus row = ACTIVE)) as [Hs|Hs].
    + rewrite (authMiddleware_active _ _ _ _ _ _ Hv1 Hu Hs).
      pose proof Hu as Hu2. rewrite Hid in Hu2.
      rewrite (authMiddleware_active _ _ _ _ _ _ Hv2 Hu2 Hs).
      split; [by rewrite Hid|]. split.
      * intros st' user Heq. exists row. by simplify_eq.
      * intros row' Hrow' Hact tok [-> | ->]; simplify_eq.
        -- rewrite (authMiddleware_active _ _ _ _ _ _ Hv1 Hu Hs). simpl.
           unfold User.select. by rewrite Hs.
        -- rewrite (authMiddleware_active _ _ _ _ _ _ Hv2 Hu2 Hs). simpl.
           unfold User.select. by rewrite Hs, Hid.
    + rewrite (authMiddleware_not_active _ _ _ _ _ _ Hv1 Hu Hs).
      rewrite Hid in Hu.
      rewrite (authMiddleware_not_active _ _ _ _ _ _ Hv2 Hu Hs).
      split; [done|]. split.
      * intros st' user Heq. simplify_eq.
      * intros row' Hrow' Hact. simplify_eq.
  - rewrite (authMiddleware_unknown_user _ _ _ _ _ Hv1 Hu).
    rewrite Hid in Hu.
    rewrite (authMiddleware_unknown_user _ _ _ _ _ Hv2 Hu).
    split; [done|]. split.
    + intros st' user Heq. simplify_eq.
    + intros row' Hrow'. simplify_eq.
Qed.

(** Alice's row says USER / BASIC; [alice_stale_access] claims ADMIN /
    ENTERPRISE. Both tokens are passed as USER / BASIC. *)
Lemma authMiddleware_identity_from_live_record_witness :
  (authMiddleware cfg0 (Some (Bearer alice_access)) 2000000 store1
   = authMiddleware cfg0 (Some (Bearer alice_stale_access)) 2000000 store1
   ∧ (∀ st' user,
       authMiddleware cfg0 (Some (Bearer alice_access)) 2000000 store1
       = (st', Next (Some user)) →
       ∃ row, users store1 !! 1 = Some row
              ∧ user = User.select 1 row
              ∧ AuthUser.id user = 1
              ∧ AuthUser.email user = User.email row
              ∧ AuthUser.role user = User.role row
              ∧ AuthUser.subscriptionPlan user = User.subscriptionPlan row
              ∧ AuthUser.subscriptionStatus user = User.subscriptionStatus row
              ∧ User.subscriptionStatus row = ACTIVE)
   ∧ (∀ row,
       users store1 !! 1 = Some row →
       User.subscriptionStatus row = ACTIVE →
       ∀ tok, tok = alice_access ∨ tok = alice_stale_access →
         (authMiddleware cfg0 (Some (Bearer tok)) 2000000 store1).2
         = Next (Some (AuthUser.mk 1 (User.email row) (User.role row)
                         (User.subscriptionPlan row) ACTIVE))))
  ∧ (authMiddleware cfg0 (Some (Bearer alice_stale_access)) 2000000 store1).2
    = Next (Some (AuthUser.mk 1 "a@x.com" USER BASIC ACTIVE)).
Proof.
  split.
  - apply (authMiddleware_identity_from_live_record cfg0 store1 2000000
             alice_access alice_stale_access
             (JWTPayload.mk (User.select 1 alice) 1000 4600)
             (JWTPayload.mk (AuthUser.mk 1 "a@x.com" ADMIN ENTERPRISE ACTIVE) 1000 4600));
      reflexivity.
  - vm_compute. reflexivity.
Defined.

(** C9. [optionalAuthMiddleware] always calls [next()] and writes nothing;
    it attaches an identity exactly when the header is a Bearer token that
    verifies and names an existing account whose status is ACTIVE, and that
    identity is the live row's. *)
Theorem optionalAuthMiddleware_never_rejects cfg hdr now st :
  ∃ user,
    optionalAuthMiddleware cfg hdr now st = (st, Next user)
    ∧ ∀ u, user = Some u ↔
           ∃ tok p row,
             hdr = Some (Bearer tok)
             ∧ Jwt.verify tok (Config.secret cfg) now = inr p
             ∧ users st !! JWTPayload.userId p = Some row
             ∧ User.subscriptionStatus row = ACTIVE
             ∧ u = User.select (JWTPayload.userId p) row.
Proof.
  unfold optionalAuthMiddleware, catch_all, optionalAuthMiddleware_try.
  destruct hdr as [[tok|raw]|]; simpl.
  2,3: exists None; split; [done|]; intros u; split;
       [done | intros (?&?&?&?&?&?&?&?); simplify_eq].
  unfold bind, lift, prisma.user.findUnique.
  destruct (Jwt.verify tok (Config.secret cfg) now) as [e|p] eqn:Hv.
  { exists None. split; [done|]. intros u; split; [done|].
    intros (?&?&?&?&?&?&?&?); simplify_eq; congruence. }
  destruct (users st !! JWTPayload.userId p) as [row|] eqn:Hu; simpl.
  2:{ exists None. split; [done|]. intros u; split; [done|].
      intros (?&?&?&?&?&?&?&?); simplify_eq; congruence. }
  case_bool_decide as Hs; simpl in Hs.
  - eexists. split; [done|]. intros u; split.
    + intros ?; simplify_eq. by exists tok, p, row.
    + intros (?&?&?&?&?&?&?&?); simplify_eq; congruence.
  - exists None. split; [done|]. intros u; split; [done|].
    intros (?&?&?&?&?&?&?&?); simplify_eq; congruence.
Qed.

(** ** userRateLimit *)

Lemma ceil_seconds_bounds (ms w : Z) :
  (0 ≤ ms ≤ 1000 * w)%Z → (0 ≤ ceil_seconds ms ≤ w)%Z.
Proof.
  intros Hms. unfold ceil_seconds.
  pose proof (Z.div_mod (- ms) 1000 ltac:(lia)) as Hdm.
  pose proof (Z.mod_pos_bound (- ms) 1000 ltac:(lia)) as Hmod.
  lia.
Qed.

(** [ceil_seconds ms] is the least whole number of seconds that covers
    [ms] milliseconds. *)
Lemma ceil_seconds_least (ms : Z) :
  (1000 * (ceil_seconds ms - 1) < ms ≤ 1000 * ceil_seconds ms)%Z.
Proof.
  unfold ceil_seconds.
  pose proof (Z.div_mod (- ms) 1000 ltac:(lia)) as Hdm.
  pose proof (Z.mod_pos_bound (- ms) 1000 ltac:(lia)) as Hmod.
  lia.
Qed.

(** A request that finds no entry, or an entry whose window is over, opens
    a window. *)
Lemma userRateLimit_opens_window (maxRequests windowMs : Z) u (now : Z)
    (m : gmap nat Limit.t) :
  (∀ l, m !! AuthUser.id u = Some l → (now > Limit.resetTime l)%Z) →
  userRateLimit maxRequests windowMs (Some u) now m
  = (<[AuthUser.id u := Limit.mk 1 (now + windowMs)]> m, Next (Some u)).
Proof.
  intros Hstart. unfold userRateLimit.
  destruct (m !! AuthUser.id u) as [l|] eqn:Hl; [|done].
  by rewrite bool_decide_eq_true_2 by by apply Hstart.
Qed.

Lemma userRateLimit_counts (maxRequests windowMs : Z) u (now : Z)
    (m : gmap nat Limit.t) l :
  m !! AuthUser.id u = Some l →
  (now ≤ Limit.resetTime l)%Z →
  (Limit.count l < maxRequests)%Z →
  userRateLimit maxRequests windowMs (Some u) now m
  = (<[AuthUser.id u := Limit.mk (Limit.count l + 1) (Limit.resetTime l)]> m,
     Next (Some u)).
Proof.
  intros Hl Hnow Hc. unfold userRateLimit. rewrite Hl.
  rewrite bool_decide_eq_false_2 by lia.
  by rewrite bool_decide_eq_false_2 by lia.
Qed.

Lemma userRateLimit_trips (maxRequests windowMs : Z) u (now : Z)
    (m : gmap nat Limit.t) l :
  m !! AuthUser.id u = Some l →
  (now ≤ Limit.resetTime l)%Z →
  (Limit.count l >= maxRequests)%Z →
  userRateLimit maxRequests windowMs (Some u) now m
  = (m, Send (Response 429
                (JRateLimited "Too Many Requests" "Rate limit exceeded for your account"
                   (ceil_seconds (Limit.resetTime l - now))))).
Proof.
  intros Hl Hnow Hc. unfold userRateLimit. rewrite Hl.
  rewrite bool_decide_eq_false_2 by lia.
  by rewrite bool_decide_eq_true_2 by lia.
Qed.

(** A request of one identity leaves the entries of the others alone. *)
Lemma userRateLimit_other_identity (maxRequests windowMs : Z) u (now : Z)
    (m : gmap nat Limit.t) id :
  id ≠ AuthUser.id u →
  (userRateLimit maxRequests windowMs (Some u) now m).1 !! id = m !! id.
Proof.
  intros Hne. unfold userRateLimit.
  destruct (m !! AuthUser.id u) as [l|]; repeat case_bool_decide; simpl;
    by rewrite ?lookup_insert_ne.
Qed.

(** Inside an open window every request passes while the count stays within
    the ceiling, and each one adds 1 to the count. *)
Lemma rate_limited_app (maxRequests windowMs : Z) user (ts1 ts2 : list Z) :
  ∀ m : gmap nat Limit.t,
    rate_limited maxRequests windowMs user (ts1 ++ ts2)%list m
    = let '(m1, os1) := rate_limited maxRequests windowMs user ts1 m in
      let '(m2, os2) := rate_limited maxRequests windowMs user ts2 m1 in
      (m2, (os1 ++ os2)%list).
Proof.
  induction ts1 as [|t ts1 IH]; intros m; simpl.
  - by destruct (rate_limited _ _ _ ts2 m).
  - destruct (userRateLimit _ _ _ t m) as [m0 o]. rewrite IH.
    destruct (rate_limited _ _ _ ts1 m0) as [m1 os1].
    by destruct (rate_limited _ _ _ ts2 m1).
Qed.

Lemma rate_limited_within_window (maxRequests windowMs : Z) u (times : list Z) :
  ∀ (m : gmap nat Limit.t) (c reset : Z),
    m !! AuthUser.id u = Some (Limit.mk c reset) →
    Forall (λ t, t ≤ reset)%Z times →
    (c + Z.of_nat (length times) ≤ maxRequests)%Z →
    ∃ m',
      rate_limited maxRequests windowMs (Some u) times m
      = (m', replicate (length times) (Next (Some u)))
      ∧ m' !! AuthUser.id u = Some (Limit.mk (c + Z.of_nat (length times)) reset).
Proof.
  induction times as [|t times IH]; intros m c reset Hm Hts Hc.
  - exists m. split; [done|]. simpl. rewrite Hm. do 2 f_equal. lia.
  - apply Forall_cons in Hts as [Ht Hts]. simpl in Hc.
    cbn [rate_limited].
    rewrite (userRateLimit_counts _ _ _ _ _ _ Hm) by (simpl; lia). simpl.
    destruct (IH (<[AuthUser.id u := Limit.mk (c + 1) reset]> m) (c + 1)%Z reset)
      as (m' & Hrun & Hm'); [by rewrite lookup_insert_eq | done | lia |].
    exists m'. rewrite Hrun. split; [done|].
    rewrite Hm'. do 2 f_equal. lia.
Qed.

(** C6. With [maxRequests = 5] and [windowMs = 60000]: when the first of six
    requests of one identity opens a window and the other five fall inside
    it, the first five pass and the sixth is answered 429 with a
    [retryAfter] that is the time left in the window in seconds, rounded up
    to a whole number: the least [r] with [1000 * r] milliseconds covering
    what is left of the 60000. It lies between 0 and 60. *)
Theorem userRateLimit_sixth_request_limited u (m : gmap nat Limit.t)
    (t1 t2 t3 t4 t5 t6 : Z) :
  (∀ l, m !! AuthUser.id u = Some l → (t1 > Limit.resetTime l)%Z) →
  Forall (λ t, t1 ≤ t ≤ t1 + 60000)%Z [t2; t3; t4; t5; t6] →
  ∃ m' retryAfter,
    rate_limited 5 60000 (Some u) [t1; t2; t3; t4; t5; t6] m
    = (m', [Next (Some u); Next (Some u); Next (Some u); Next (Some u); Next (Some u);
            Send (Response 429
                    (JRateLimited "Too Many Requests"
                       "Rate limit exceeded for your account" retryAfter))])
    ∧ retryAfter = ceil_seconds (t1 + 60000 - t6)
    ∧ (1000 * (retryAfter - 1) < t1 + 60000 - t6 ≤ 1000 * retryAfter)%Z
    ∧ (0 ≤ retryAfter ≤ 60)%Z.
Proof.
  intros Hstart Hts.
  assert (Forall (λ t, t ≤ t1 + 60000)%Z [t2; t3; t4; t5]) as Hin.
  { repeat (apply Forall_cons in Hts as [? Hts]).
    repeat (apply Forall_cons; split; [lia|]). apply Forall_nil_2. }
  assert (t1 ≤ t6 ≤ t1 + 60000)%Z as Ht6.
  { by repeat (apply Forall_cons in Hts as [? Hts]). }
  change [t1; t2; t3; t4; t5; t6] with (t1 :: [t2; t3; t4; t5] ++ [t6])%list.
  cbn [rate_limited].
  rewrite (userRateLimit_opens_window _ _ _ _ _ Hstart).
  destruct (rate_limited_within_window 5 60000 u [t2; t3; t4; t5]
              (<[AuthUser.id u := Limit.mk 1 (t1 + 60000)]> m) 1 (t1 + 60000)%Z)
    as (m' & Hrun & Hm'); [by rewrite lookup_insert_eq | done | simpl; lia |].
  rewrite rate_limited_app, Hrun. cbn [rate_limited].
  rewrite (userRateLimit_trips _ _ _ _ _ _ Hm') by (simpl; lia).
  eexists _, _. split; [reflexivity|]. simpl. split; [done|].
  split; [apply ceil_seconds_least|].
  apply (ceil_seconds_bounds _ 60). lia.
Qed.

(** Six requests 10 seconds apart: the sixth comes 50 seconds into the
    window and is told to retry after the 10 seconds that are left. *)
Lemma userRateLimit_sixth_request_limited_witness :
  ∃ m',
    rate_limited 5 60000 (Some (User.select 1 alice))
      [0; 10000; 20000; 30000; 40000; 50000]%Z ∅
    = (m', [Next (Some (User.select 1 alice)); Next (Some (User.select 1 alice));
            Next (Some (User.select 1 alice)); Next (Some (User.select 1 alice));
            Next (Some (User.select 1 alice));
            Send (Response 429
                    (JRateLimited "Too Many Requests"
                       "Rate limit exceeded for your account" 10))]).
Proof.
  destruct (userRateLimit_sixth_request_limited (User.select 1 alice) ∅
              0 10000 20000 30000 40000 50000)
    as (m' & retryAfter & Hrun & _ & Hleast & _).
  - intros l Hl. vm_compute in Hl. discriminate.
  - repeat (apply Forall_cons; split; [lia|]). apply Forall_nil_2.
  - exists m'. rewrite Hrun. repeat f_equal. lia.
Defined.

(** ** The refresh handler *)

Lemma errorHandler_invalidRefreshToken env :
  errorHandler env invalidRefreshToken
  = inr (Response 401 (JErrorResponse "Unauthorized" "Invalid refresh token"
                         (Some "INVALID_REFRESH_TOKEN"))).
Proof. reflexivity. Qed.

(** Without an active, unexpired session that stores the presented token,
    the handler throws [invalidRefreshToken], whether or not the token
    verifies, and writes nothing. *)
Lemma refresh_handler_rejects cfg tok now st :
  truthy tok = true →
  (∀ id s, userSessions st !! id = Some s → refreshable tok now s = false) →
  refresh_handler cfg (Some tok) now st = (st, inl invalidRefreshToken).
Proof.
  intros Htok Hnone. unfold refresh_handler. rewrite Htok.
  unfold try_catch, bind, refresh_find, bind, lift.
  destruct (Jwt.verify tok (Config.refreshSecret cfg) now) as [e|p] eqn:Hv.
  - unfold refresh_catch. by rewrite (verify_error_is_jwt _ _ _ _ Hv).
  - unfold prisma.userSession.findFirst.
    replace (prisma.first_row _ _) with (@None (nat * UserSession.t)); [done|].
    symmetry. apply first_row_None. intros id s Hs. by apply (Hnone id).
Qed.

Lemma refresh_handler_bad_token cfg tok now st e :
  truthy tok = true →
  Jwt.verify tok (Config.refreshSecret cfg) now = inl e →
  refresh_handler cfg (Some tok) now st = (st, inl invalidRefreshToken).
Proof.
  intros Htok Hv. unfold refresh_handler. rewrite Htok.
  unfold try_catch, bind, refresh_find, bind, lift. rewrite Hv.
  unfold refresh_catch. by rewrite (verify_error_is_jwt _ _ _ _ Hv).
Qed.

(** ** Status codes *)

(** C8. The failures the specification names leave with the status it gives:
    a missing or non-Bearer header, and a token that does not verify
    (malformed, wrongly signed or expired), are answered 401 by
    [authMiddleware]; a valid token of an account that is not ACTIVE, 403; a
    tripped [userRateLimit], 429; a refresh token that does not verify or
    that no active, unexpired session stores, 401, and one whose session
    belongs to an account that is not ACTIVE, 403; and an error that neither
    the [catch] block of [authMiddleware] nor [errorHandler] classifies,
    500. *)
Theorem failures_map_to_status cfg :
  (∀ now st,
      (authMiddleware cfg None now st).2
      = Send (Response 401 (JError "Unauthorized" "Access token is required")))
  ∧ (∀ raw now st,
      (authMiddleware cfg (Some (NotBearer raw)) now st).2
      = Send (Response 401 (JError "Unauthorized" "Access token is required")))
  ∧ (∀ tok now st e,
      Jwt.verify tok (Config.secret cfg) now = inl e →
      (authMiddleware cfg (Some (Bearer tok)) now st).2
      = Send (Response 401 (JError "Unauthorized" "Invalid access token")))
  ∧ (∀ tok now st p row,
      Jwt.verify tok (Config.secret cfg) now = inr p →
      users st !! JWTPayload.userId p = Some row →
      User.subscriptionStatus row ≠ ACTIVE →
      (authMiddleware cfg (Some (Bearer tok)) now st).2
      = Send (Response 403 (JError "Forbidden" "Account is not active")))
  ∧ (∀ (maxRequests windowMs : Z) u (now : Z) (m : gmap nat Limit.t) l,
      m !! AuthUser.id u = Some l →
      (now ≤ Limit.resetTime l)%Z →
      (Limit.count l >= maxRequests)%Z →
      ∃ b, (userRateLimit maxRequests windowMs (Some u) now m).2
           = Send (Response 429 b))
  ∧ (∀ tok now st,
      truthy tok = true →
      (∀ p, Jwt.verify tok (Config.refreshSecret cfg) now = inr p →
            ∀ id s, userSessions st !! id = Some s → refreshable tok now s = false) →
      (asyncHandler cfg (refresh_handler cfg (Some tok) now) st).2
      = Response 401 (JErrorResponse "Unauthorized" "Invalid refresh token"
                        (Some "INVALID_REFRESH_TOKEN")))
  ∧ (∀ tok now st p id s row,
      Jwt.verify tok (Config.refreshSecret cfg) now = inr p →
      prisma.first_row (λ _ s, refreshable tok now s) (userSessions st) = Some (id, s) →
      users st !! UserSession.userId s = Some row →
      User.subscriptionStatus row ≠ ACTIVE →
      (asyncHandler cfg (refresh_handler cfg (Some tok) now) st).2
      = Response 403 (JErrorResponse "Forbidden" "Account is not active"
                        (Some "ACCOUNT_INACTIVE")))
  ∧ (∀ e,
      instanceof_JsonWebTokenError e = false →
      authMiddleware_catch e
      = Send (Response 500 (JError "Internal Server Error" "Authentication failed")))
  ∧ (∀ e,
      unclassified e →
      ∃ r, errorHandler (Config.env cfg) e = inr r ∧ status r = 500%Z).
Proof.
  repeat split.
  - intros tok now st e Hv. by rewrite (authMiddleware_bad_token _ _ _ _ _ Hv).
  - intros tok now st p row Hv Hu Hs.
    by rewrite (authMiddleware_not_active _ _ _ _ _ _ Hv Hu Hs).
  - intros maxRequests windowMs u now m l Hl Hnow Hc.
    rewrite (userRateLimit_trips _ _ _ _ _ _ Hl Hnow Hc). by eexists.
  - intros tok now st Htok Hnone. unfold asyncHandler, catch_all.
    destruct (Jwt.verify tok (Config.refreshSecret cfg) now) as [e|p] eqn:Hv.
    + by rewrite (refresh_handler_bad_token _ _ _ _ _ Htok Hv).
    + by rewrite (refresh_handler_rejects _ _ _ _ Htok (Hnone p eq_refl)).
  - intros tok now st p id s row Hv Hfind Hrow Hs.
    destruct (verify_ok_signed _ _ _ _ Hv) as [-> _].
    unfold asyncHandler, catch_all, refresh_handler. simpl.
    unfold try_catch, bind, refresh_find, bind, lift. rewrite Hv.
    unfold prisma.userSession.findFirst. rewrite Hfind.
    unfold prisma.user.findUnique, ret. rewrite Hrow. simpl.
    by rewrite bool_decide_eq_true_2.
  - intros e He. unfold authMiddleware_catch. rewrite He.
    by destruct e.
  - intros e (props & -> & Hname & Hctor).
    unfold errorHandler, toAppError. simpl.
    rewrite !not_elem_of_cons in Hname.
    destruct Hname as (? & ? & ? & ? & ? & _).
    rewrite !bool_decide_eq_false_2 by done. simpl.
    rewrite Hctor. by eexists.
Qed.

Lemma failures_map_to_status_witness :
  (authMiddleware cfg0 (Some (Bearer bob_access)) 5000000 store1).2
  = Send (Response 401 (JError "Unauthorized" "Invalid access token"))
  ∧ (authMiddleware cfg0 (Some (Bearer bob_access)) 2000000 store1).2
    = Send (Response 403 (JError "Forbidden" "Account is not active"))
  ∧ (∃ b, (userRateLimit 5 60000 (Some (User.select 1 alice)) 30000
             {[ 1 := Limit.mk 5 60000 ]}).2 = Send (Response 429 b))
  ∧ (asyncHandler cfg0 (refresh_handler cfg0 (Some alice_access) 2000000) store1).2
    = Response 401 (JErrorResponse "Unauthorized" "Invalid refresh token"
                      (Some "INVALID_REFRESH_TOKEN"))
  ∧ (asyncHandler cfg0 (refresh_handler cfg0 (Some bob_login_refresh) 2000000)
       store_bob_suspended).2
    = Response 403 (JErrorResponse "Forbidden" "Account is not active"
                      (Some "ACCOUNT_INACTIVE"))
  ∧ authMiddleware_catch (TypeError "x")
    = Send (Response 500 (JError "Internal Server Error" "Authentication failed"))
  ∧ ∃ r, errorHandler (Config.env cfg0) (TypeError "x") = inr r ∧ status r = 500%Z.
Proof.
  pose proof (failures_map_to_status cfg0)
    as (_ & _ & H401 & H403 & H429 & Href & Hoff & Hc & He).
  split; [|split; [|split; [|split; [|split; [|split]]]]].
  - apply (H401 bob_access 5000000%Z store1 (TokenExpiredError "jwt expired")).
    reflexivity.
  - apply (H403 bob_access 2000000%Z store1
             (JWTPayload.mk (User.select 2 bob) 1000 4600) bob);
      [reflexivity | reflexivity | discriminate].
  - apply (H429 5%Z 60000%Z (User.select 1 alice) 30000%Z {[ 1 := Limit.mk 5 60000 ]}
             (Limit.mk 5 60000)); [reflexivity | simpl; lia | simpl; lia].
  - apply (Href alice_access 2000000%Z store1); [reflexivity|].
    intros p Hv. vm_compute in Hv. discriminate.
  - apply (Hoff bob_login_refresh 2000000%Z store_bob_suspended
             (JWTPayload.mk (AuthUser.mk 2 "b@x.com" ADMIN PREMIUM ACTIVE) 1000 605800)
             0%nat bob_session bob);
      [reflexivity | vm_compute; reflexivity | reflexivity | discriminate].
  - apply (Hc (TypeError "x")). reflexivity.
  - apply (He (TypeError "x")). eexists. split; [reflexivity|].
    split; [|reflexivity]. simpl. rewrite !not_elem_of_cons.
    repeat split; try discriminate. apply not_elem_of_nil.
Defined.

(** ** What the handlers write *)

(** Unfolds a handler down to the table operations and splits on every
    branch it takes. *)
Ltac run_handler :=
  unfold asyncHandler, catch_all, try_catch, bind, ret, throw, lift,
    prisma.user.findUnique, prisma.user.findUnique_email, prisma.user.create,
    prisma.user.update, prisma.userSession.create, prisma.userSession.findFirst,
    prisma.userSession.update, prisma.userSession.updateMany_deactivate,
    refresh_catch in *;
  simpl in *;
  repeat (case_match; simplify_eq; simpl in *).

Lemma no_clash_create (m : gmap nat UserSession.t) a :
  bool_decide (map_Exists (λ _ s, UserSession.token s = a) m) = false →
  ∀ j s, m !! j = Some s → UserSession.token s ≠ a.
Proof.
  intros Hb j s Hj Heq. apply bool_decide_eq_false in Hb.
  apply Hb. by exists j, s.
Qed.

Lemma no_clash_update (m : gmap nat UserSession.t) id a :
  bool_decide (map_Exists (λ j s, j ≠ id ∧ UserSession.token s = a) m) = false →
  ∀ j s, m !! j = Some s → j ≠ id → UserSession.token s ≠ a.
Proof.
  intros Hb j s Hj Hne Heq. apply bool_decide_eq_false in Hb.
  apply Hb. by exists j, s.
Qed.

(** The refresh handler either throws and leaves the database as it was,
    or it found an active, unexpired session that stores the presented
    token, whose owner is ACTIVE, and replaced that row's tokens and expiry. *)
Lemma refresh_handler_cases cfg refreshToken now st :
  (∃ e, refresh_handler cfg refreshToken now st = (st, inl e))
  ∨ (∃ tok p id s row,
        refreshToken = Some tok
        ∧ Jwt.verify tok (Config.refreshSecret cfg) now = inr p
        ∧ userSessions st !! id = Some s
        ∧ refreshable tok now s = true
        ∧ users st !! UserSession.userId s = Some row
        ∧ User.subscriptionStatus row = ACTIVE
        ∧ let user := User.select (UserSession.userId s) row in
          let a := (generateTokens cfg user now).1 in
          let r := (generateTokens cfg user now).2 in
          (∀ j s', userSessions st !! j = Some s' → j ≠ id → UserSession.token s' ≠ a)
          ∧ refresh_handler cfg refreshToken now st
            = (set_userSessions
                 (insert id (UserSession.set_tokens a r (now + SEVEN_DAYS)%Z s)) st,
               inr (Response 200 (JTokens "Tokens refreshed successfully" a r)))).
Proof.
  unfold refresh_handler, refresh_find, refresh_write.
  run_handler; try (left; eexists; reflexivity).
  right.
  match goal with
  | Hf : prisma.first_row _ _ = Some _ |- _ => apply first_row_Some in Hf as [Hs Hp]
  end.
  match goal with
  | Hu : _ <$> users _ !! _ = Some _ |- _ =>
      destruct (users _ !! _) as [row|] eqn:Hrow; simpl in Hu; simplify_eq
  end.
  match goal with
  | Ha : bool_decide (_ ≠ ACTIVE) = false |- _ =>
      apply bool_decide_eq_false, dec_stable in Ha
  end.
  eexists _, _, _, _, row. repeat split; eauto.
  by apply no_clash_update.
Qed.

Lemma authMiddleware_sessions cfg hdr now st :
  userSessions (authMiddleware cfg hdr now st).1 = userSessions st.
Proof.
  destruct (authMiddleware_cases cfg hdr now st)
    as [(r & -> & _)|(tok & p & row & _ & _ & _ & _ & ->)]; done.
Qed.

Section Effects.
Context `{Externals} (cfg : Config.t).

Lemma refresh_issue_step env refreshToken st :
  issue_step cfg env (userSessions st)
    (userSessions (refresh_handler cfg refreshToken (Env.now env) st).1).
Proof.
  destruct (refresh_handler_cases cfg refreshToken (Env.now env) st)
    as [[e ->]|(tok & p & id & s & row & _ & _ & Hs & _ & _ & _ & Hclash & ->)].
  - apply issue_none.
  - simpl. by apply issue_rotate.
Qed.

Lemma register_issue_step env body st :
  issue_step cfg env (userSessions st)
    (userSessions (register_handler cfg env body st).1).
Proof.
  unfold register_handler. run_handler; try apply issue_none.
  match goal with
  | |- issue_step _ _ _ (<[_ := newSession _ _ (Jwt.sign ?u _ _ _) _]> _) =>
      apply (issue_create cfg env _ _ u)
  end.
  - apply fresh_lookup.
  - by apply no_clash_create.
Qed.

Lemma login_issue_step env body st :
  issue_step cfg env (userSessions st)
    (userSessions (login_handler cfg env body st).1).
Proof.
  unfold login_handler. run_handler; try apply issue_none.
  all: match goal with
       | |- issue_step _ _ _ (<[_ := newSession _ _ (Jwt.sign ?u _ _ _) _]> _) =>
           apply (issue_create cfg env _ _ u);
             [apply fresh_lookup | by apply no_clash_create]
       end.
Qed.

Lemma step_none env m : session_step cfg env m m.
Proof. apply step_issue, issue_none. Qed.

Lemma logout_session_step env authHeader user st :
  session_step cfg env (userSessions st)
    (userSessions (logout_handler authHeader user st).1).
Proof.
  unfold logout_handler. run_handler; try apply step_none; apply step_deactivate.
Qed.

Lemma logoutAll_session_step env user st :
  session_step cfg env (userSessions st)
    (userSessions (logoutAll_handler user st).1).
Proof. unfold logoutAll_handler. run_handler. apply step_deactivate. Qed.

Lemma changePassword_session_step env authHeader user body st :
  session_step cfg env (userSessions st)
    (userSessions (changePassword_handler cfg env authHeader user body st).1).
Proof.
  unfold changePassword_handler. run_handler; try apply step_none;
    apply step_deactivate.
Qed.

Lemma me_session_step env user st :
  session_step cfg env (userSessions st) (userSessions (me_handler user st).1).
Proof. unfold me_handler. run_handler; apply step_none. Qed.

Lemma asyncHandler_sessions (fn : M response) st :
  userSessions (asyncHandler cfg fn st).1 = userSessions (fn st).1.
Proof. unfold asyncHandler, catch_all. by destruct (fn st) as [? [?|?]]. Qed.

Lemma authenticated_session_step env authHeader now (fn : AuthUser.t → M response) st :
  (∀ user st0, session_step cfg env (userSessions st0) (userSessions (fn user st0).1)) →
  session_step cfg env (userSessions st)
    (userSessions (authenticated cfg authHeader now fn st).1).
Proof.
  intros Hfn. unfold authenticated.
  pose proof (authMiddleware_sessions cfg authHeader now st) as Hauth.
  destruct (authMiddleware cfg authHeader now st) as [st' [[user|]|r]]; simpl in *.
  - rewrite asyncHandler_sessions, <- Hauth. apply Hfn.
  - rewrite Hauth. apply step_none.
  - rewrite Hauth. apply step_none.
Qed.

(** Every request moves the session table by one [session_step]. *)
Lemma handle_session_step env req st :
  session_step cfg env (userSessions st) (userSessions (handle cfg env req st).1).
Proof.
  destruct req; simpl.
  - rewrite asyncHandler_sessions. apply step_issue, register_issue_step.
  - rewrite asyncHandler_sessions. apply step_issue, login_issue_step.
  - rewrite asyncHandler_sessions. apply step_issue, refresh_issue_step.
  - apply authenticated_session_step. intros. apply logout_session_step.
  - apply authenticated_session_step. intros. apply logoutAll_session_step.
  - apply authenticated_session_step. intros. apply changePassword_session_step.
  - apply authenticated_session_step. intros. apply me_session_step.
Qed.

End Effects.

Lemma issue_step_written cfg env m m' id s :
  issue_step cfg env m m' →
  m' !! id = Some s →
  m !! id ≠ Some s →
  UserSession.expiresAt s = (Env.now env + SEVEN_DAYS)%Z.
Proof.
  intros Hstep Hnew Hold. destruct Hstep as [m|m k user Hk Hclash|m k s0 user Hk Hclash].
  - done.
  - destruct (decide (k = id)) as [->|Hne].
    + rewrite lookup_insert_eq in Hnew. by simplify_eq.
    + by rewrite lookup_insert_ne in Hnew.
  - destruct (decide (k = id)) as [->|Hne].
    + rewrite lookup_insert_eq in Hnew. by simplify_eq.
    + by rewrite lookup_insert_ne in Hnew.
Qed.

Example login_from_store0 :
  handle (H := plain_externals) cfg0 (env_at 1000100)
    (POST_login (LoginBody.mk "a@x.com" "Aa1!aaaa")) store0
  = (store_logged_in,
     Response 200 (JSession "Login successful" (User.select 1 alice)
                     alice_login_access alice_login_refresh)).
Proof. vm_compute. reflexivity. Qed.

(** C10. A session row that [register], [login] or [refresh] writes (a
    row present after the request that was not there, as it is, before)
    has [expiresAt] equal to the clock of the request plus 604800000 ms
    (7 days), for every configuration: the refresh-token lifetime of the
    configuration plays no part. *)
Theorem session_expiry_is_seven_days `{Externals} cfg env st id s :
  (∀ body,
      written st (handle cfg env (POST_register body) st).1 id s →
      UserSession.expiresAt s = (Env.now env + 604800000)%Z)
  ∧ (∀ body,
      written st (handle cfg env (POST_login body) st).1 id s →
      UserSession.expiresAt s = (Env.now env + 604800000)%Z)
  ∧ (∀ refreshToken,
      written st (handle cfg env (POST_refresh refreshToken) st).1 id s →
      UserSession.expiresAt s = (Env.now env + 604800000)%Z).
Proof.
  change 604800000%Z with SEVEN_DAYS.
  repeat split; intros x [Hnew Hold]; simpl in Hnew;
    rewrite asyncHandler_sessions in Hnew.
  - eapply issue_step_written; [apply register_issue_step|done..].
  - eapply issue_step_written; [apply login_issue_step|done..].
  - eapply issue_step_written; [apply refresh_issue_step|done..].
Qed.

Lemma session_expiry_is_seven_days_witness :
  UserSession.expiresAt
    (newSession (env_at 1000100) 2 (generateTokens cfg0 carol 1000100).1
       (generateTokens cfg0 carol 1000100).2)
  = (1000100 + 604800000)%Z
  ∧ UserSession.expiresAt
      (newSession (env_at 1000100) 1 alice_login_access alice_login_refresh)
    = (1000100 + 604800000)%Z
  ∧ UserSession.expiresAt
      (UserSession.set_tokens alice_rotated_access alice_rotated_refresh
         (2000000 + SEVEN_DAYS)
         (newSession (env_at 1000100) 1 alice_login_access alice_login_refresh))
    = (2000000 + 604800000)%Z.
Proof.
  split; [|split].
  - apply (proj1 (session_expiry_is_seven_days (H := plain_externals) cfg0
                    (env_at 1000100) store0 0%nat
                    (newSession (env_at 1000100) 2 (generateTokens cfg0 carol 1000100).1
                       (generateTokens cfg0 carol 1000100).2))
             carol_registration).
    split; [vm_compute; reflexivity | vm_compute; discriminate].
  - apply (proj1 (proj2 (session_expiry_is_seven_days (H := plain_externals) cfg0
                           (env_at 1000100) store0 0%nat
                           (newSession (env_at 1000100) 1 alice_login_access
                              alice_login_refresh)))
             (LoginBody.mk "a@x.com" "Aa1!aaaa")).
    split; [vm_compute; reflexivity | vm_compute; discriminate].
  - apply (proj2 (proj2 (session_expiry_is_seven_days (H := plain_externals) cfg0
                           (env_at 2000000) store_logged_in 0%nat
                           (UserSession.set_tokens alice_rotated_access
                              alice_rotated_refresh (2000000 + SEVEN_DAYS)
                              (newSession (env_at 1000100) 1 alice_login_access
                                 alice_login_refresh))))
             (Some alice_login_refresh)).
    split; [vm_compute; reflexivity | vm_compute; intros Heq; discriminate].
Defined.

(** ** Consistency of the session table *)






Lemma minted_generateTokens cfg user now s :
  UserSession.token s = (generateTokens cfg user now).1 →
  UserSession.refreshToken s = Some (generateTokens cfg user now).2 →
  minted cfg s = true.
Proof.
  unfold minted. intros -> ->. simpl.
  by rewrite !bool_decide_eq_true_2.
Qed.

Lemma token_unique_insert (m : gmap nat UserSession.t) k s :
  token_unique m →
  (∀ j s', m !! j = Some s' → j ≠ k → UserSession.token s' ≠ UserSession.token s) →
  token_unique (<[k := s]> m).
Proof.
  intros Hu Hclash i si Hi j sj Hj Heq.
  destruct (decide (i = k)) as [Hik|Hik], (decide (j = k)) as [Hjk|Hjk];
    [congruence|..].
  - subst i. rewrite lookup_insert_eq in Hi. rewrite lookup_insert_ne in Hj by done.
    simplify_eq. by destruct (Hclash j sj Hj).
  - subst j. rewrite lookup_insert_eq in Hj. rewrite lookup_insert_ne in Hi by done.
    simplify_eq. by destruct (Hclash i si Hi).
  - rewrite lookup_insert_ne in Hi, Hj by done. by apply (Hu i si Hi j sj Hj).
Qed.

Lemma session_step_ok cfg env st m' :
  store_ok cfg st →
  session_step cfg env (userSessions st) m' →
  store_ok cfg (mkStore (users st) m').
Proof.
  intros [Hm Hu] Hstep. unfold store_ok in *. simpl.
  destruct Hstep as [m m' Hissue|m where_].
  - destruct Hissue as [m|m k user Hk Hclash|m k s0 user Hk Hclash].
    + done.
    + split.
      * apply map_Forall_insert_2; [|done]. by eapply minted_generateTokens.
      * apply token_unique_insert; [done|]. intros j s' Hj _. by apply (Hclash j).
    + split.
      * apply map_Forall_insert_2; [|done]. by eapply minted_generateTokens.
      * by apply token_unique_insert.
  - split.
    + intros i si Hi. rewrite lookup_fmap in Hi.
      destruct (m !! i) as [s|] eqn:Hs; simplify_eq/=.
      specialize (Hm i s Hs). simpl in Hm. by destruct (where_ s).
    + intros i si Hi j sj Hj Heq. rewrite lookup_fmap in Hi, Hj.
      destruct (m !! i) as [s|] eqn:Hs; simplify_eq/=.
      destruct (m !! j) as [s'|] eqn:Hs'; simplify_eq/=.
      apply (Hu i s Hs j s' Hs').
      by destruct (where_ s), (where_ s').
Qed.

(** [store_ok] holds of the empty database and every request keeps it. *)
Lemma handle_store_ok `{Externals} cfg env req st :
  store_ok cfg st → store_ok cfg (handle cfg env req st).1.
Proof.
  intros Hok.
  pose proof (session_step_ok cfg env st _ Hok (handle_session_step cfg env req st)) as H'.
  destruct H' as [Hm Hu]. by split.
Qed.

Lemma serve_store_ok `{Externals} cfg trace :
  ∀ st, store_ok cfg st → store_ok cfg (serve cfg trace st).
Proof.
  induction trace as [|[env req] trace IH]; intros st Hok; [done|].
  simpl. by apply IH, handle_store_ok.
Qed.

Lemma empty_store_ok cfg us : store_ok cfg (mkStore us ∅).
Proof. split; [apply map_Forall_empty|]. unfold token_unique. apply map_Forall_empty. Qed.

(** ** Rotation *)

Lemma next_error_body env e :
  (∃ err msg code, body (next_error env e) = JErrorResponse err msg code)
  ∨ body (next_error env e) = HtmlErrorPage.
Proof.
  unfold next_error, errorHandler.
  destruct (toAppError env e); simpl; eauto.
Qed.




(** ** Revocation *)

(** No request reactivates a session. *)
Lemma session_step_inactive cfg env m m' id :
  session_step cfg env m m' →
  (∃ s, m !! id = Some s ∧ UserSession.isActive s = false) →
  ∃ s', m' !! id = Some s' ∧ UserSession.isActive s' = false.
Proof.
  intros Hstep (s & Hs & Hoff).
  destruct Hstep as [m m' Hissue|m where_].
  - destruct Hissue as [m|m k user Hk Hclash|m k s0 user Hk Hclash].
    + eauto.
    + exists s. rewrite lookup_insert_ne; [done|]. intros ->. congruence.
    + destruct (decide (k = id)) as [->|Hne].
      * rewrite lookup_insert_eq. simplify_eq. eauto.
      * rewrite lookup_insert_ne by done. eauto.
  - rewrite lookup_fmap, Hs. simpl. destruct (where_ s); eauto.
Qed.

Lemma handle_inactive `{Externals} cfg env req st id :
  inactive id st → inactive id (handle cfg env req st).1.
Proof.
  intros Hoff. unfold inactive in *.
  eapply session_step_inactive; [apply (handle_session_step cfg env req st)|done].
Qed.

Lemma serve_inactive `{Externals} cfg trace id :
  ∀ st, inactive id st → inactive id (serve cfg trace st).
Proof.
  induction trace as [|[env req] trace IH]; intros st Hoff; [done|].
  simpl. by apply IH, handle_inactive.
Qed.

(** The [where] clause and [data] of the logout handler's [updateMany]. *)
Lemma logout_handler_run tok user st :
  truthy tok = true →
  logout_handler (Some (Bearer tok)) user st
  = (set_userSessions
       (fmap (λ s, if bool_decide (UserSession.token s = tok)
                      && bool_decide (UserSession.userId s = AuthUser.id user)
                   then UserSession.set_isActive false s else s)) st,
     inr (Response 200 (JMessage "Logout successful"))).
Proof. intros Htok. unfold logout_handler. simpl. by rewrite Htok. Qed.

Lemma logout_handler_answers authHeader user st :
  (logout_handler authHeader user st).2
  = inr (Response 200 (JMessage "Logout successful")).
Proof. unfold logout_handler. by run_handler. Qed.

Lemma logout_handler_idempotent authHeader user st :
  (logout_handler authHeader user (logout_handler authHeader user st).1).1
  = (logout_handler authHeader user st).1.
Proof.
  unfold logout_handler. run_handler; try done.
  unfold set_userSessions. simpl. f_equal.
  rewrite <- map_fmap_compose. apply map_fmap_ext. intros i s _. simpl.
  destruct (bool_decide (UserSession.token s = _) && _) eqn:Hw; simpl; by rewrite Hw.
Qed.

(** C7. Logout is idempotent. The handler answers 200 "Logout successful"
    on every call, a second call finds nothing left to change, the session
    of the caller's token is inactive after the first call and after the
    second, and it stays inactive through every later sequence of requests.
    Through the route, two logout requests with a token that authenticates
    at both times are both answered 200. *)
Theorem logout_is_idempotent `{Externals} cfg authHeader user st :
  let first := asyncHandler cfg (logout_handler authHeader user) st in
  let second := asyncHandler cfg (logout_handler authHeader user) first.1 in
  first.2 = Response 200 (JMessage "Logout successful")
  ∧ second.2 = Response 200 (JMessage "Logout successful")
  ∧ second.1 = first.1
  ∧ (∀ tok id s,
        authHeader = Some (Bearer tok) →
        userSessions st !! id = Some s →
        UserSession.token s = tok →
        UserSession.userId s = AuthUser.id user →
        truthy tok = true →
        inactive id first.1
        ∧ inactive id second.1
        ∧ ∀ trace, inactive id (serve cfg trace second.1))
  ∧ (∀ tok env1 env2 p1 p2 row,
        authHeader = Some (Bearer tok) →
        Jwt.verify tok (Config.secret cfg) (Env.now env1) = inr p1 →
        Jwt.verify tok (Config.secret cfg) (Env.now env2) = inr p2 →
        users st !! JWTPayload.userId p1 = Some row →
        User.subscriptionStatus row = ACTIVE →
        let st1 := (handle cfg env1 (POST_logout authHeader) st) in
        st1.2 = Response 200 (JMessage "Logout successful")
        ∧ (handle cfg env2 (POST_logout authHeader) st1.1).2
          = Response 200 (JMessage "Logout successful")).
Proof.
  intros first second.
  assert (∀ st0, (asyncHandler cfg (logout_handler authHeader user) st0).2
                 = Response 200 (JMessage "Logout successful")) as Hans.
  { intros st0. pose proof (logout_handler_answers authHeader user st0) as Ha.
    unfold asyncHandler, catch_all.
    destruct (logout_handler authHeader user st0) as [? [?|?]]; by simplify_eq/=. }
  assert (∀ st0, (asyncHandler cfg (logout_handler authHeader user) st0).1
                 = (logout_handler authHeader user st0).1) as Hst.
  { intros st0. unfold asyncHandler, catch_all.
    by destruct (logout_handler authHeader user st0) as [? [?|?]]. }
  assert (second.1 = first.1) as Hidem.
  { unfold second, first. rewrite !Hst. apply logout_handler_idempotent. }
  split; [apply Hans|]. split; [apply Hans|]. split; [done|]. split.
  - intros tok id s -> Hs Htok Hu Htruthy.
    assert (inactive id first.1) as Hoff.
    { unfold first. rewrite Hst, (logout_handler_run _ _ _ Htruthy). simpl.
      unfold inactive. simpl. rewrite lookup_fmap, Hs. simpl.
      rewrite !bool_decide_eq_true_2 by done. simpl. eauto. }
    split; [done|]. rewrite Hidem. split; [done|].
    intros trace. by apply serve_inactive.
  - intros tok env1 env2 p1 p2 row -> Hv1 Hv2 Hrow Hact. simpl.
    unfold authenticated.
    rewrite (authMiddleware_active _ _ _ _ _ _ Hv1 Hrow Hact).
    assert (∀ u st0, (asyncHandler cfg (logout_handler (Some (Bearer tok)) u) st0).2
                     = Response 200 (JMessage "Logout successful")) as Hans'.
    { intros u st0. pose proof (logout_handler_answers (Some (Bearer tok)) u st0) as Ha.
      unfold asyncHandler, catch_all.
      destruct (logout_handler _ u st0) as [? [?|?]]; by simplify_eq/=. }
    split; [apply Hans'|].
    assert (∀ u st0, users (asyncHandler cfg (logout_handler (Some (Bearer tok)) u) st0).1
                     = users st0) as Husers.
    { intros u st0. unfold logout_handler. by run_handler. }
    destruct (verify_ok_signed _ _ _ _ Hv1) as [Ht1 _].
    destruct (verify_ok_signed _ _ _ _ Hv2) as [Ht2 _].
    assert (p2 = p1) as -> by congruence.
    set (st1 := (asyncHandler cfg _ _).1).
    assert (users st1 !! JWTPayload.userId p1
            = Some (User.set_lastLogin (Env.now env1) row)) as Hrow1.
    { unfold st1. rewrite Husers. simpl. by rewrite lookup_insert_eq. }
    rewrite (authMiddleware_active _ _ _ _ _ _ Hv2 Hrow1 Hact).
    apply Hans'.
Qed.


Lemma set_isActive_false_inactive s :
  UserSession.isActive s = false → UserSession.set_isActive false s = s.
Proof. destruct s. simpl. by intros ->. Qed.


(** ** Two refresh calls in flight *)




(** Run without the other call in between, the two steps of a call are the
    refresh handler. *)
Lemma steps_are_the_handler cfg tok now st :
  truthy tok = true →
  (let '(st1, t1) := step_task cfg now (Started tok) st in step_task cfg now t1 st1)
  = let '(st', r) := asyncHandler cfg (refresh_handler cfg (Some tok) now) st in
    (st', Finished r).
Proof.
  intros Htok. unfold step_task, asyncHandler, catch_all, refresh_handler.
  rewrite Htok. unfold try_catch, bind.
  destruct (refresh_find cfg tok now st) as [st1 [e|session]] eqn:Hfind.
  - unfold refresh_catch, throw.
    by destruct (instanceof_JsonWebTokenError e).
  - destruct (refresh_write cfg session now st1) as [st2 [e|r]]; [|done].
    unfold refresh_catch, throw.
    by destruct (instanceof_JsonWebTokenError e).
Qed.





Lemma logout_is_idempotent_witness :
  let authHeader := Some (Bearer alice_login_access) in
  let user := User.select 1 alice in
  let first := asyncHandler cfg0 (logout_handler authHeader user) store_logged_in in
  let second := asyncHandler cfg0 (logout_handler authHeader user) first.1 in
  (inactive 0 first.1
   ∧ inactive 0 second.1
   ∧ ∀ trace, inactive 0 (serve (H := plain_externals) cfg0 trace second.1))
  ∧ (handle (H := plain_externals) cfg0 (env_at 2000000) (POST_logout authHeader)
       store_logged_in).2
    = Response 200 (JMessage "Logout successful").
Proof.
  intros authHeader user first second.
  pose proof (logout_is_idempotent (H := plain_externals) cfg0 authHeader user
                store_logged_in) as Hthm.
  destruct Hthm as (_ & _ & _ & Hoff & Hroute).
  split.
  - apply (Hoff alice_login_access 0%nat
             (newSession (env_at 1000100) 1 alice_login_access alice_login_refresh));
      reflexivity.
  - apply (Hroute alice_login_access (env_at 2000000) (env_at 2000000)
             (JWTPayload.mk (User.select 1 alice) 1000 4600)
             (JWTPayload.mk (User.select 1 alice) 1000 4600)
             (User.set_lastLogin 1000100 alice)); reflexivity.
Defined.



(** * Further properties of the code *)

(** ** Role and plan guards *)

(** X1. Behind [authMiddleware], a role guard decides on the role of the
    live account row: for a valid token of an ACTIVE account the request
    passes exactly when the row's role is in the list, whatever role the
    token claims; otherwise it is answered 403. *)
Theorem role_guard_uses_live_role cfg roles tok now st p row :
  Jwt.verify tok (Config.secret cfg) now = inr p →
  users st !! JWTPayload.userId p = Some row →
  User.subscriptionStatus row = ACTIVE →
  (role_guarded cfg roles (Some (Bearer tok)) now st).2
  = if bool_decide (role_name (User.role row) ∈ roles)
    then Next (Some (User.select (JWTPayload.userId p) row))
    else Send (Response 403 (JError "Forbidden" "Insufficient permissions")).
Proof.
  intros Hv Hrow Hact. unfold role_guarded.
  by rewrite (authMiddleware_active _ _ _ _ _ _ Hv Hrow Hact).
Qed.

Lemma role_guard_uses_live_role_witness :
  (role_guarded cfg0 ["ADMIN"; "SUPER_ADMIN"] (Some (Bearer alice_stale_access))
     2000000 store1).2
  = Send (Response 403 (JError "Forbidden" "Insufficient permissions")).
Proof.
  apply (role_guard_uses_live_role cfg0 ["ADMIN"; "SUPER_ADMIN"] alice_stale_access
           2000000 store1
           (JWTPayload.mk (AuthUser.mk 1 "a@x.com" ADMIN ENTERPRISE ACTIVE) 1000 4600)
           alice); reflexivity.
Defined.

(** X2. Behind [authMiddleware], a plan guard decides on the plan of the
    live account row, and the 403 it answers reports that live plan as
    [currentPlan] together with the required plans. *)
Theorem plan_guard_uses_live_plan cfg plans tok now st p row :
  Jwt.verify tok (Config.secret cfg) now = inr p →
  users st !! JWTPayload.userId p = Some row →
  User.subscriptionStatus row = ACTIVE →
  (plan_guarded cfg plans (Some (Bearer tok)) now st).2
  = if bool_decide (plan_name (User.subscriptionPlan row) ∈ plans)
    then PlanNext (Some (User.select (JWTPayload.userId p) row))
    else PlanSend 403 "Forbidden" "Upgrade your subscription to access this feature"
           (Some plans) (Some (plan_name (User.subscriptionPlan row))).
Proof.
  intros Hv Hrow Hact. unfold plan_guarded.
  by rewrite (authMiddleware_active _ _ _ _ _ _ Hv Hrow Hact).
Qed.

Lemma plan_guard_uses_live_plan_witness :
  (plan_guarded cfg0 ["PREMIUM"; "ENTERPRISE"] (Some (Bearer alice_stale_access))
     2000000 store1).2
  = PlanSend 403 "Forbidden" "Upgrade your subscription to access this feature"
      (Some ["PREMIUM"; "ENTERPRISE"]) (Some "BASIC").
Proof.
  apply (plan_guard_uses_live_plan cfg0 ["PREMIUM"; "ENTERPRISE"] alice_stale_access
           2000000 store1
           (JWTPayload.mk (AuthUser.mk 1 "a@x.com" ADMIN ENTERPRISE ACTIVE) 1000 4600)
           alice); reflexivity.
Defined.

(** X3. The guards are monotone in their list and never pass an anonymous
    request: whoever passes [requireRole roles] passes every guard with a
    larger list, so [requireSuperAdmin] implies [requireAdmin] and
    [requireEnterprise] implies [requirePremium]; with no [req.user] every
    guard answers 401, whatever its list. *)
Theorem guards_are_monotone :
  (∀ roles roles' user,
      roles ⊆ roles' →
      requireRole roles user = Next user → requireRole roles' user = Next user)
  ∧ (∀ plans plans' user,
      plans ⊆ plans' →
      requirePlan plans user = PlanNext user → requirePlan plans' user = PlanNext user)
  ∧ (∀ user, requireSuperAdmin user = Next user → requireAdmin user = Next user)
  ∧ (∀ user, requireEnterprise user = PlanNext user → requirePremium user = PlanNext user)
  ∧ (∀ roles, requireRole roles None
              = Send (Response 401 (JError "Unauthorized" "Authentication required")))
  ∧ (∀ plans, requirePlan plans None
              = PlanSend 401 "Unauthorized" "Authentication required" None None).
Proof.
  assert (∀ roles roles' user,
            roles ⊆ roles' →
            requireRole roles user = Next user → requireRole roles' user = Next user)
    as Hrole.
  { intros roles roles' [u|] Hsub; [|done]. unfold requireRole.
    case_bool_decide as Hin; [|done]. intros _.
    by rewrite bool_decide_eq_true_2 by by apply Hsub. }
  assert (∀ plans plans' user,
            plans ⊆ plans' →
            requirePlan plans user = PlanNext user → requirePlan plans' user = PlanNext user)
    as Hplan.
  { intros plans plans' [u|] Hsub; [|done]. unfold requirePlan.
    case_bool_decide as Hin; [|done]. intros _.
    by rewrite bool_decide_eq_true_2 by by apply Hsub. }
  split; [done|]. split; [done|]. split; [|split; [|done]].
  - intros user. apply Hrole. intros x Hx. rewrite !elem_of_cons in *. tauto.
  - intros user. apply Hplan. intros x Hx. rewrite !elem_of_cons in *. tauto.
Qed.

Lemma guards_are_monotone_witness :
  requireAdmin (Some dave_identity) = Next (Some dave_identity)
  ∧ requirePremium (Some dave_identity) = PlanNext (Some dave_identity).
Proof.
  pose proof guards_are_monotone as (_ & _ & Hadmin & Hpremium & _).
  split.
  - apply (Hadmin (Some dave_identity)). reflexivity.
  - apply (Hpremium (Some dave_identity)). reflexivity.
Defined.

(** ** API keys *)

Lemma first_row_unique_key (apiKeys : gmap nat ApiKey.t) id k :
  key_unique apiKeys →
  apiKeys !! id = Some k →
  prisma.first_row (λ _ k', bool_decide (ApiKey.key k' = ApiKey.key k)) apiKeys
  = Some (id, k).
Proof.
  intros Hu Hk.
  destruct (prisma.first_row _ _) as [[j k']|] eqn:Hf.
  - apply first_row_Some in Hf as [Hj Hp]. apply bool_decide_eq_true in Hp.
    assert (j = id) as -> by by apply (Hu j k' Hj id k Hk). by simplify_eq.
  - pose proof (proj1 (first_row_None _ _) Hf id k Hk) as Hno. simpl in Hno.
    by rewrite bool_decide_eq_true_2 in Hno.
Qed.

(** X4. [apiKeyAuth] lets a request pass exactly when the presented key is
    non-empty, is the key of an active row that has no expiry or an expiry
    not before the clock, and the owner's live row is ACTIVE; the identity
    attached is the owner's live row and the only write is [lastUsed] of
    that key row. *)
Theorem apiKeyAuth_passes_iff apiKey now us (apiKeys apiKeys' : gmap nat ApiKey.t) user :
  key_unique apiKeys →
  apiKeyAuth (Some apiKey) now us apiKeys = (apiKeys', Next user)
  ↔ ∃ id k row,
      apiKey ≠ ""
      ∧ apiKeys !! id = Some k
      ∧ ApiKey.key k = apiKey
      ∧ ApiKey.isActive k = true
      ∧ (∀ e, ApiKey.expiresAt k = Some e → (now ≤ e)%Z)
      ∧ us !! ApiKey.userId k = Some row
      ∧ User.subscriptionStatus row = ACTIVE
      ∧ user = Some (User.select (ApiKey.userId k) row)
      ∧ apiKeys' = <[id := ApiKey.set_lastUsed now k]> apiKeys.
Proof.
  intros Hu. split.
  - unfold apiKeyAuth. destruct apiKey as [|c rest]; [done|].
    destruct (prisma.first_row _ _) as [[id k]|] eqn:Hf; [|done].
    apply first_row_Some in Hf as [Hk Hkey]. apply bool_decide_eq_true in Hkey.
    destruct (ApiKey.isActive k) eqn:Hact; [|done]. simpl.
    destruct (match ApiKey.expiresAt k with Some e => _ | None => false end) eqn:Hexp;
      [done|].
    destruct (us !! ApiKey.userId k) as [row|] eqn:Hrow; [|done]. simpl.
    case_bool_decide as Hs; [done|]. intros Heq. simplify_eq.
    exists id, k, row. repeat split; try done.
    intros e He. rewrite He in Hexp. apply bool_decide_eq_false in Hexp. lia.
  - intros (id & k & row & Hne & Hk & Hkey & Hact & Hexp & Hrow & Hs & -> & ->).
    unfold apiKeyAuth. destruct apiKey as [|c rest]; [done|].
    rewrite <- Hkey, (first_row_unique_key _ _ _ Hu Hk), Hact. simpl.
    replace (match ApiKey.expiresAt k with Some e => _ | None => false end) with false.
    2:{ destruct (ApiKey.expiresAt k) as [e|] eqn:He; [|done].
        symmetry. apply bool_decide_eq_false. specialize (Hexp e eq_refl). lia. }
    rewrite Hrow. simpl.
    by rewrite bool_decide_eq_false_2 by (intros Hn; by apply Hn).
Qed.

(** X5. A failing [apiKeyAuth] writes nothing, and a revoked key is answered
    exactly like a key no row holds (401 "Invalid API key"), whether or not
    it has expired and whatever the state of its owner. *)
Theorem apiKeyAuth_revoked_is_unknown now us (apiKeys : gmap nat ApiKey.t) :
  (∀ apiKey apiKeys' r,
      apiKeyAuth apiKey now us apiKeys = (apiKeys', Send r) → apiKeys' = apiKeys)
  ∧ (∀ id k,
      key_unique apiKeys →
      apiKeys !! id = Some k →
      ApiKey.key k ≠ "" →
      ApiKey.isActive k = false →
      apiKeyAuth (Some (ApiKey.key k)) now us apiKeys
      = (apiKeys, Send (Response 401 (JError "Unauthorized" "Invalid API key"))))
  ∧ (∀ apiKey,
      apiKey ≠ "" →
      (∀ id k, apiKeys !! id = Some k → ApiKey.key k ≠ apiKey) →
      apiKeyAuth (Some apiKey) now us apiKeys
      = (apiKeys, Send (Response 401 (JError "Unauthorized" "Invalid API key")))).
Proof.
  split; [|split].
  - intros apiKey apiKeys' r. unfold apiKeyAuth.
    repeat (case_match; simplify_eq; simpl in * ); by intros ?; simplify_eq.
  - intros id k Hu Hk Hne Hoff. unfold apiKeyAuth.
    destruct (ApiKey.key k) as [|c rest] eqn:Hkey; [done|].
    rewrite <- Hkey, (first_row_unique_key _ _ _ Hu Hk), Hoff. done.
  - intros apiKey Hne Hnone. unfold apiKeyAuth.
    destruct apiKey as [|c rest]; [done|].
    replace (prisma.first_row _ _) with (@None (nat * ApiKey.t)); [done|].
    symmetry. apply first_row_None. intros id k Hk. simpl.
    apply bool_decide_eq_false. by apply Hnone with id.
Qed.

Lemma apiKeyAuth_passes_iff_witness :
  apiKeyAuth (Some "key-alice-0001") 2000000 (users store1) api_keys0
  = (<[0%nat := ApiKey.set_lastUsed 2000000 alice_key]> api_keys0,
     Next (Some (User.select 1 alice))).
Proof.
  apply (apiKeyAuth_passes_iff "key-alice-0001" 2000000 (users store1) api_keys0
           (<[0%nat := ApiKey.set_lastUsed 2000000 alice_key]> api_keys0)
           (Some (User.select 1 alice))).
  { apply (bool_decide_unpack _). vm_compute. exact I. }
  exists 0%nat, alice_key, alice.
  repeat split; try reflexivity; try discriminate.
  intros e He. vm_compute in He. simplify_eq. lia.
Defined.

Lemma apiKeyAuth_revoked_is_unknown_witness :
  apiKeyAuth (Some "key-alice-0000") 2000000 (users store1) api_keys0
  = (api_keys0, Send (Response 401 (JError "Unauthorized" "Invalid API key")))
  ∧ apiKeyAuth (Some "no-such-key") 2000000 (users store1) api_keys0
    = (api_keys0, Send (Response 401 (JError "Unauthorized" "Invalid API key"))).
Proof.
  pose proof (apiKeyAuth_revoked_is_unknown 2000000 (users store1) api_keys0)
    as (_ & Hrevoked & Hunknown).
  split.
  - apply (Hrevoked 1%nat revoked_key);
      [apply (bool_decide_unpack _); vm_compute; exact I
      | reflexivity | discriminate | reflexivity].
  - apply (Hunknown "no-such-key"); [discriminate|].
    intros id k Hk Hkey. unfold api_keys0 in Hk.
    apply lookup_insert_Some in Hk as [[_ <-]|[_ Hk]]; [discriminate|].
    apply lookup_singleton_Some in Hk as [_ <-]. discriminate.
Defined.

(** ** Access tokens are stateless *)

(** X6. [authMiddleware] never reads the session table: on two databases
    with the same users it gives the same outcome and leaves the same
    users, whatever sessions they hold. *)
Theorem authMiddleware_ignores_sessions cfg authHeader now st1 st2 :
  users st1 = users st2 →
  (authMiddleware cfg authHeader now st1).2 = (authMiddleware cfg authHeader now st2).2
  ∧ users (authMiddleware cfg authHeader now st1).1
    = users (authMiddleware cfg authHeader now st2).1
  ∧ userSessions (authMiddleware cfg authHeader now st1).1 = userSessions st1.
Proof.
  intros Husers.
  split; [|split; [|apply authMiddleware_sessions]];
    unfold authMiddleware, catch_all, authMiddleware_try;
    destruct authHeader as [[tok|raw]|]; try done;
    unfold bind, lift, prisma.user.findUnique, prisma.user.update, ret;
    destruct (Jwt.verify tok (Config.secret cfg) now) as [e|p]; try done;
    rewrite Husers;
    destruct (users st2 !! JWTPayload.userId p) as [row|] eqn:Hrow; try done; simpl;
    case_bool_decide; try done; simpl; rewrite ?Husers, ?Hrow; simpl; by rewrite ?Husers.
Qed.

Lemma authMiddleware_ignores_sessions_witness :
  (authMiddleware cfg0 (Some (Bearer alice_login_access)) 2000000 store_logged_in).2
  = (authMiddleware cfg0 (Some (Bearer alice_login_access)) 2000000
       (mkStore (users store_logged_in) ∅)).2.
Proof.
  apply (authMiddleware_ignores_sessions cfg0 (Some (Bearer alice_login_access)) 2000000
           store_logged_in (mkStore (users store_logged_in) ∅)).
  reflexivity.
Defined.

(** The [updateMany] of the logout-all handler. *)
Lemma logoutAll_handler_run cfg user st :
  asyncHandler cfg (logoutAll_handler user) st
  = (set_userSessions
       (fmap (λ s, if bool_decide (UserSession.userId s = AuthUser.id user)
                      && UserSession.isActive s
                   then UserSession.set_isActive false s else s)) st,
     Response 200 (JMessage "Logged out from all devices successfully")).
Proof. reflexivity. Qed.

(** X7. Logout from all devices, with a token that authenticates: every
    session of the account is inactive afterwards and the sessions of other
    accounts are left as they were; a refresh token that only sessions of
    the account store is answered 401 from then on; but the access token
    itself still authenticates until it expires. *)
Theorem logout_all_revokes_refresh_only `{Externals} cfg env tok p row st :
  Jwt.verify tok (Config.secret cfg) (Env.now env) = inr p →
  users st !! JWTPayload.userId p = Some row →
  User.subscriptionStatus row = ACTIVE →
  let out := handle cfg env (POST_logout_all (Some (Bearer tok))) st in
  out.2 = Response 200 (JMessage "Logged out from all devices successfully")
  ∧ (∀ id s,
        userSessions st !! id = Some s →
        UserSession.userId s = JWTPayload.userId p →
        userSessions out.1 !! id = Some (UserSession.set_isActive false s))
  ∧ (∀ id s,
        userSessions st !! id = Some s →
        UserSession.userId s ≠ JWTPayload.userId p →
        userSessions out.1 !! id = Some s)
  ∧ (∀ r now,
        truthy r = true →
        (∀ id s, userSessions st !! id = Some s →
                 UserSession.refreshToken s = Some r →
                 UserSession.userId s = JWTPayload.userId p) →
        asyncHandler cfg (refresh_handler cfg (Some r) now) out.1
        = (out.1, Response 401 (JErrorResponse "Unauthorized" "Invalid refresh token"
                                  (Some "INVALID_REFRESH_TOKEN"))))
  ∧ (∀ now,
        Jwt.verify tok (Config.secret cfg) now = inr p →
        (authMiddleware cfg (Some (Bearer tok)) now out.1).2
        = Next (Some (User.select (JWTPayload.userId p) row))).
Proof.
  intros Hv Hrow Hact out.
  assert (out = asyncHandler cfg
                  (logoutAll_handler (User.select (JWTPayload.userId p) row))
                  (set_users (insert (JWTPayload.userId p)
                                (User.set_lastLogin (Env.now env) row)) st)) as Hout.
  { unfold out. simpl. unfold authenticated.
    by rewrite (authMiddleware_active _ _ _ _ _ _ Hv Hrow Hact). }
  rewrite logoutAll_handler_run in Hout. clearbody out. subst out. cbn [fst snd].
  assert (∀ id s,
            userSessions st !! id = Some s →
            UserSession.userId s = JWTPayload.userId p →
            ((λ s0, if bool_decide (UserSession.userId s0 = JWTPayload.userId p)
                       && UserSession.isActive s0
                    then UserSession.set_isActive false s0 else s0)
               <$> userSessions st) !! id
            = Some (UserSession.set_isActive false s)) as Hmine.
  { intros id s Hs Hu. rewrite lookup_fmap, Hs. simpl.
    rewrite bool_decide_eq_true_2 by done. simpl.
    destruct (UserSession.isActive s) eqn:Ha; [done|].
    by rewrite set_isActive_false_inactive. }
  split; [done|]. split; [done|]. split; [|split].
  - intros id s Hs Hu. simpl. rewrite lookup_fmap, Hs. simpl.
    by rewrite bool_decide_eq_false_2.
  - intros r now Hr Honly. unfold asyncHandler, catch_all.
    rewrite refresh_handler_rejects; [done|done|].
    intros j s' Hj. simpl in Hj. unfold refreshable.
    rewrite lookup_fmap in Hj.
    destruct (userSessions st !! j) as [s0|] eqn:Hs0; simplify_eq/=.
    destruct (decide (UserSession.refreshToken s0 = Some r)) as [Hr0|Hr0].
    + pose proof (Hmine j s0 Hs0 (Honly j s0 Hs0 Hr0)) as Hoff.
      rewrite lookup_fmap, Hs0 in Hoff. simpl in Hoff. simplify_eq.
      rewrite Hoff. simpl. by rewrite andb_false_r.
    + rewrite bool_decide_eq_false_2; [done|]. by destruct (_ && _).
  - intros now Hv'.
    rewrite (authMiddleware_active cfg _ tok now p
               (User.set_lastLogin (Env.now env) row) Hv'); [done| |done].
    simpl. by rewrite lookup_insert_eq.
Qed.

Lemma logout_all_revokes_refresh_only_witness :
  let out := handle (H := plain_externals) cfg0 (env_at 3000000)
               (POST_logout_all (Some (Bearer alice_rotated_access))) store_two_logins in
  out.2 = Response 200 (JMessage "Logged out from all devices successfully")
  ∧ inactive 0 out.1
  ∧ inactive 1 out.1
  ∧ (authMiddleware cfg0 (Some (Bearer alice_rotated_access)) 4000000 out.1).2
    = Next (Some (User.select 1 alice)).
Proof.
  intros out.
  pose proof (logout_all_revokes_refresh_only (H := plain_externals) cfg0 (env_at 3000000)
                alice_rotated_access (JWTPayload.mk (User.select 1 alice) 2000 5600)
                (User.set_lastLogin 2000000 alice) store_two_logins
                eq_refl eq_refl eq_refl) as (Hans & Hmine & _ & _ & Hauth).
  split; [exact Hans|]. split; [|split].
  - eexists. split; [apply (Hmine 0%nat); reflexivity | reflexivity].
  - eexists. split; [apply (Hmine 1%nat); reflexivity | reflexivity].
  - apply (Hauth 4000000%Z). reflexivity.
Defined.

(** X8. With distinct signing secrets the two kinds of token do not stand in
    for each other: [authMiddleware] answers 401 to every refresh token
    [generateTokens] mints, and the refresh handler answers 401 to every
    access token it mints, whatever the clock and the database. *)
Theorem token_kinds_are_separate cfg user issued now st :
  Config.secret cfg ≠ Config.refreshSecret cfg →
  authMiddleware cfg (Some (Bearer (generateTokens cfg user issued).2)) now st
  = (st, Send (Response 401 (JError "Unauthorized" "Invalid access token")))
  ∧ asyncHandler cfg (refresh_handler cfg (Some (generateTokens cfg user issued).1) now) st
    = (st, Response 401 (JErrorResponse "Unauthorized" "Invalid refresh token"
                           (Some "INVALID_REFRESH_TOKEN"))).
Proof.
  intros Hne. split.
  - eapply authMiddleware_bad_token. simpl.
    rewrite bool_decide_eq_false_2; [done|]. congruence.
  - unfold asyncHandler, catch_all.
    erewrite refresh_handler_bad_token; [done|done|]. simpl.
    by rewrite bool_decide_eq_false_2.
Qed.

Lemma token_kinds_are_separate_witness :
  authMiddleware cfg0 (Some (Bearer alice_login_refresh)) 2000000 store_logged_in
  = (store_logged_in, Send (Response 401 (JError "Unauthorized" "Invalid access token")))
  ∧ asyncHandler cfg0 (refresh_handler cfg0 (Some alice_login_access) 2000000)
      store_logged_in
    = (store_logged_in,
       Response 401 (JErrorResponse "Unauthorized" "Invalid refresh token"
                       (Some "INVALID_REFRESH_TOKEN"))).
Proof.
  apply (token_kinds_are_separate cfg0 (User.select 1 alice) 1000100 2000000
           store_logged_in).
  discriminate.
Defined.

(** ** Login *)

Section Login.
Context `{Externals} (cfg : Config.t).

(** The successful path of the login handler. *)
Lemma login_handler_ok env body body' id row st :
  loginValidation body = (body', true) →
  prisma.first_row (λ _ u, bool_decide (User.email u = LoginBody.email body')) (users st)
  = Some (id, row) →
  bcrypt_compare (LoginBody.password body') (User.passwordHash row) = true →
  User.subscriptionStatus row = ACTIVE →
  (∀ j s, userSessions st !! j = Some s →
          UserSession.token s ≠ (generateTokens cfg (User.select id row) (Env.now env)).1) →
  asyncHandler cfg (login_handler cfg env body) st
  = (mkStore (<[id := User.set_lastLogin (Env.now env) row]> (users st))
       (<[fresh (dom (userSessions st)) :=
            newSession env id (generateTokens cfg (User.select id row) (Env.now env)).1
              (generateTokens cfg (User.select id row) (Env.now env)).2]>
          (userSessions st)),
     Response 200 (JSession "Login successful" (User.select id row)
                     (generateTokens cfg (User.select id row) (Env.now env)).1
                     (generateTokens cfg (User.select id row) (Env.now env)).2)).
Proof.
  intros Hval Hfind Hpw Hact Hclash.
  pose proof (first_row_Some _ _ _ _ Hfind) as [Hrow _].
  unfold asyncHandler, catch_all, login_handler. rewrite Hval. simpl.
  unfold bind, prisma.user.findUnique_email. rewrite Hfind. simpl.
  rewrite Hpw. simpl.
  rewrite bool_decide_eq_false_2 by (intros Hn; by apply Hn).
  unfold prisma.userSession.create. simpl.
  rewrite bool_decide_eq_false_2.
  2:{ intros (j & s & Hj & Heq). by apply (Hclash j s Hj). }
  unfold prisma.user.update. simpl. by rewrite Hrow.
Qed.

(** What a 200 from the login handler tells. *)
Lemma login_handler_inv env body st st' b :
  asyncHandler cfg (login_handler cfg env body) st = (st', Response 200 b) →
  ∃ body' id row,
    loginValidation body = (body', true)
    ∧ prisma.first_row (λ _ u, bool_decide (User.email u = LoginBody.email body'))
        (users st) = Some (id, row)
    ∧ bcrypt_compare (LoginBody.password body') (User.passwordHash row) = true
    ∧ User.subscriptionStatus row = ACTIVE
    ∧ (∀ j s, userSessions st !! j = Some s →
              UserSession.token s
              ≠ (generateTokens cfg (User.select id row) (Env.now env)).1).
Proof.
  unfold login_handler. run_handler; intros Heq; simplify_eq.
  all: try match goal with
           | Hb : Response _ _ = next_error _ _ |- _ => by vm_compute in Hb
           | Hb : next_error _ _ = Response _ _ |- _ => by vm_compute in Hb
           end.
  all: repeat match goal with
              | Hn : negb _ = false |- _ => apply negb_false_iff in Hn
              | Ha : bool_decide (_ ≠ ACTIVE) = false |- _ =>
                  apply bool_decide_eq_false, dec_stable in Ha
              end; subst.
  all: eexists _, _, _; repeat split; eauto.
  all: by apply no_clash_create.
Qed.

End Login.



Section LoginProperties.
Context `{Externals} (cfg : Config.t).

(** X9. The access token a successful login returns authenticates the
    account that logged in, with the identity the login answered, at every
    clock second below its [iat] plus the configured lifetime, and is
    answered 401 from that second on. *)
Theorem login_access_token_authenticates env body st st' msg user a r :
  asyncHandler cfg (login_handler cfg env body) st
  = (st', Response 200 (JSession msg user a r)) →
  (∀ now, (now / 1000 < Env.now env / 1000 + Config.expiresIn cfg)%Z →
          (authMiddleware cfg (Some (Bearer a)) now st').2 = Next (Some user))
  ∧ (∀ now, (Env.now env / 1000 + Config.expiresIn cfg ≤ now / 1000)%Z →
            (authMiddleware cfg (Some (Bearer a)) now st').2
            = Send (Response 401 (JError "Unauthorized" "Invalid access token"))).
Proof.
  intros Hrun.
  destruct (login_handler_inv _ _ _ _ _ _ Hrun)
    as (body' & id & row & Hval & Hfind & Hpw & Hact & Hclash).
  rewrite (login_handler_ok _ _ _ _ _ _ _ Hval Hfind Hpw Hact Hclash) in Hrun.
  simplify_eq. split.
  - intros now Hnow.
    rewrite (authMiddleware_active cfg _ _ now
               (JWTPayload.mk (User.select id row) (Env.now env / 1000)
                  (Env.now env / 1000 + Config.expiresIn cfg))
               (User.set_lastLogin (Env.now env) row)); [done| | |done].
    + simpl. rewrite bool_decide_eq_true_2 by done.
      by rewrite bool_decide_eq_false_2 by lia.
    + simpl. by rewrite lookup_insert_eq.
  - intros now Hnow.
    erewrite authMiddleware_bad_token; [done|]. simpl.
    rewrite bool_decide_eq_true_2 by done.
    by rewrite bool_decide_eq_true_2 by lia.
Qed.


(** X11. Login answers an unknown email and a wrong password alike, 401
    "Invalid email or password" with code INVALID_CREDENTIALS, and writes
    nothing; the password is checked before the account's status, so a wrong
    password for a suspended account gets that same answer. *)
Theorem login_does_not_tell_which_is_wrong env body body' st :
  loginValidation body = (body', true) →
  (∀ id row,
      prisma.first_row (λ _ u, bool_decide (User.email u = LoginBody.email body'))
        (users st) = Some (id, row) →
      bcrypt_compare (LoginBody.password body') (User.passwordHash row) = false) →
  asyncHandler cfg (login_handler cfg env body) st
  = (st, Response 401 (JErrorResponse "Unauthorized" "Invalid email or password"
                         (Some "INVALID_CREDENTIALS"))).
Proof.
  intros Hval Hbad. unfold asyncHandler, catch_all, login_handler.
  rewrite Hval. simpl. unfold bind, prisma.user.findUnique_email.
  destruct (prisma.first_row _ _) as [[id row]|] eqn:Hfind; [|done].
  simpl. by rewrite (Hbad id row eq_refl).
Qed.

(** X12. A second login of the same account within the clock second of a
    successful one mints the access token the first session already holds:
    the unique index on [token] refuses the new row, the request is
    answered 409 DUPLICATE_ENTRY and nothing is written. *)
Theorem second_login_in_the_same_second env env2 body st st' b :
  email_unique (users st) →
  asyncHandler cfg (login_handler cfg env body) st = (st', Response 200 b) →
  (Env.now env2 / 1000 = Env.now env / 1000)%Z →
  asyncHandler cfg (login_handler cfg env2 body) st'
  = (st', Response 409 (JErrorResponse "Conflict" "A record with this token already exists"
                          (Some "DUPLICATE_ENTRY"))).
Proof.
  intros Huniq Hrun Hsec.
  destruct (login_handler_inv _ _ _ _ _ _ Hrun)
    as (body' & id & row & Hval & Hfind & Hpw & Hact & Hclash).
  rewrite (login_handler_ok _ _ _ _ _ _ _ Hval Hfind Hpw Hact Hclash) in Hrun.
  simplify_eq.
  pose proof (first_row_Some _ _ _ _ Hfind) as [Hrow Hmail].
  apply bool_decide_eq_true in Hmail.
  set (st' := mkStore _ _).
  assert (prisma.first_row
            (λ _ u, bool_decide (User.email u = LoginBody.email body')) (users st')
          = Some (id, User.set_lastLogin (Env.now env) row)) as Hfind'.
  { destruct (prisma.first_row _ (users st')) as [[j u]|] eqn:Hf.
    - apply first_row_Some in Hf as [Hj Hp]. apply bool_decide_eq_true in Hp.
      simpl in Hj. destruct (decide (j = id)) as [->|Hne].
      + rewrite lookup_insert_eq in Hj. by simplify_eq.
      + rewrite lookup_insert_ne in Hj by done.
        destruct Hne. apply (Huniq j u Hj id row Hrow). congruence.
    - pose proof (proj1 (first_row_None _ _) Hf id
                    (User.set_lastLogin (Env.now env) row)) as Hno.
      simpl in Hno. rewrite lookup_insert_eq in Hno.
      specialize (Hno eq_refl). by rewrite bool_decide_eq_true_2 in Hno. }
  unfold asyncHandler, catch_all, login_handler. rewrite Hval. simpl.
  unfold bind, prisma.user.findUnique_email. rewrite Hfind'. simpl.
  rewrite Hpw. simpl.
  rewrite bool_decide_eq_false_2 by (intros Hn; by apply Hn).
  unfold prisma.userSession.create. simpl.
  rewrite bool_decide_eq_true_2; [done|].
  exists (fresh (dom (userSessions st))). eexists. split.
  - by rewrite lookup_insert_eq.
  - simpl. unfold Jwt.sign. by rewrite Hsec.
Qed.

End LoginProperties.

Lemma login_access_token_authenticates_witness :
  (∀ now, (now / 1000 < 1000100 / 1000 + 3600)%Z →
          (authMiddleware cfg0 (Some (Bearer alice_login_access)) now store_logged_in).2
          = Next (Some (User.select 1 alice)))
  ∧ (∀ now, (1000100 / 1000 + 3600 ≤ now / 1000)%Z →
            (authMiddleware cfg0 (Some (Bearer alice_login_access)) now store_logged_in).2
            = Send (Response 401 (JError "Unauthorized" "Invalid access token"))).
Proof.
  apply (login_access_token_authenticates (H := plain_externals) cfg0 (env_at 1000100)
           (LoginBody.mk "a@x.com" "Aa1!aaaa") store0 store_logged_in
           "Login successful" (User.select 1 alice) alice_login_access
           alice_login_refresh).
  vm_compute. reflexivity.
Defined.


Lemma login_does_not_tell_which_is_wrong_witness :
  asyncHandler cfg0
    (login_handler (H := plain_externals) cfg0 (env_at 1000100)
       (LoginBody.mk "a@x.com" "wrong")) store0
  = (store0, Response 401 (JErrorResponse "Unauthorized" "Invalid email or password"
                             (Some "INVALID_CREDENTIALS")))
  ∧ asyncHandler cfg0
      (login_handler (H := plain_externals) cfg0 (env_at 1000100)
         (LoginBody.mk "nobody@x.com" "Aa1!aaaa")) store0
    = (store0, Response 401 (JErrorResponse "Unauthorized" "Invalid email or password"
                               (Some "INVALID_CREDENTIALS"))).
Proof.
  split.
  - apply (login_does_not_tell_which_is_wrong (H := plain_externals) cfg0
             (env_at 1000100) (LoginBody.mk "a@x.com" "wrong")
             (LoginBody.mk "a@x.com" "wrong") store0); [reflexivity|].
    intros id row Hfind. vm_compute in Hfind. simplify_eq. reflexivity.
  - apply (login_does_not_tell_which_is_wrong (H := plain_externals) cfg0
             (env_at 1000100) (LoginBody.mk "nobody@x.com" "Aa1!aaaa")
             (LoginBody.mk "nobody@x.com" "Aa1!aaaa") store0); [reflexivity|].
    intros id row Hfind. vm_compute in Hfind. discriminate.
Defined.

Lemma second_login_in_the_same_second_witness :
  asyncHandler cfg0
    (login_handler (H := plain_externals) cfg0 (env_at 1000900)
       (LoginBody.mk "a@x.com" "Aa1!aaaa")) store_logged_in
  = (store_logged_in,
     Response 409 (JErrorResponse "Conflict" "A record with this token already exists"
                     (Some "DUPLICATE_ENTRY"))).
Proof.
  apply (second_login_in_the_same_second (H := plain_externals) cfg0 (env_at 1000100)
           (env_at 1000900) (LoginBody.mk "a@x.com" "Aa1!aaaa") store0 store_logged_in
           (JSession "Login successful" (User.select 1 alice) alice_login_access
              alice_login_refresh)).
  - apply (bool_decide_unpack _). vm_compute. exact I.
  - vm_compute. reflexivity.
  - reflexivity.
Defined.

(** ** What the router does to accounts and sessions *)

Lemma same_account_refl u : same_account u u.
Proof. by repeat split. Qed.

Lemma same_account_trans u1 u2 u3 :
  same_account u1 u2 → same_account u2 u3 → same_account u1 u3.
Proof. unfold same_account. intros (?&?&?&?&?) (?&?&?&?&?). repeat split; congruence. Qed.

Lemma users_evolve_refl m : users_evolve m m.
Proof.
  split; [|split; [|done]].
  - intros id u Hu. exists u. split; [done|apply same_account_refl].
  - intros id u Hu Hno. congruence.
Qed.

Lemma users_evolve_trans m1 m2 m3 :
  users_evolve m1 m2 → users_evolve m2 m3 → users_evolve m1 m3.
Proof.
  intros (Hk1 & Hn1 & Hu1) (Hk2 & Hn2 & Hu2). split; [|split; [|auto]].
  - intros id u Hu. destruct (Hk1 id u Hu) as (u' & Hu' & Hs1).
    destruct (Hk2 id u' Hu') as (u'' & Hu'' & Hs2).
    exists u''. split; [done|]. by eapply same_account_trans.
  - intros id u3 Hu3 Hno.
    destruct (m2 !! id) as [u2|] eqn:Hu2'.
    + destruct (Hk2 id u2 Hu2') as (u3' & Hu3' & (_ & Hr & Hp & Hs & _)).
      destruct (Hn1 id u2 Hu2' Hno) as (? & ? & ?). simplify_eq.
      repeat split; congruence.
    + by apply (Hn2 id).
Qed.

Lemma users_evolve_touch (m : gmap nat User.t) id u u' :
  m !! id = Some u → same_account u u' → users_evolve m (<[id := u']> m).
Proof.
  intros Hu Hsame. split; [|split].
  - intros j v Hv. destruct (decide (id = j)) as [->|Hne].
    + rewrite lookup_insert_eq. simplify_eq. eauto.
    + rewrite lookup_insert_ne by done. exists v. split; [done|apply same_account_refl].
  - intros j v Hv Hno. destruct (decide (id = j)) as [->|Hne]; [congruence|].
    rewrite lookup_insert_ne in Hv by done. congruence.
  - intros Huniq i ui Hi j uj Hj Heq.
    destruct Hsame as (Hmail & _).
    destruct (decide (i = id)) as [Hik|Hik], (decide (j = id)) as [Hjk|Hjk];
      [congruence|..].
    + subst i. rewrite lookup_insert_eq in Hi. rewrite lookup_insert_ne in Hj by done.
      simplify_eq. apply (Huniq id u Hu j uj Hj). congruence.
    + subst j. rewrite lookup_insert_eq in Hj. rewrite lookup_insert_ne in Hi by done.
      simplify_eq. apply (Huniq i ui Hi id u Hu). congruence.
    + rewrite lookup_insert_ne in Hi, Hj by done. by apply (Huniq i ui Hi j uj Hj).
Qed.

Lemma users_evolve_create (m : gmap nat User.t) id u :
  m !! id = None →
  (∀ j u', m !! j = Some u' → User.email u' ≠ User.email u) →
  User.role u = USER → User.subscriptionPlan u = BASIC →
  User.subscriptionStatus u = ACTIVE →
  users_evolve m (<[id := u]> m).
Proof.
  intros Hno Hmail Hr Hp Hs. split; [|split].
  - intros j v Hv. exists v. split; [|apply same_account_refl].
    rewrite lookup_insert_ne; [done|]. congruence.
  - intros j v Hv Hno'. destruct (decide (id = j)) as [->|Hne].
    + rewrite lookup_insert_eq in Hv. by simplify_eq.
    + rewrite lookup_insert_ne in Hv by done. congruence.
  - intros Huniq i ui Hi j uj Hj Heq.
    destruct (decide (i = id)) as [Hik|Hik], (decide (j = id)) as [Hjk|Hjk];
      [congruence|..].
    + subst i. rewrite lookup_insert_eq in Hi. rewrite lookup_insert_ne in Hj by done.
      simplify_eq. by destruct (Hmail j uj Hj).
    + subst j. rewrite lookup_insert_eq in Hj. rewrite lookup_insert_ne in Hi by done.
      simplify_eq. by destruct (Hmail i ui Hi).
    + rewrite lookup_insert_ne in Hi, Hj by done. by apply (Huniq i ui Hi j uj Hj).
Qed.

(** The table operations and the combinators keep accounts. *)
Lemma keeps_ret {A} (a : A) : keeps_accounts (ret a).
Proof. intros st. apply users_evolve_refl. Qed.

Lemma keeps_throw {A} e : keeps_accounts (@throw A e).
Proof. intros st. apply users_evolve_refl. Qed.

Lemma keeps_lift {A} (r : js_error + A) : keeps_accounts (lift r).
Proof. intros st. apply users_evolve_refl. Qed.

Lemma keeps_bind {A B} (c : M A) (k : A → M B) :
  keeps_accounts c → (∀ a, keeps_accounts (k a)) → keeps_accounts (bind c k).
Proof.
  intros Hc Hk st. unfold bind. specialize (Hc st).
  destruct (c st) as [st1 [e|a]]; [done|].
  eapply users_evolve_trans; [exact Hc|]. apply Hk.
Qed.

Lemma keeps_try_catch {A} (c : M A) (h : js_error → M A) :
  keeps_accounts c → (∀ e, keeps_accounts (h e)) → keeps_accounts (try_catch c h).
Proof.
  intros Hc Hh st. unfold try_catch. specialize (Hc st).
  destruct (c st) as [st1 [e|a]]; [|done].
  eapply users_evolve_trans; [exact Hc|]. apply Hh.
Qed.

Lemma keeps_user_findUnique id : keeps_accounts (prisma.user.findUnique id).
Proof. intros st. apply users_evolve_refl. Qed.

Lemma keeps_user_findUnique_email email :
  keeps_accounts (prisma.user.findUnique_email email).
Proof. intros st. apply users_evolve_refl. Qed.

Lemma keeps_user_update id (data : User.t → User.t) :
  (∀ u, same_account u (data u)) → keeps_accounts (prisma.user.update id data).
Proof.
  intros Hdata st. unfold prisma.user.update.
  destruct (users st !! id) as [u|] eqn:Hu; [|apply users_evolve_refl].
  simpl. by apply users_evolve_touch with u.
Qed.

Lemma keeps_user_create data :
  User.role data = USER → User.subscriptionPlan data = BASIC →
  User.subscriptionStatus data = ACTIVE →
  keeps_accounts (prisma.user.create data).
Proof.
  intros Hr Hp Hs st. unfold prisma.user.create.
  case_bool_decide as Hex; [apply users_evolve_refl|]. simpl.
  apply users_evolve_create; try done; [apply fresh_lookup|].
  intros j u' Hj Heq. apply Hex. by exists j, u'.
Qed.

Lemma keeps_session_create data : keeps_accounts (prisma.userSession.create data).
Proof.
  intros st. unfold prisma.userSession.create.
  case_bool_decide; apply users_evolve_refl.
Qed.

Lemma keeps_session_findFirst where_ : keeps_accounts (prisma.userSession.findFirst where_).
Proof. intros st. apply users_evolve_refl. Qed.

Lemma keeps_session_update id a r e : keeps_accounts (prisma.userSession.update id a r e).
Proof.
  intros st. unfold prisma.userSession.update.
  destruct (userSessions st !! id); [|apply users_evolve_refl].
  case_bool_decide; apply users_evolve_refl.
Qed.

Lemma keeps_session_updateMany where_ :
  keeps_accounts (prisma.userSession.updateMany_deactivate where_).
Proof. intros st. apply users_evolve_refl. Qed.

(** Walks a handler, one table operation at a time. *)
Ltac keeps_accounts_step :=
  first
    [ apply keeps_ret | apply keeps_throw | apply keeps_lift
    | apply keeps_user_findUnique | apply keeps_user_findUnique_email
    | apply keeps_session_create | apply keeps_session_findFirst
    | apply keeps_session_update | apply keeps_session_updateMany
    | apply keeps_user_create; reflexivity
    | apply keeps_user_update; intros ?; by repeat split
    | apply keeps_bind; [|intros ?]
    | apply keeps_try_catch; [|intros ?]
    | progress unfold refresh_catch
    | case_match ].

Section Accounts.
Context `{Externals} (cfg : Config.t).

Lemma register_keeps_accounts env body : keeps_accounts (register_handler cfg env body).
Proof. unfold register_handler. repeat keeps_accounts_step. Qed.

Lemma login_keeps_accounts env body : keeps_accounts (login_handler cfg env body).
Proof. unfold login_handler. repeat keeps_accounts_step. Qed.

Lemma refresh_keeps_accounts tok now : keeps_accounts (refresh_handler cfg tok now).
Proof.
  unfold refresh_handler, refresh_find, refresh_write. repeat keeps_accounts_step.
Qed.

Lemma logout_keeps_accounts h user : keeps_accounts (logout_handler h user).
Proof. unfold logout_handler. repeat keeps_accounts_step. Qed.

Lemma logoutAll_keeps_accounts user : keeps_accounts (logoutAll_handler user).
Proof. unfold logoutAll_handler. repeat keeps_accounts_step. Qed.

Lemma changePassword_keeps_accounts env h user body :
  keeps_accounts (changePassword_handler cfg env h user body).
Proof. unfold changePassword_handler. repeat keeps_accounts_step. Qed.

Lemma me_keeps_accounts user : keeps_accounts (me_handler user).
Proof. unfold me_handler. repeat keeps_accounts_step. Qed.

Lemma authMiddleware_keeps_accounts h now st :
  users_evolve (users st) (users (authMiddleware cfg h now st).1).
Proof.
  destruct (authMiddleware_cases cfg h now st)
    as [(r & -> & _)|(tok & p & row & _ & _ & Hrow & _ & ->)];
    [apply users_evolve_refl|].
  simpl. apply users_evolve_touch with row; [done|]. by repeat split.
Qed.

Lemma asyncHandler_users (fn : M response) st :
  users (asyncHandler cfg fn st).1 = users (fn st).1.
Proof. unfold asyncHandler, catch_all. by destruct (fn st) as [? [?|?]]. Qed.

Lemma authenticated_keeps_accounts h now (fn : AuthUser.t → M response) st :
  (∀ user, keeps_accounts (fn user)) →
  users_evolve (users st) (users (authenticated cfg h now fn st).1).
Proof.
  intros Hfn. unfold authenticated.
  pose proof (authMiddleware_keeps_accounts h now st) as Hauth.
  destruct (authMiddleware cfg h now st) as [st' [[user|]|r]]; simpl in *; [| |done].
  - rewrite asyncHandler_users. eapply users_evolve_trans; [exact Hauth|apply Hfn].
  - done.
Qed.

Lemma handle_keeps_accounts env req st :
  users_evolve (users st) (users (handle cfg env req st).1).
Proof.
  destruct req; simpl.
  - rewrite asyncHandler_users. apply register_keeps_accounts.
  - rewrite asyncHandler_users. apply login_keeps_accounts.
  - rewrite asyncHandler_users. apply refresh_keeps_accounts.
  - apply authenticated_keeps_accounts. intros. apply logout_keeps_accounts.
  - apply authenticated_keeps_accounts. intros. apply logoutAll_keeps_accounts.
  - apply authenticated_keeps_accounts. intros. apply changePassword_keeps_accounts.
  - apply authenticated_keeps_accounts. intros. apply me_keeps_accounts.
Qed.

Lemma serve_keeps_accounts trace :
  ∀ st, users_evolve (users st) (users (serve cfg trace st)).
Proof.
  induction trace as [|[env req] trace IH]; intros st; [apply users_evolve_refl|].
  simpl. eapply users_evolve_trans; [apply handle_keeps_accounts|apply IH].
Qed.

End Accounts.

(** X13. No sequence of requests to the auth router deletes an account or
    changes its email, role, plan or status, and an account that appears
    during it is a plain one: role USER, plan BASIC, status ACTIVE,
    whatever the request bodies say. *)
Theorem router_never_changes_authorisation `{Externals} cfg trace st :
  (∀ id u,
      users st !! id = Some u →
      ∃ u', users (serve cfg trace st) !! id = Some u'
            ∧ User.email u' = User.email u
            ∧ User.role u' = User.role u
            ∧ User.subscriptionPlan u' = User.subscriptionPlan u
            ∧ User.subscriptionStatus u' = User.subscriptionStatus u)
  ∧ (∀ id u',
      users (serve cfg trace st) !! id = Some u' →
      users st !! id = None →
      User.role u' = USER ∧ User.subscriptionPlan u' = BASIC
      ∧ User.subscriptionStatus u' = ACTIVE).
Proof.
  destruct (serve_keeps_accounts cfg trace st) as (Hkeep & Hnew & _).
  split; [|done].
  intros id u Hu. destruct (Hkeep id u Hu) as (u' & Hu' & (? & ? & ? & ? & _)).
  by exists u'.
Qed.

Lemma router_never_changes_authorisation_witness :
  let trace := [(env_at 1000100, POST_register carol_registration);
                (env_at 1000100, POST_login (LoginBody.mk "a@x.com" "Aa1!aaaa"))] in
  (∃ u', users (serve (H := plain_externals) cfg0 trace store0) !! 1 = Some u'
         ∧ User.email u' = "a@x.com" ∧ User.role u' = USER
         ∧ User.subscriptionPlan u' = BASIC ∧ User.subscriptionStatus u' = ACTIVE)
  ∧ (∀ u', users (serve (H := plain_externals) cfg0 trace store0) !! 2 = Some u' →
           User.role u' = USER ∧ User.subscriptionPlan u' = BASIC
           ∧ User.subscriptionStatus u' = ACTIVE).
Proof.
  intros trace.
  pose proof (router_never_changes_authorisation (H := plain_externals) cfg0 trace store0)
    as [Hkeep Hnew].
  split.
  - apply (Hkeep 1 alice). reflexivity.
  - intros u' Hu'. apply (Hnew 2 u' Hu'). reflexivity.
Defined.

(** X14. The router keeps [email] unique: if no two accounts share an
    email before a sequence of requests, none do after it. *)
Theorem router_keeps_email_unique `{Externals} cfg trace st :
  email_unique (users st) → email_unique (users (serve cfg trace st)).
Proof.
  destruct (serve_keeps_accounts cfg trace st) as (_ & _ & Huniq). exact Huniq.
Qed.

Lemma router_keeps_email_unique_witness :
  email_unique
    (users (serve (H := plain_externals) cfg0
              [(env_at 1000100, POST_register carol_registration);
               (env_at 2000000, POST_register carol_registration)] store0)).
Proof.
  apply (router_keeps_email_unique (H := plain_externals) cfg0 _ store0).
  apply (bool_decide_unpack _). vm_compute. exact I.
Defined.

(** A request keeps every session row and the columns that say whose it is
    and where it came from. *)
Lemma session_step_keeps_rows cfg env (m m' : gmap nat UserSession.t) id s :
  session_step cfg env m m' →
  m !! id = Some s →
  ∃ s', m' !! id = Some s'
        ∧ UserSession.userId s' = UserSession.userId s
        ∧ UserSession.createdAt s' = UserSession.createdAt s
        ∧ UserSession.ipAddress s' = UserSession.ipAddress s
        ∧ UserSession.userAgent s' = UserSession.userAgent s.
Proof.
  intros Hstep Hs.
  destruct Hstep as [m m' Hissue|m where_].
  - destruct Hissue as [m|m k user Hk Hclash|m k s0 user Hk Hclash].
    + eauto 10.
    + exists s. rewrite lookup_insert_ne; [done|]. congruence.
    + destruct (decide (k = id)) as [Heq|Hne].
      * subst k. rewrite lookup_insert_eq. simplify_eq. eauto 10.
      * rewrite lookup_insert_ne by done. eauto 10.
  - rewrite lookup_fmap, Hs. simpl. destruct (where_ s); eauto 10.
Qed.

(** X15. No sequence of requests deletes a session row or changes its
    owner, creation time or device columns; and a refresh call, whatever it
    answers, leaves the set of session rows as it was: rotation rewrites a
    row, it never adds one. *)
Theorem sessions_are_kept `{Externals} cfg :
  (∀ trace st id s,
      userSessions st !! id = Some s →
      ∃ s', userSessions (serve cfg trace st) !! id = Some s'
            ∧ UserSession.userId s' = UserSession.userId s
            ∧ UserSession.createdAt s' = UserSession.createdAt s
            ∧ UserSession.ipAddress s' = UserSession.ipAddress s
            ∧ UserSession.userAgent s' = UserSession.userAgent s)
  ∧ (∀ env refreshToken st,
      dom (userSessions (handle cfg env (POST_refresh refreshToken) st).1)
      = dom (userSessions st)).
Proof.
  split.
  - induction trace as [|[env req] trace IH]; intros st id s Hs; [eauto 10|].
    simpl.
    destruct (session_step_keeps_rows cfg env _ _ id s
                (handle_session_step cfg env req st) Hs)
      as (s1 & Hs1 & Hu1 & Hc1 & Hi1 & Ha1).
    destruct (IH _ id s1 Hs1) as (s' & Hs' & Hu & Hc & Hi & Ha).
    exists s'. repeat split; congruence.
  - intros env refreshToken st. simpl. rewrite asyncHandler_sessions.
    destruct (refresh_handler_cases cfg refreshToken (Env.now env) st)
      as [[e ->]|(tok & p & id & s & row & _ & _ & Hs & _ & _ & _ & _ & ->)]; [done|].
    simpl. rewrite dom_insert_L.
    apply subseteq_union_1_L, singleton_subseteq_l, elem_of_dom. eauto.
Qed.

Lemma sessions_are_kept_witness :
  ∃ s', userSessions
          (serve (H := plain_externals) cfg0
             [(env_at 2000000, POST_refresh (Some alice_login_refresh));
              (env_at 3000000, POST_logout_all (Some (Bearer alice_rotated_access)))]
             store_logged_in) !! 0%nat = Some s'
        ∧ UserSession.userId s' = 1
        ∧ UserSession.createdAt s' = 1000100%Z
        ∧ UserSession.ipAddress s' = None
        ∧ UserSession.userAgent s' = None.
Proof.
  apply (proj1 (sessions_are_kept (H := plain_externals) cfg0) _ store_logged_in 0%nat
           (newSession (env_at 1000100) 1 alice_login_access alice_login_refresh)).
  reflexivity.
Defined.

(** ** The rate limiter over a whole window *)

(** Once the ceiling is reached, requests inside the window are refused
    and change nothing. *)
Lemma rate_limited_refused (maxRequests windowMs : Z) u (times : list Z) :
  ∀ (m : gmap nat Limit.t) l,
    m !! AuthUser.id u = Some l →
    (Limit.count l >= maxRequests)%Z →
    Forall (λ t, t ≤ Limit.resetTime l)%Z times →
    rate_limited maxRequests windowMs (Some u) times m
    = (m, (λ t, tooManyRequests (ceil_seconds (Limit.resetTime l - t))) <$> times).
Proof.
  induction times as [|t times IH]; intros m l Hm Hc Hts; [done|].
  apply Forall_cons in Hts as [Ht Hts]. cbn [rate_limited].
  rewrite (userRateLimit_trips _ _ _ _ _ _ Hm Ht Hc).
  by rewrite (IH m l Hm Hc Hts).
Qed.

(** X16. The life of one window, for an integer ceiling of at least 1 and
    an integer window, with clock readings that are not negative and every
    sum within [Number.MAX_SAFE_INTEGER] (where the code's doubles are
    exact): the request that opens the window and the next
    [maxRequests - 1] requests inside it pass; every further request inside
    it is answered 429 with the seconds left, rounded up to a whole number,
    and leaves the entry as it is (the count does not grow and the window
    is not extended); the first request after [resetTime] passes again and
    starts a new window at count 1. *)
Theorem rate_limit_window_life (maxRequests windowMs : Z) u (m : gmap nat Limit.t)
    (t1 : Z) (passing refused : list Z) (later : Z) :
  (1 ≤ maxRequests ≤ MAX_SAFE_INTEGER)%Z →
  (0 ≤ windowMs)%Z →
  Forall (λ t, 0 ≤ t)%Z (t1 :: passing ++ refused)%list →
  (later + windowMs ≤ MAX_SAFE_INTEGER)%Z →
  (∀ l, m !! AuthUser.id u = Some l → (t1 > Limit.resetTime l)%Z) →
  Z.of_nat (length passing) = (maxRequests - 1)%Z →
  Forall (λ t, t ≤ t1 + windowMs)%Z (passing ++ refused)%list →
  (later > t1 + windowMs)%Z →
  ∃ m' retries,
    rate_limited maxRequests windowMs (Some u) (t1 :: passing ++ refused)%list m
    = (m', (replicate (S (length passing)) (Next (Some u))
            ++ (tooManyRequests <$> retries))%list)
    ∧ Forall2 (λ t retryAfter,
                 1000 * (retryAfter - 1) < t1 + windowMs - t ≤ 1000 * retryAfter)%Z
        refused retries
    ∧ m' !! AuthUser.id u = Some (Limit.mk maxRequests (t1 + windowMs))
    ∧ userRateLimit maxRequests windowMs (Some u) later m'
      = (<[AuthUser.id u := Limit.mk 1 (later + windowMs)]> m', Next (Some u)).
Proof.
  intros Hmax Hwin Hclock Hsafe Hstart Hlen Hts Hlater.
  apply Forall_app in Hts as [Hpass Href].
  cbn [rate_limited].
  rewrite (userRateLimit_opens_window _ _ _ _ _ Hstart).
  destruct (rate_limited_within_window maxRequests windowMs u passing
              (<[AuthUser.id u := Limit.mk 1 (t1 + windowMs)]> m) 1 (t1 + windowMs)%Z)
    as (m' & Hrun & Hm'); [by rewrite lookup_insert_eq | done | lia |].
  replace (1 + Z.of_nat (length passing))%Z with maxRequests in Hm' by lia.
  rewrite rate_limited_app, Hrun.
  rewrite (rate_limited_refused _ _ _ _ _ _ Hm'); [|simpl; lia|done].
  exists m', ((λ t, ceil_seconds (t1 + windowMs - t)) <$> refused).
  split; [by rewrite <- list_fmap_compose|]. split.
  { clear. induction refused as [|t refused IH]; simpl; constructor; [|done].
    apply ceil_seconds_least. }
  split; [done|].
  apply userRateLimit_opens_window. intros l Hl. simplify_eq. simpl. lia.
Qed.

(** A ceiling of 2 in a window of 1 second: the third request, 20 ms in, is
    told to retry after 1 second, and one at the very end of the window
    after 0. *)
Lemma rate_limit_window_life_witness :
  ∃ m',
    rate_limited 2 1000 (Some (User.select 1 alice)) [0; 10; 20; 1000]%Z ∅
    = (m', [Next (Some (User.select 1 alice)); Next (Some (User.select 1 alice));
            tooManyRequests 1; tooManyRequests 0])
    ∧ m' !! 1 = Some (Limit.mk 2 (0 + 1000))
    ∧ userRateLimit 2 1000 (Some (User.select 1 alice)) 1001 m'
      = (<[1 := Limit.mk 1 (1001 + 1000)]> m', Next (Some (User.select 1 alice))).
Proof.
  destruct (rate_limit_window_life 2 1000 (User.select 1 alice) ∅ 0 [10] [20; 1000] 1001)%Z
    as (m' & retries & Hrun & Hretries & Hm' & Hlater).
  - unfold MAX_SAFE_INTEGER. lia.
  - lia.
  - repeat (apply Forall_cons; split; [lia|]). apply Forall_nil_2.
  - unfold MAX_SAFE_INTEGER. lia.
  - intros l Hl. vm_compute in Hl. discriminate.
  - reflexivity.
  - repeat (apply Forall_cons; split; [lia|]). apply Forall_nil_2.
  - lia.
  - exists m'. split; [|by split].
    cbn [app] in Hrun. rewrite Hrun. f_equal. simpl.
    apply Forall2_cons_inv_l in Hretries as (r1 & rest & Hr1 & Hrest & ->).
    apply Forall2_cons_inv_l in Hrest as (r2 & rest' & Hr2 & Hnil & ->).
    apply Forall2_nil_inv_l in Hnil as ->.
    simpl. repeat f_equal; lia.
Defined.

(** X17. The limiter counts each identity on its own: whatever requests of
    other identities and anonymous requests went through it, a request of
    [u] gets the answer it would have got without them; anonymous requests
    always pass and leave the map as it is. *)
Theorem rate_limit_is_per_identity (maxRequests windowMs : Z) u (now : Z)
    (others : list (option AuthUser.t * Z)) (m : gmap nat Limit.t) :
  Forall (λ r, ∀ u', r.1 = Some u' → AuthUser.id u' ≠ AuthUser.id u) others →
  (userRateLimit maxRequests windowMs (Some u) now
     (rate_limited_by maxRequests windowMs others m)).2
  = (userRateLimit maxRequests windowMs (Some u) now m).2
  ∧ userRateLimit maxRequests windowMs None now m = (m, Next None).
Proof.
  intros Hothers. split; [|done].
  assert (rate_limited_by maxRequests windowMs others m !! AuthUser.id u
          = m !! AuthUser.id u) as Hsame.
  { revert m. induction others as [|[user t] others IH]; intros m; [done|].
    apply Forall_cons in Hothers as [Hr Hothers]. simpl.
    rewrite (IH Hothers). destruct user as [u'|]; [|done].
    apply userRateLimit_other_identity. intros Heq. by apply (Hr u' eq_refl). }
  unfold userRateLimit. rewrite Hsame.
  destruct (m !! AuthUser.id u) as [l|]; [|done].
  by repeat case_bool_decide.
Qed.

Lemma rate_limit_is_per_identity_witness :
  (userRateLimit 1 1000 (Some (User.select 1 alice)) 30
     (rate_limited_by 1 1000
        [(Some dave_identity, 10%Z); (None, 15%Z); (Some dave_identity, 20%Z)] ∅)).2
  = (userRateLimit 1 1000 (Some (User.select 1 alice)) 30 ∅).2
  ∧ userRateLimit 1 1000 None 30 ∅ = (∅, Next None).
Proof.
  apply (rate_limit_is_per_identity 1 1000 (User.select 1 alice) 30).
  repeat (apply Forall_cons; split; [intros u' Hu'; simpl in Hu'; by simplify_eq|]).
  apply Forall_nil_2.
Defined.

(** ** errorHandler *)

(** Splits on the characters of a string a [match] inspects. *)
Ltac split_on_string :=
  repeat (match goal with
          | |- context [match ?x with _ => _ end] => is_var x; destruct x
          end; try reflexivity).

Lemma handlePrismaError_classified code target :
  well_classified (handlePrismaError code target) = true.
Proof. unfold handlePrismaError. clear. split_on_string. Qed.

Lemma handleStripeError_classified e : well_classified (handleStripeError e) = true.
Proof.
  unfold handleStripeError.
  generalize (error_message e).
  generalize (match e with OtherError p => ErrorProps.type p | _ => "" end).
  clear. intros type message. split_on_string.
Qed.

Lemma handleJWTError_classified e : well_classified (handleJWTError e) = true.
Proof. unfold handleJWTError. repeat case_bool_decide; reflexivity. Qed.

Lemma forallb_existsb_negb (values : list bool) :
  forallb (λ readable : bool, readable) values = negb (existsb negb values).
Proof. induction values as [|[] values IH]; simpl; [done|done|done]. Qed.

(** [handleMongoError] either throws a [TypeError], exactly on an error
    that lacks the member it enumerates, or classifies. *)
Lemma handleMongoError_cases p :
  let missing :=
    if bool_decide (ErrorProps.code p = Some 11000%Z)
    then bool_decide (ErrorProps.keyPattern p = None)
    else bool_decide (ErrorProps.name p = "ValidationError")
         && match ErrorProps.errors p with
            | None => true
            | Some values => existsb negb values
            end in
  if missing
  then ∃ message, handleMongoError (OtherError p) = inl (TypeError message)
  else ∃ a, handleMongoError (OtherError p) = inr a ∧ well_classified a = true.
Proof.
  unfold handleMongoError. simpl.
  destruct (bool_decide (ErrorProps.code p = Some 11000%Z)).
  { destruct (ErrorProps.keyPattern p) as [keys|]; simpl; eauto. }
  destruct (bool_decide (ErrorProps.name p = "ValidationError")); simpl.
  { destruct (ErrorProps.errors p) as [values|]; simpl; [|eauto].
    rewrite forallb_existsb_negb.
    destruct (existsb negb values); simpl; eauto. }
  destruct (bool_decide (ErrorProps.name p = "CastError")); eauto.
Qed.

(** The conversion at the head of [errorHandler], for an error that is not
    an [AppError]. *)
Lemma toAppError_cases env e :
  (∀ a, e ≠ App a) →
  if lacks_member e
  then ∃ message, toAppError env e = inl (TypeError message)
  else ∃ a, toAppError env e = inr a ∧ well_classified a = true.
Proof.
  intros Hnot.
  destruct e as [a|code target| |m|m|p]; [by destruct (Hnot a)|..].
  - eexists. split; [reflexivity|]. apply handlePrismaError_classified.
  - eexists. split; reflexivity.
  - eexists. split; [reflexivity|]. apply handleJWTError_classified.
  - eexists. split; [reflexivity|]. apply handleJWTError_classified.
  - pose proof (handleMongoError_cases p) as Hmongo.
    unfold lacks_member, toAppError. cbn [error_name error_constructor_name].
    destruct (bool_decide (ErrorProps.name p = "MongoError")
              || bool_decide (ErrorProps.name p = "ValidationError")
              || bool_decide (ErrorProps.name p = "CastError")); [exact Hmongo|].
    cbn [andb].
    destruct (bool_decide (ErrorProps.name p = "JsonWebTokenError")
              || bool_decide (ErrorProps.name p = "TokenExpiredError")).
    { eexists. split; [reflexivity|]. apply handleJWTError_classified. }
    destruct (String.prefix "Stripe" (ErrorProps.constructorName p)).
    { eexists. split; [reflexivity|]. apply handleStripeError_classified. }
    eexists. split; reflexivity.
Qed.

(** X18. An [AppError] passes through [errorHandler] with its own status,
    message and code. Of the other errors, [errorHandler] itself throws a
    [TypeError], and answers nothing, on exactly those that it takes for a
    database error and that lack the member it enumerates ([keyPattern] under
    code 11000, [errors] or a readable value of it under the name
    ValidationError); Express then answers 500 with its own page. On every
    other error it answers with a status among 400, 401, 404, 409, 429 and
    500, the standard name of that status and a machine-readable code, the
    conversion being marked non-operational exactly when the status is 500.
    For an error no test recognises the answer is 500 INTERNAL_ERROR, with
    "Something went wrong" in production and the error's own message
    elsewhere. *)
Theorem errorHandler_classifies env e :
  (∀ a, e = App a →
        errorHandler env e
        = inr (Response (AppError.statusCode a)
                 (JErrorResponse (getErrorName (AppError.statusCode a))
                    (AppError.message a) (AppError.code a))))
  ∧ ((∀ a, e ≠ App a) →
     (lacks_member e = true →
      (∃ message, errorHandler env e = inl (TypeError message))
      ∧ next_error env e = Response 500 HtmlErrorPage)
     ∧ (lacks_member e = false →
        ∃ a r,
          toAppError env e = inr a
          ∧ errorHandler env e = inr r
          ∧ next_error env e = r
          ∧ status r ∈ [400; 401; 404; 409; 429; 500]%Z
          ∧ (AppError.isOperational a = false ↔ status r = 500%Z)
          ∧ ∃ message code,
              body r = JErrorResponse (getErrorName (status r)) message (Some code)
              ∧ getErrorName (status r) ≠ "Error"))
  ∧ (unclassified e →
     errorHandler env e
     = inr (Response 500
              (JErrorResponse "Internal Server Error"
                 (if bool_decide (env = production) then "Something went wrong"
                  else error_message e)
                 (Some "INTERNAL_ERROR")))).
Proof.
  split; [by intros a ->|]. split.
  - intros Hnot. pose proof (toAppError_cases env e Hnot) as Hcases. split.
    + intros Hlacks. rewrite Hlacks in Hcases. destruct Hcases as [message Hthrown].
      unfold next_error, errorHandler. rewrite Hthrown. split; [by exists message|done].
    + intros Hlacks. rewrite Hlacks in Hcases. destruct Hcases as (a & Ha & Hok).
      unfold next_error, errorHandler. rewrite Ha.
      exists a. eexists. split; [done|]. split; [done|]. split; [done|].
      unfold well_classified in Hok.
      apply andb_prop in Hok as [Hok Hcode]. apply andb_prop in Hok as [Hst Hop].
      simpl.
      destruct (AppError.code a) as [code|] eqn:Hc; [|done].
      apply existsb_exists in Hst as (x & Hin & Hx). apply Z.eqb_eq in Hx.
      apply list_elem_of_In in Hin. rewrite Hx.
      apply Bool.eqb_prop in Hop. rewrite Hx in Hop.
      split; [done|]. split.
      * rewrite <- Z.eqb_eq, <- Hop. by destruct (AppError.isOperational _).
      * exists (AppError.message a), code. split; [done|].
        rewrite !elem_of_cons in Hin.
        destruct Hin as [->|[->|[->|[->|[->|[->|Hin]]]]]]; try done.
        by apply elem_of_nil in Hin.
  - intros (props & -> & Hname & Hctor).
    unfold errorHandler, toAppError. simpl.
    rewrite !not_elem_of_cons in Hname.
    destruct Hname as (? & ? & ? & ? & ? & _).
    rewrite !bool_decide_eq_false_2 by done. simpl.
    by rewrite Hctor.
Qed.

(** A unique-index violation is answered 409; a stray [TypeError] is
    answered 500 INTERNAL_ERROR; on a mongoose [ValidationError] that has no
    [errors] member the handler throws. *)
Lemma errorHandler_classifies_witness :
  (∃ a r,
     toAppError production (prisma.P2002 "token") = inr a
     ∧ errorHandler production (prisma.P2002 "token") = inr r
     ∧ next_error production (prisma.P2002 "token") = r
     ∧ status r ∈ [400; 401; 404; 409; 429; 500]%Z
     ∧ (AppError.isOperational a = false ↔ status r = 500%Z)
     ∧ ∃ message code,
         body r = JErrorResponse (getErrorName (status r)) message (Some code)
         ∧ getErrorName (status r) ≠ "Error")
  ∧ errorHandler production (TypeError "Cannot read properties of null")
    = inr (Response 500 (JErrorResponse "Internal Server Error" "Something went wrong"
                           (Some "INTERNAL_ERROR")))
  ∧ (∃ message, errorHandler production validation_error_without_errors
                = inl (TypeError message))
  ∧ next_error production validation_error_without_errors = Response 500 HtmlErrorPage.
Proof.
  split; [|split].
  - apply (proj1 (proj2 (errorHandler_classifies production (prisma.P2002 "token")))).
    + intros a Ha. discriminate.
    + reflexivity.
  - apply (proj2 (proj2 (errorHandler_classifies production
                           (TypeError "Cannot read properties of null")))).
    eexists. split; [reflexivity|]. split; [|reflexivity]. simpl.
    rewrite !not_elem_of_cons. repeat split; try discriminate. apply not_elem_of_nil.
  - apply (proj1 (proj2 (errorHandler_classifies production
                           validation_error_without_errors))).
    + intros a Ha. discriminate.
    + reflexivity.
Defined.

(** ** Status codes of the router *)








Section Status.
Context `{Externals} (cfg : Config.t).















End Status.



(** ** Passwords and registration *)

Lemma first_row_the_only {A} (p : nat → A → bool) (m : gmap nat A) id x :
  m !! id = Some x → p id x = true →
  (∀ j y, m !! j = Some y → p j y = true → j = id) →
  prisma.first_row p m = Some (id, x).
Proof.
  intros Hx Hp Honly.
  destruct (prisma.first_row p m) as [[j y]|] eqn:Hf.
  - apply first_row_Some in Hf as [Hj Hpj].
    assert (j = id) as -> by by apply (Honly j y). by simplify_eq.
  - pose proof (proj1 (first_row_None _ _) Hf id x Hx). congruence.
Qed.

Section Passwords.
Context `{Externals} (cfg : Config.t).

(** X20. A change-password request whose token authenticates and whose body
    passes validation, but whose current password does not match the stored
    hash, is answered 400 INVALID_CURRENT_PASSWORD; the only thing written is
    the [lastLogin] stamp of [authMiddleware]: the password hash and every
    session stay as they were. *)
Theorem change_password_needs_current_password env tok p row body body' st :
  Jwt.verify tok (Config.secret cfg) (Env.now env) = inr p →
  users st !! JWTPayload.userId p = Some row →
  User.subscriptionStatus row = ACTIVE →
  changePasswordValidation body = (body', true) →
  bcrypt_compare (ChangePasswordBody.currentPassword body') (User.passwordHash row) = false →
  handle cfg env (POST_change_password (Some (Bearer tok)) body) st
  = (set_users (insert (JWTPayload.userId p) (User.set_lastLogin (Env.now env) row)) st,
     Response 400 (JErrorResponse "Bad Request" "Current password is incorrect"
                     (Some "INVALID_CURRENT_PASSWORD"))).
Proof.
  intros Hv Hu Hact Hval Hpw. simpl. unfold authenticated.
  rewrite (authMiddleware_active cfg st tok _ p row Hv Hu Hact).
  unfold asyncHandler, catch_all, changePassword_handler. simpl. rewrite Hval. simpl.
  unfold bind, prisma.user.findUnique. simpl. rewrite lookup_insert_eq. simpl.
  by rewrite Hpw.
Qed.

(** X21. A change-password request whose token authenticates, whose body
    passes validation and whose current password matches is answered 200;
    the account's row then holds the bcrypt hash of the new password and is
    otherwise the row [authMiddleware] stamped; and, emails being unique,
    every later login for that email with a password that the new hash does
    not match is answered 401 INVALID_CREDENTIALS and writes nothing. *)
Theorem change_password_takes_effect env tok p row body body' st :
  Jwt.verify tok (Config.secret cfg) (Env.now env) = inr p →
  users st !! JWTPayload.userId p = Some row →
  User.subscriptionStatus row = ACTIVE →
  changePasswordValidation body = (body', true) →
  bcrypt_compare (ChangePasswordBody.currentPassword body') (User.passwordHash row) = true →
  email_unique (users st) →
  let out := handle cfg env (POST_change_password (Some (Bearer tok)) body) st in
  let newHash := bcrypt_hash (ChangePasswordBody.newPassword body')
                   (Config.bcryptRounds cfg) (Env.salt env) in
  out.2 = Response 200 (JMessage "Password changed successfully")
  ∧ users out.1
    = <[JWTPayload.userId p :=
          User.set_passwordHash newHash (User.set_lastLogin (Env.now env) row)]> (users st)
  ∧ ∀ env2 login login',
      loginValidation login = (login', true) →
      LoginBody.email login' = User.email row →
      bcrypt_compare (LoginBody.password login') newHash = false →
      handle cfg env2 (POST_login login) out.1
      = (out.1, Response 401 (JErrorResponse "Unauthorized" "Invalid email or password"
                                (Some "INVALID_CREDENTIALS"))).
Proof.
  intros Hv Hu Hact Hval Hpw Huniq out newHash.
  assert (out = (mkStore
                   (<[JWTPayload.userId p :=
                        User.set_passwordHash newHash
                          (User.set_lastLogin (Env.now env) row)]> (users st))
                   ((λ s, if bool_decide (UserSession.userId s = JWTPayload.userId p)
                             && UserSession.isActive s
                             && bool_decide (UserSession.token s ≠ tok)
                          then UserSession.set_isActive false s else s)
                      <$> userSessions st),
                 Response 200 (JMessage "Password changed successfully"))) as Hout.
  { subst out. simpl. unfold authenticated.
    rewrite (authMiddleware_active cfg st tok _ p row Hv Hu Hact).
    unfold asyncHandler, catch_all, changePassword_handler. simpl. rewrite Hval. simpl.
    unfold bind, prisma.user.findUnique. simpl. rewrite lookup_insert_eq. simpl.
    rewrite Hpw. simpl. unfold prisma.user.update. simpl. rewrite lookup_insert_eq.
    simpl. destruct st as [us ss]. unfold set_userSessions, set_users. simpl.
    by rewrite insert_insert_eq. }
  clearbody out. subst out. cbn [fst snd users].
  split; [done|]. split; [done|].
  intros env2 login login' Hlv Hmail Hbad.
  cbn [handle]. unfold asyncHandler, catch_all, login_handler. rewrite Hlv. simpl.
  unfold bind, prisma.user.findUnique_email. simpl.
  rewrite (first_row_the_only _ _ (JWTPayload.userId p)
             (User.set_passwordHash newHash (User.set_lastLogin (Env.now env) row))).
  - simpl. by rewrite Hbad.
  - by rewrite lookup_insert_eq.
  - apply bool_decide_eq_true. by rewrite Hmail; destruct row.
  - intros j y Hj Hy. apply bool_decide_eq_true in Hy.
    destruct (decide (j = JWTPayload.userId p)) as [|Hne]; [done|].
    rewrite lookup_insert_ne in Hj by done.
    apply (Huniq j y Hj _ row Hu). congruence.
Qed.

(** X22. For a registration whose body passes validation: it is answered
    409 USER_EXISTS exactly when some account already has the (sanitised)
    email, and in that case nothing is written. *)
Theorem register_refuses_known_email env body body' st :
  registerValidation body = (body', true) →
  let known := ∃ id u, users st !! id = Some u ∧ User.email u = RegisterBody.email body' in
  let refusal := Response 409 (JErrorResponse "Conflict" "User with this email already exists"
                                 (Some "USER_EXISTS")) in
  (known ↔ (handle cfg env (POST_register body) st).2 = refusal)
  ∧ (known → (handle cfg env (POST_register body) st).1 = st).
Proof.
  intros Hval known refusal. subst known refusal. cbn [handle].
  unfold asyncHandler, catch_all, register_handler. rewrite Hval. simpl.
  unfold bind, prisma.user.findUnique_email. simpl.
  destruct (prisma.first_row _ _) as [[j u]|] eqn:Hf; simpl.
  - apply first_row_Some in Hf as [Hj Hp]. apply bool_decide_eq_true in Hp.
    split; [|done]. split; [done|]. intros _. by exists j, u.
  - assert (¬ ∃ id u, users st !! id = Some u ∧ User.email u = RegisterBody.email body')
      as Hno.
    { intros (id & u & Hu & Hm).
      pose proof (proj1 (first_row_None _ _) Hf id u Hu) as Hx. simpl in Hx.
      by rewrite bool_decide_eq_true_2 in Hx. }
    split; [|by intros ?]. split; [by intros ?|]. intros Hr. exfalso.
    revert Hr. run_handler; intros Hr; simplify_eq.
    all: by vm_compute in Hr.
Qed.

(** What a successful registration did. *)
Lemma register_handler_inv env body st st' b :
  asyncHandler cfg (register_handler cfg env body) st = (st', Response 201 b) →
  ∃ body',
    registerValidation body = (body', true)
    ∧ (∀ j u, users st !! j = Some u → User.email u ≠ RegisterBody.email body')
    ∧ let id := fresh (dom (users st)) in
      let row := User.mk (RegisterBody.email body')
                   (bcrypt_hash (RegisterBody.password body') (Config.bcryptRounds cfg)
                      (Env.salt env))
                   (RegisterBody.firstName body') (RegisterBody.lastName body')
                   (RegisterBody.companyName body') (RegisterBody.industry body')
                   USER BASIC ACTIVE None (Env.now env) in
      let tokens := generateTokens cfg (User.select id row) (Env.now env) in
      st' = mkStore (<[id := row]> (users st))
              (<[fresh (dom (userSessions st)) := newSession env id tokens.1 tokens.2]>
                 (userSessions st))
      ∧ b = JSession "User registered successfully" (User.select id row) tokens.1 tokens.2.
Proof.
  unfold register_handler. run_handler; intros Heq; simplify_eq.
  all: try match goal with
           | Hb : Response _ _ = next_error _ _ |- _ => by vm_compute in Hb
           | Hb : next_error _ _ = Response _ _ |- _ => by vm_compute in Hb
           end.
  match goal with
  | Hn : negb _ = false |- _ => apply negb_false_iff in Hn; subst
  end.
  eexists. split; [done|]. split; [|done].
  intros j u Hj Hm.
  match goal with
  | Hf : prisma.first_row _ _ = None |- _ =>
      pose proof (proj1 (first_row_None _ _) Hf j u Hj) as Hx
  end.
  simpl in Hx. by rewrite bool_decide_eq_true_2 in Hx.
Qed.

(** X23. Register, then log in. After a registration that was answered 201,
    a login whose validated email and password are those the registration
    stored succeeds with the identity the registration returned, provided
    bcrypt accepts the password against the hash it made of it and no stored
    session already carries the access token the login signs (as one signed
    in the same second would). *)
Theorem register_then_login env env2 body login login' st st' msg user a r :
  handle cfg env (POST_register body) st = (st', Response 201 (JSession msg user a r)) →
  loginValidation login = (login', true) →
  LoginBody.email login' = RegisterBody.email (registerValidation body).1 →
  LoginBody.password login' = RegisterBody.password (registerValidation body).1 →
  bcrypt_compare (RegisterBody.password (registerValidation body).1)
    (bcrypt_hash (RegisterBody.password (registerValidation body).1)
       (Config.bcryptRounds cfg) (Env.salt env)) = true →
  (∀ j s, userSessions st' !! j = Some s →
          UserSession.token s ≠ (generateTokens cfg user (Env.now env2)).1) →
  (handle cfg env2 (POST_login login) st').2
  = Response 200 (JSession "Login successful" user
                    (generateTokens cfg user (Env.now env2)).1
                    (generateTokens cfg user (Env.now env2)).2).
Proof.
  intros Hreg Hlv Hmail Hpass Hbcrypt Hclash. cbn [handle] in *.
  destruct (register_handler_inv _ _ _ _ _ Hreg)
    as (body' & Hval & Hnew & Hst & Hb).
  rewrite Hval in Hmail, Hpass, Hbcrypt. simpl in Hmail, Hpass, Hbcrypt.
  simplify_eq.
  set (id := fresh (dom (users st))) in *.
  set (row := User.mk _ _ _ _ _ _ _ _ _ _ _) in *.
  assert (prisma.first_row (λ _ u, bool_decide (User.email u = LoginBody.email login'))
            (users (mkStore (<[id := row]> (users st))
                      (<[fresh (dom (userSessions st)) :=
                           newSession env id
                             (generateTokens cfg (User.select id row) (Env.now env)).1
                             (generateTokens cfg (User.select id row) (Env.now env)).2]>
                         (userSessions st))))
          = Some (id, row)) as Hfind.
  { apply first_row_the_only.
    - simpl. by rewrite lookup_insert_eq.
    - by apply bool_decide_eq_true.
    - intros j y Hj Hy. apply bool_decide_eq_true in Hy. simpl in Hj.
      destruct (decide (j = id)) as [|Hne]; [done|].
      rewrite lookup_insert_ne in Hj by done.
      destruct (Hnew j y Hj). congruence. }
  assert (bcrypt_compare (LoginBody.password login') (User.passwordHash row) = true)
    as Hpw by (rewrite Hpass; apply Hbcrypt).
  by rewrite (login_handler_ok cfg env2 login login' id row _ Hlv Hfind Hpw eq_refl Hclash).
Qed.
End Passwords.

Lemma change_password_needs_current_password_witness :
  handle (H := plain_externals) cfg0 (env_at 3000000)
    (POST_change_password (Some (Bearer alice_rotated_access))
       (ChangePasswordBody.mk "Zz9!zzzz" "Bb2?bbbb"))
    store_two_logins
  = (set_users
       (insert (JWTPayload.userId (JWTPayload.mk (User.select 1 alice) 2000 5600))
          (User.set_lastLogin (Env.now (env_at 3000000))
             (User.set_lastLogin 2000000 alice)))
       store_two_logins,
     Response 400 (JErrorResponse "Bad Request" "Current password is incorrect"
                     (Some "INVALID_CURRENT_PASSWORD"))).
Proof.
  apply (change_password_needs_current_password (H := plain_externals) cfg0
           (env_at 3000000) alice_rotated_access
           (JWTPayload.mk (User.select 1 alice) 2000 5600)
           (User.set_lastLogin 2000000 alice)
           (ChangePasswordBody.mk "Zz9!zzzz" "Bb2?bbbb")
           (ChangePasswordBody.mk "Zz9!zzzz" "Bb2?bbbb") store_two_logins).
  all: vm_compute; reflexivity.
Defined.

Lemma change_password_takes_effect_witness :
  (handle (H := plain_externals) cfg0 (env_at 3000000) change_password_request
     store_two_logins).2
  = Response 200 (JMessage "Password changed successfully")
  ∧ users store_password_changed
    = <[JWTPayload.userId (JWTPayload.mk (User.select 1 alice) 2000 5600) :=
          User.set_passwordHash "saltBb2?bbbb"
            (User.set_lastLogin 3000000 (User.set_lastLogin 2000000 alice))]>
        (users store_two_logins)
  ∧ ∀ env2 login login',
      (login, true) = (login', true) →
      LoginBody.email login' = "a@x.com" →
      bcrypt_compare (Externals := plain_externals) (LoginBody.password login')
        "saltBb2?bbbb" = false →
      handle (H := plain_externals) cfg0 env2 (POST_login login) store_password_changed
      = (store_password_changed,
         Response 401 (JErrorResponse "Unauthorized" "Invalid email or password"
                         (Some "INVALID_CREDENTIALS"))).
Proof.
  apply (change_password_takes_effect (H := plain_externals) cfg0
           (env_at 3000000) alice_rotated_access
           (JWTPayload.mk (User.select 1 alice) 2000 5600)
           (User.set_lastLogin 2000000 alice)
           (ChangePasswordBody.mk "Aa1!aaaa" "Bb2?bbbb")
           (ChangePasswordBody.mk "Aa1!aaaa" "Bb2?bbbb") store_two_logins).
  1-5: vm_compute; reflexivity.
  apply (bool_decide_unpack _). vm_compute. exact I.
Defined.

Lemma register_refuses_known_email_witness :
  ((∃ id u, users store0 !! id = Some u ∧ User.email u = "a@x.com")
   ↔ (handle (H := plain_externals) cfg0 (env_at 1000100)
        (POST_register (RegisterBody.mk "a@x.com" "Cc3!cccc" "Carol" "Example" None None))
        store0).2
     = Response 409 (JErrorResponse "Conflict" "User with this email already exists"
                       (Some "USER_EXISTS")))
  ∧ ((∃ id u, users store0 !! id = Some u ∧ User.email u = "a@x.com") →
     (handle (H := plain_externals) cfg0 (env_at 1000100)
        (POST_register (RegisterBody.mk "a@x.com" "Cc3!cccc" "Carol" "Example" None None))
        store0).1 = store0).
Proof.
  apply (register_refuses_known_email (H := plain_externals) cfg0 (env_at 1000100)
           (RegisterBody.mk "a@x.com" "Cc3!cccc" "Carol" "Example" None None)
           (RegisterBody.mk "a@x.com" "Cc3!cccc" "Carol" "Example" None None) store0).
  reflexivity.
Defined.

Lemma register_then_login_witness :
  (handle (H := plain_externals) cfg0 (env_at 2000000)
     (POST_login (LoginBody.mk "c@x.com" "Cc3!cccc")) store_carol_registered).2
  = Response 200 (JSession "Login successful" carol
                    (generateTokens cfg0 carol 2000000).1
                    (generateTokens cfg0 carol 2000000).2).
Proof.
  apply (register_then_login (H := plain_externals) cfg0 (env_at 1000100)
           (env_at 2000000) carol_registration (LoginBody.mk "c@x.com" "Cc3!cccc")
           (LoginBody.mk "c@x.com" "Cc3!cccc") store0 store_carol_registered
           "User registered successfully" carol
           (generateTokens cfg0 carol 1000100).1 (generateTokens cfg0 carol 1000100).2).
  1-5: vm_compute; reflexivity.
  apply (bool_decide_unpack _). vm_compute. exact I.
Defined.

(** X24. The tokens a refresh returns are signed, at the clock of the
    request, for the identity read from the live row of the account that
    owns the session storing the presented token: neither the claims of the
    presented token nor those of the session's old access token are copied. *)
Theorem refresh_issues_live_claims `{Externals} cfg env tok st st' msg a r :
  handle cfg env (POST_refresh (Some tok)) st = (st', Response 200 (JTokens msg a r)) →
  ∃ id s row,
    userSessions st !! id = Some s
    ∧ UserSession.refreshToken s = Some tok
    ∧ users st !! UserSession.userId s = Some row
    ∧ a = Jwt.sign (User.select (UserSession.userId s) row) (Config.secret cfg)
            (Config.expiresIn cfg) (Env.now env)
    ∧ r = Jwt.sign (User.select (UserSession.userId s) row) (Config.refreshSecret cfg)
            (Config.refreshExpiresIn cfg) (Env.now env)
    ∧ userSessions st' !! id
      = Some (UserSession.set_tokens a r (Env.now env + SEVEN_DAYS)%Z s).
Proof.
  cbn [handle]. unfold asyncHandler, catch_all. intros Hrun.
  destruct (refresh_handler_cases cfg (Some tok) (Env.now env) st)
    as [[e He]|(tok' & p & id & s & row & Htok & Hv & Hs & Hp & Hrow & Hact & Hclash & He)].
  { rewrite He in Hrun.
    destruct (next_error_body (Config.env cfg) e) as [(err & m & code & Hb)|Hb];
      injection Hrun as _ Hr; rewrite Hr in Hb; discriminate Hb. }
  rewrite He in Hrun. simplify_eq.
  apply andb_prop in Hp as [Hp _]. apply andb_prop in Hp as [Hp _].
  apply bool_decide_eq_true in Hp.
  exists id, s, row. repeat split; try done.
  simpl. by rewrite lookup_insert_eq.
Qed.

Lemma refresh_issues_live_claims_witness :
  ∃ id s row,
    userSessions store_alice_promoted !! id = Some s
    ∧ UserSession.refreshToken s = Some alice_login_refresh
    ∧ users store_alice_promoted !! UserSession.userId s = Some row
    ∧ Jwt.sign (User.select 1 alice_promoted) (Config.secret cfg0) (Config.expiresIn cfg0)
        2000000
      = Jwt.sign (User.select (UserSession.userId s) row) (Config.secret cfg0)
          (Config.expiresIn cfg0) (Env.now (env_at 2000000))
    ∧ Jwt.sign (User.select 1 alice_promoted) (Config.refreshSecret cfg0)
        (Config.refreshExpiresIn cfg0) 2000000
      = Jwt.sign (User.select (UserSession.userId s) row) (Config.refreshSecret cfg0)
          (Config.refreshExpiresIn cfg0) (Env.now (env_at 2000000))
    ∧ userSessions
        (handle (H := plain_externals) cfg0 (env_at 2000000)
           (POST_refresh (Some alice_login_refresh)) store_alice_promoted).1 !! id
      = Some (UserSession.set_tokens
                (Jwt.sign (User.select 1 alice_promoted) (Config.secret cfg0)
                   (Config.expiresIn cfg0) 2000000)
                (Jwt.sign (User.select 1 alice_promoted) (Config.refreshSecret cfg0)
                   (Config.refreshExpiresIn cfg0) 2000000)
                (Env.now (env_at 2000000) + SEVEN_DAYS)%Z s).
Proof.
  apply (refresh_issues_live_claims (H := plain_externals) cfg0 (env_at 2000000)
           alice_login_refresh store_alice_promoted
           (handle (H := plain_externals) cfg0 (env_at 2000000)
              (POST_refresh (Some alice_login_refresh)) store_alice_promoted).1
           "Tokens refreshed successfully").
  vm_compute. reflexivity.
Defined.

(** ** The two authentication middlewares *)

(** X25. [authMiddleware] and [optionalAuthMiddleware] decide alike. Either
    [authMiddleware] answers one of its four refusals (never "Access token
    has expired" and never 500), writes nothing, and [optionalAuthMiddleware]
    lets the request through anonymously; or both attach the same identity,
    and [optionalAuthMiddleware] does so without writing anything. *)
Theorem auth_middlewares_agree cfg hdr now st :
  (∃ r, authMiddleware cfg hdr now st = (st, Send r)
        ∧ r ∈ [Response 401 (JError "Unauthorized" "Access token is required");
               Response 401 (JError "Unauthorized" "Invalid access token");
               Response 401 (JError "Unauthorized" "User not found");
               Response 403 (JError "Forbidden" "Account is not active")]
        ∧ optionalAuthMiddleware cfg hdr now st = (st, Next None))
  ∨ (∃ u, (authMiddleware cfg hdr now st).2 = Next (Some u)
          ∧ optionalAuthMiddleware cfg hdr now st = (st, Next (Some u))).
Proof.
  unfold authMiddleware, optionalAuthMiddleware, catch_all, authMiddleware_try,
    optionalAuthMiddleware_try.
  destruct hdr as [[tok|raw]|]; simpl.
  2,3: left; eexists; split; [done|]; split; [|done]; repeat constructor.
  unfold bind, lift, prisma.user.findUnique, prisma.user.update.
  destruct (Jwt.verify tok (Config.secret cfg) now) as [e|p] eqn:Hv.
  { left. unfold authMiddleware_catch. rewrite (verify_error_is_jwt _ _ _ _ Hv).
    eexists; split; [done|]; split; [|done]; repeat constructor. }
  destruct (users st !! JWTPayload.userId p) as [row|] eqn:Hu; simpl.
  2:{ left. eexists; split; [done|]; split; [|done]; repeat constructor. }
  destruct (decide (User.subscriptionStatus row = ACTIVE)) as [Hs|Hs].
  - right. rewrite bool_decide_eq_false_2 by (intros Hn; by apply Hn).
    rewrite bool_decide_eq_true_2 by done. simpl. rewrite Hu. simpl. by eexists.
  - left. rewrite bool_decide_eq_true_2 by done.
    rewrite bool_decide_eq_false_2 by done. simpl.
    eexists; split; [done|]; split; [|done]; repeat constructor.
Qed.

(** ** config.ts *)

Lemma string_min_Some n v s :
  string_min n v = Some s → v = Some s ∧ (n ≤ String.length s)%nat.
Proof.
  unfold string_min. destruct v as [s'|]; [|done].
  case_bool_decide; [|done]. intros. by simplify_eq.
Qed.

Lemma enabled_nonempty s : (1 ≤ String.length s)%nat → enabled (Some s) = true.
Proof. destruct s; simpl; [lia|done]. Qed.

Section ConfigProperties.
Context `{Zod}.

Lemma envSchema_parse_required env parsed :
  envSchema_parse env = Some parsed →
  env !! "DATABASE_URL" = Some (ParsedEnv.DATABASE_URL parsed)
  ∧ env !! "JWT_SECRET" = Some (ParsedEnv.JWT_SECRET parsed)
  ∧ env !! "JWT_REFRESH_SECRET" = Some (ParsedEnv.JWT_REFRESH_SECRET parsed)
  ∧ (1 ≤ String.length (ParsedEnv.DATABASE_URL parsed))%nat
  ∧ (32 ≤ String.length (ParsedEnv.JWT_SECRET parsed))%nat
  ∧ (32 ≤ String.length (ParsedEnv.JWT_REFRESH_SECRET parsed))%nat.
Proof.
  unfold envSchema_parse. intros Hp.
  repeat match goal with
         | Hp : (?m ≫= _) = Some _ |- _ =>
             let E := fresh "E" in destruct m eqn:E; simpl in Hp; [|done]
         end.
  simplify_eq. simpl.
  repeat match goal with
         | E : string_min _ _ = Some _ |- _ => apply string_min_Some in E as [? ?]
         end.
  done.
Qed.

(** X26. Loading [config.ts] ends in one of two ways only: [envSchema.parse]
    throws, or the configuration is exported. The production check at the
    end of the file can never throw, in any environment: what it tests is
    already guaranteed by the schema. *)
Theorem production_check_never_fires env :
  load_config env = ZodFailure
  ∨ ∃ parsed, envSchema_parse env = Some parsed
              ∧ load_config env = Loaded parsed (features parsed).
Proof.
  unfold load_config. destruct (envSchema_parse env) as [parsed|] eqn:Hp; [|by left].
  right. exists parsed. split; [done|].
  destruct (envSchema_parse_required _ _ Hp) as (_ & _ & _ & Hd & Hs & Hr).
  unfold missingForProduction. cbn [List.filter].
  rewrite !enabled_nonempty by lia. cbn [negb length].
  by rewrite andb_false_r.
Qed.

(** X27. A configuration that loads has both JWT secrets at least 32
    characters long, and that is all that is asked of them: the same
    environment with [JWT_REFRESH_SECRET] set to the value of [JWT_SECRET]
    loads as well, with the two secrets equal. *)
Theorem startup_checks_secret_length_only env parsed flags :
  load_config env = Loaded parsed flags →
  (32 ≤ String.length (ParsedEnv.JWT_SECRET parsed))%nat
  ∧ (32 ≤ String.length (ParsedEnv.JWT_REFRESH_SECRET parsed))%nat
  ∧ ∃ parsed' flags',
      load_config (<["JWT_REFRESH_SECRET" := ParsedEnv.JWT_SECRET parsed]> env)
      = Loaded parsed' flags'
      ∧ ParsedEnv.JWT_REFRESH_SECRET parsed' = ParsedEnv.JWT_SECRET parsed'.
Proof.
  unfold load_config. destruct (envSchema_parse env) as [parsed0|] eqn:Hp; [|done].
  destruct (envSchema_parse_required _ _ Hp) as (Hdb & Hsec & Href & Hd & Hs & Hr).
  case_match; [done|]. intros Heq. simplify_eq.
  split; [done|]. split; [done|].
  assert (∃ parsed',
            envSchema_parse (<["JWT_REFRESH_SECRET" := ParsedEnv.JWT_SECRET parsed]> env)
            = Some parsed'
            ∧ ParsedEnv.JWT_REFRESH_SECRET parsed' = ParsedEnv.JWT_SECRET parsed')
    as (parsed' & Hp' & Heq).
  { clear H0. unfold envSchema_parse in *.
    rewrite lookup_insert_eq. rewrite !lookup_insert_ne by done.
    rewrite Hsec in *. clear Href.
    repeat match goal with
           | Hp : (?m ≫= _) = Some _ |- _ =>
               let E := fresh "E" in destruct m eqn:E; simpl in Hp; [|done]
           end.
    simplify_eq. simpl in *.
    unfold string_min. rewrite bool_decide_eq_true_2 by done. simpl.
    eexists. split; reflexivity. }
  exists parsed', (features parsed'). rewrite Hp'. split; [|done].
  destruct (envSchema_parse_required _ _ Hp') as (_ & _ & _ & Hd' & Hs' & Hr').
  unfold missingForProduction. cbn [List.filter].
  rewrite !enabled_nonempty by lia. cbn [negb length].
  by rewrite andb_false_r.
Qed.
End ConfigProperties.

Lemma startup_checks_secret_length_only_witness :
  ∃ parsed flags,
    load_config (H := plain_zod) process_env0 = Loaded parsed flags
    ∧ (32 ≤ String.length (ParsedEnv.JWT_SECRET parsed))%nat
    ∧ (32 ≤ String.length (ParsedEnv.JWT_REFRESH_SECRET parsed))%nat
    ∧ ∃ parsed' flags',
        load_config (H := plain_zod)
          (<["JWT_REFRESH_SECRET" := ParsedEnv.JWT_SECRET parsed]> process_env0)
        = Loaded parsed' flags'
        ∧ ParsedEnv.JWT_REFRESH_SECRET parsed' = ParsedEnv.JWT_SECRET parsed'.
Proof.
  eexists _, _. split; [vm_compute; reflexivity|].
  eapply (startup_checks_secret_length_only (H := plain_zod) process_env0).
  vm_compute. reflexivity.
Defined.
